(** * Slack MCP adapter

    A shallow embedding of the two layers of [project/slack_mcp]:

    - [slack_api.py]: the transport client [SlackAPIClient], one generic
      request primitive [_make_request] and the typed operations built on it;
    - [slack_mcp_server.py]: the tool procedures registered with
      [@mcp.tool()], each a [try]/[except] block around one client call.

    Python values are dynamically typed, so JSON payloads and the fields
    copied out of them are values of [pyval]; exceptions are values of
    [exn]; a procedure is a function in the monad [M], which threads the log
    of outbound HTTP requests and may raise.  What the Python runtime, the
    [requests] library, the file system and the remote service decide is
    collected in the record [Runtime]. *)

From Stdlib Require Import String Ascii List ZArith Lia Bool DecimalString.
From Stdlib Require Import Floats.SpecFloat.
From Stdlib Require Import Sorting.Permutation Sorting.Sorted.
Import ListNotations.
Open Scope Z_scope.
Open Scope list_scope.
Open Scope string_scope.
Set Warnings "-register-all".

(** ** Python strings

    A [str] is modelled by its UTF-8 bytes.  Concatenation, prefix and
    substring tests agree with the code-point view on valid UTF-8. *)

Definition startswith (s p : string) : bool := String.prefix p s.

(** [sub in s] *)
Fixpoint contains (s sub : string) : bool :=
  if String.prefix sub s then true
  else match s with
       | EmptyString => false
       | String _ s' => contains s' sub
       end.

Fixpoint lstrip_by (p : ascii -> bool) (s : string) : string :=
  match s with
  | EmptyString => EmptyString
  | String a s' => if p a then lstrip_by p s' else s
  end.

Fixpoint rstrip_by (p : ascii -> bool) (s : string) : string :=
  match s with
  | EmptyString => EmptyString
  | String a s' =>
      match rstrip_by p s' with
      | EmptyString => if p a then EmptyString else String a EmptyString
      | r => String a r
      end
  end.

(** [s.strip(chars)] for the set of characters [p] *)
Definition strip_by (p : ascii -> bool) (s : string) : string :=
  lstrip_by p (rstrip_by p s).

Definition is_colon (a : ascii) : bool := Ascii.eqb a ":".

(** The white space of [str.strip()]: the code points for which
    [str.isspace] holds, by the length of their UTF-8 form.  One byte:
    U+0009..U+000D and U+001C..U+0020. *)
Definition space1 (a : ascii) : bool :=
  let n := nat_of_ascii a in
  ((Nat.leb 9 n && Nat.leb n 13) || (Nat.leb 28 n && Nat.leb n 32))%bool.

(** Two bytes: U+0085 (C2 85) and U+00A0 (C2 A0) *)
Definition space2 (a b : ascii) : bool :=
  let n := nat_of_ascii b in
  (Nat.eqb (nat_of_ascii a) 194 && (Nat.eqb n 133 || Nat.eqb n 160))%bool.

(** Three bytes: U+1680 (E1 9A 80), U+2000..U+200A (E2 80 80..8A), U+2028,
    U+2029 and U+202F (E2 80 A8, A9, AF), U+205F (E2 81 9F), U+3000
    (E3 80 80) *)
Definition space3 (a b c : ascii) : bool :=
  let l := nat_of_ascii a in
  let m := nat_of_ascii b in
  let n := nat_of_ascii c in
  ((Nat.eqb l 225 && Nat.eqb m 154 && Nat.eqb n 128)
   || (Nat.eqb l 226 && Nat.eqb m 128
       && ((Nat.leb 128 n && Nat.leb n 138)
           || Nat.eqb n 168 || Nat.eqb n 169 || Nat.eqb n 175))
   || (Nat.eqb l 226 && Nat.eqb m 129 && Nat.eqb n 159)
   || (Nat.eqb l 227 && Nat.eqb m 128 && Nat.eqb n 128))%bool.

(** [s.lstrip()] *)
Fixpoint py_lstrip (s : string) : string :=
  match s with
  | EmptyString => EmptyString
  | String a s1 =>
      if space1 a then py_lstrip s1
      else
        match s1 with
        | EmptyString => s
        | String b s2 =>
            if space2 a b then py_lstrip s2
            else
              match s2 with
              | EmptyString => s
              | String c s3 => if space3 a b c then py_lstrip s3 else s
              end
        end
  end.

(** [s.rstrip()]: the string is cut where only white space follows.  (What
    follows a byte inside a character never reads as white space, so the
    cut falls between two characters.) *)
Fixpoint py_rstrip (s : string) : string :=
  match s with
  | EmptyString => EmptyString
  | String a s' =>
      match py_lstrip s with
      | EmptyString => EmptyString
      | _ => String a (py_rstrip s')
      end
  end.

(** [s.strip()] *)
Definition py_strip (s : string) : string := py_lstrip (py_rstrip s).

(** [s.split(sep)] for a one-character separator *)
Fixpoint split_char (c : ascii) (s : string) : list string :=
  match s with
  | EmptyString => [EmptyString]
  | String a s' =>
      let r := split_char c s' in
      if Ascii.eqb a c then EmptyString :: r
      else match r with
           | [] => [String a EmptyString]
           | h :: t => String a h :: t
           end
  end.

Fixpoint has_char (c : ascii) (s : string) : bool :=
  match s with
  | EmptyString => false
  | String a s' => (Ascii.eqb a c || has_char c s')%bool
  end.

(** [sep.join(l)] *)
Fixpoint join (sep : string) (l : list string) : string :=
  match l with
  | [] => ""
  | [x] => x
  | x :: rest => x ++ sep ++ join sep rest
  end.

Definition upper_ascii (a : ascii) : ascii :=
  let n := nat_of_ascii a in
  if (Nat.leb 97 n && Nat.leb n 122)%bool then ascii_of_nat (n - 32) else a.

(** [s.upper()] on ASCII letters *)
Fixpoint upper (s : string) : string :=
  match s with
  | EmptyString => EmptyString
  | String a s' => String (upper_ascii a) (upper s')
  end.

(** [os.path.basename]: what follows the last slash *)
Fixpoint basename (p : string) : string :=
  match p with
  | EmptyString => EmptyString
  | String a p' =>
      if has_char "/" p' then basename p'
      else if Ascii.eqb a "/" then p' else p
  end.

(** [s[1:]] *)
Definition slice_from_1 (s : string) : string :=
  match s with
  | EmptyString => EmptyString
  | String _ s' => s'
  end.

(** [str(n)] for an [int] *)
Definition str_int (z : Z) : string := NilZero.string_of_int (Z.to_int z).

Definition str_len {A} (l : list A) : string := str_int (Z.of_nat (length l)).

(** ** Python values *)

Inductive pyval : Type :=
| PNone
| PBool (b : bool)
| PInt (z : Z)
| PFloat (f : spec_float)
| PStr (s : string)
| PList (l : list pyval)
| PDict (d : list (string * pyval)).

(** A [dict] with string keys in insertion order; the first binding of a
    key is the one that counts. *)
Definition dict := list (string * pyval).

Fixpoint dict_get (d : dict) (k : string) : option pyval :=
  match d with
  | [] => None
  | (k', v) :: d' => if String.eqb k' k then Some v else dict_get d' k
  end.

(** [d.get(k, default)] *)
Definition dict_get_default (d : dict) (k : string) (default : pyval) : pyval :=
  match dict_get d k with
  | Some v => v
  | None => default
  end.

(** [d[k] = v] *)
Fixpoint dict_set (d : dict) (k : string) (v : pyval) : dict :=
  match d with
  | [] => [(k, v)]
  | (k', v') :: d' =>
      if String.eqb k' k then (k', v) :: d' else (k', v') :: dict_set d' k v
  end.

(** [bool(v)] *)
Definition truthy (v : pyval) : bool :=
  match v with
  | PNone => false
  | PBool b => b
  | PInt z => negb (Z.eqb z 0)
  | PFloat (S754_zero _) => false
  | PFloat _ => true
  | PStr EmptyString => false
  | PStr _ => true
  | PList [] => false
  | PList _ => true
  | PDict [] => false
  | PDict _ => true
  end.

Definition type_name (v : pyval) : string :=
  match v with
  | PNone => "NoneType"
  | PBool _ => "bool"
  | PInt _ => "int"
  | PFloat _ => "float"
  | PStr _ => "str"
  | PList _ => "list"
  | PDict _ => "dict"
  end.

(** [v == s] for a [str] literal or variable [s] *)
Definition eq_str (v : pyval) (s : string) : bool :=
  match v with
  | PStr s' => String.eqb s' s
  | _ => false
  end.

(** [v in [s1, s2, ...]] *)
Definition in_strs (v : pyval) (l : list string) : bool := existsb (eq_str v) l.

(** An [Optional[str]] argument *)
Definition opt_str (o : option string) : pyval :=
  match o with
  | Some s => PStr s
  | None => PNone
  end.

(** ** Exceptions

    Only subclasses of [Exception] are modelled: they are what the client,
    [requests] and the built-ins raise.  ([KeyboardInterrupt], [SystemExit]
    and task cancellation derive from [BaseException] alone and are outside
    this model.) *)

Inductive exc_class : Type :=
| RequestException          (* requests.exceptions.RequestException *)
| HTTPError                 (* raised by raise_for_status *)
| ConnectionError_
| Timeout
| RequestsJSONDecodeError   (* requests.exceptions.JSONDecodeError *)
| JSONDecodeError           (* json.JSONDecodeError *)
| KeyError
| IndexError
| AttributeError
| TypeError
| ValueError
| OverflowError
| OSError
| OtherException.

(** [isinstance(e, requests.exceptions.RequestException)] *)
Definition is_RequestException (c : exc_class) : bool :=
  match c with
  | RequestException | HTTPError | ConnectionError_ | Timeout
  | RequestsJSONDecodeError => true
  | _ => false
  end.

(** [isinstance(e, json.JSONDecodeError)].  The class [requests] raises
    from [response.json()] since its release 2.27 derives from both
    [RequestException] and [json.JSONDecodeError]. *)
Definition is_JSONDecodeError (c : exc_class) : bool :=
  match c with
  | JSONDecodeError | RequestsJSONDecodeError => true
  | _ => false
  end.

(** [isinstance(e, (ValueError, TypeError))] *)
Definition is_ValueError_or_TypeError (c : exc_class) : bool :=
  match c with
  | ValueError | TypeError | JSONDecodeError | RequestsJSONDecodeError => true
  | _ => false
  end.

(** [class SlackAPIError(Exception)] keeps [error] and [response]; any other
    exception is its class and its [str(e)]. *)
Inductive exn : Type :=
| SlackAPIError (error : pyval) (response : option dict)
| PyExc (c : exc_class) (msg : string).

Inductive outcome (A : Type) : Type :=
| Return (a : A)
| Raise (e : exn).
Arguments Return {A} a.
Arguments Raise {A} e.

(** ** HTTP exchanges *)

Inductive Request : Type :=
| HttpGet (url : string) (headers : list (string * string))
          (params : option dict) (timeout : Z)
| HttpPostJson (url : string) (headers : list (string * string))
               (json : option dict) (timeout : Z)
| HttpPostFiles (url : pyval) (field file_name content content_type : string).

(** A [requests.Response]: [json] is what [response.json()] gives, a
    decoded body or the exception the decoder raises. *)
Record Response : Type := mkResponse {
  status_code : Z;
  reason : string;
  resp_url : string;
  json : outcome pyval
}.

(** What the program does not decide. *)
Record Runtime : Type := mkRuntime {
  (** the remote end: the outcome of [requests.get]/[requests.post], given
      the requests already made *)
  remote : list Request -> Request -> outcome Response;
  (** [os.path.exists], [os.path.getsize], [open(path, 'rb')] *)
  path_exists : string -> bool;
  path_getsize : string -> outcome Z;
  open_rb : string -> outcome string;
  (** [float(v)] *)
  py_float : pyval -> outcome spec_float;
  (** [datetime.fromtimestamp(f).strftime("%Y-%m-%d %H:%M:%S")] *)
  strftime_local : spec_float -> outcome string;
  (** [datetime.now().strftime('%Y-%m-%d %H:%M:%S')] *)
  now_strftime : string;
  (** [repr(v)] of a float, list or dict *)
  py_repr : pyval -> string;
  (** [list.sort(key=...)] on a list of which some key is a NaN, given as
      the keys with their elements: [<] is no order on such keys, and the
      result depends on the sorting algorithm of the interpreter *)
  sort_with_nan : forall A : Type, list (spec_float * A) -> list (spec_float * A)
}.

(** ** The monad of procedures: a log of outbound requests, and exceptions *)

Definition Log := list Request.
Definition M (A : Type) : Type := Log -> outcome A * Log.

Definition ret {A} (a : A) : M A := fun log => (Return a, log).
Definition raise {A} (e : exn) : M A := fun log => (Raise e, log).
Definition bind {A B} (m : M A) (k : A -> M B) : M B :=
  fun log =>
    match m log with
    | (Return a, log') => k a log'
    | (Raise e, log') => (Raise e, log')
    end.
Definition lift {A} (o : outcome A) : M A := fun log => (o, log).

Notation "x <- m ;; k" := (bind m (fun x => k))
  (at level 61, m at next level, right associativity).
Notation "m ;;; k" := (bind m (fun _ => k))
  (at level 61, right associativity).

(** [try: body  except C1 as e: h1  except C2 as e: h2 ...]: a clause
    answers [None] when the exception is not of its class; the first clause
    that matches runs, and an exception no clause matches propagates.  An
    exception raised by a handler is not offered to the later clauses. *)
Definition clause (A : Type) : Type := exn -> option (M A).

Fixpoint dispatch {A} (clauses : list (clause A)) (e : exn) : M A :=
  match clauses with
  | [] => raise e
  | c :: rest =>
      match c e with
      | Some h => h
      | None => dispatch rest e
      end
  end.

Definition try_except {A} (body : M A) (clauses : list (clause A)) : M A :=
  fun log =>
    match body log with
    | (Return a, log') => (Return a, log')
    | (Raise e, log') => dispatch clauses e log'
    end.

(** [except SlackAPIError as e], with [e.error] and [e.response] *)
Definition except_SlackAPIError {A} (h : pyval -> option dict -> M A) : clause A :=
  fun e =>
    match e with
    | SlackAPIError error response => Some (h error response)
    | PyExc _ _ => None
    end.

(** [except <built-in or requests class> as e], with [str(e)] *)
Definition except_class {A} (p : exc_class -> bool) (h : string -> M A) : clause A :=
  fun e =>
    match e with
    | SlackAPIError _ _ => None
    | PyExc c msg => if p c then Some (h msg) else None
    end.

(** [except Exception as e] and the bare [except:] *)
Definition except_Exception {A} (h : exn -> M A) : clause A :=
  fun e => Some (h e).

(** [for x in l: ...] collecting one result per element, left to right *)
Fixpoint for_each {A B} (f : A -> M B) (l : list A) : M (list B) :=
  match l with
  | [] => ret []
  | x :: l' => y <- f x ;; ys <- for_each f l' ;; ret (y :: ys)
  end.

(** A loop whose body may [continue] without appending *)
Fixpoint for_each_opt {A B} (f : A -> M (option B)) (l : list A) : M (list B) :=
  match l with
  | [] => ret []
  | x :: l' =>
      y <- f x ;; ys <- for_each_opt f l' ;;
      ret (match y with Some b => b :: ys | None => ys end)
  end.

(** ** Operations on dynamically typed values *)

Definition no_attribute (v : pyval) (attr : string) : exn :=
  PyExc AttributeError ("'" ++ type_name v ++ "' object has no attribute '" ++ attr ++ "'").

(** [v.get(k, default)]: only a [dict] has [get] *)
Definition py_get (v : pyval) (k : string) (default : pyval) : outcome pyval :=
  match v with
  | PDict d => Return (dict_get_default d k default)
  | _ => Raise (no_attribute v "get")
  end.

(** [v[k]] for a [str] key *)
Definition py_getitem (v : pyval) (k : string) : outcome pyval :=
  match v with
  | PDict d =>
      match dict_get d k with
      | Some x => Return x
      | None => Raise (PyExc KeyError ("'" ++ k ++ "'"))
      end
  | PStr _ => Raise (PyExc TypeError "string indices must be integers, not 'str'")
  | PList _ => Raise (PyExc TypeError "list indices must be integers or slices, not str")
  | _ => Raise (PyExc TypeError ("'" ++ type_name v ++ "' object is not subscriptable"))
  end.

(** [v[0]] *)
Definition py_getitem0 (v : pyval) : outcome pyval :=
  match v with
  | PList (x :: _) => Return x
  | PList [] => Raise (PyExc IndexError "list index out of range")
  | PStr (String a _) => Return (PStr (String a EmptyString))
  | PStr EmptyString => Raise (PyExc IndexError "string index out of range")
  | PDict _ => Raise (PyExc KeyError "0")
  | _ => Raise (PyExc TypeError ("'" ++ type_name v ++ "' object is not subscriptable"))
  end.

Fixpoint chars (s : string) : list pyval :=
  match s with
  | EmptyString => []
  | String a s' => PStr (String a EmptyString) :: chars s'
  end.

(** The elements a [for] loop over [v] visits *)
Definition py_iter (v : pyval) : outcome (list pyval) :=
  match v with
  | PList l => Return l
  | PStr s => Return (chars s)
  | PDict d => Return (map (fun kv => PStr (fst kv)) d)
  | _ => Raise (PyExc TypeError ("'" ++ type_name v ++ "' object is not iterable"))
  end.

(** [len(v)] *)
Definition py_len (v : pyval) : outcome Z :=
  match v with
  | PList l => Return (Z.of_nat (length l))
  | PStr s => Return (Z.of_nat (String.length s))
  | PDict d => Return (Z.of_nat (length d))
  | _ => Raise (PyExc TypeError ("object of type '" ++ type_name v ++ "' has no len()"))
  end.

(** ** slack_api.py *)

Record SlackMessage : Type := mkSlackMessage {
  msg_text : pyval;
  msg_user : pyval;
  msg_timestamp : pyval;
  msg_channel : string;
  msg_user_name : pyval;
  msg_thread_ts : pyval
}.

Record SlackChannel : Type := mkSlackChannel {
  ch_id : pyval;
  ch_name : pyval;
  ch_is_private : pyval;
  ch_is_member : pyval;
  ch_topic : pyval;
  ch_purpose : pyval;
  ch_num_members : pyval
}.

Record SlackUser : Type := mkSlackUser {
  u_id : pyval;
  u_name : pyval;
  u_real_name : pyval;
  u_email : pyval;
  u_is_bot : pyval;
  u_is_admin : pyval;
  u_status : pyval
}.

Record SlackAPIClient : Type := mkSlackAPIClient {
  token : string;
  headers : list (string * string)
}.

Definition BASE_URL : string := "https://slack.com/api".

(** [SlackAPIClient.__init__] *)
Definition SlackAPIClient_init (token : string) : SlackAPIClient :=
  {| token := token;
     headers := [("Authorization", "Bearer " ++ token);
                 ("Content-Type", "application/json; charset=utf-8");
                 ("User-Agent", "SlackMCP/1.0")] |}.

Definition nl : string := String (ascii_of_nat 10) EmptyString.

(** The subtypes [get_channel_history] skips *)
Definition skipped_subtypes : list string :=
  ["bot_message"; "channel_join"; "channel_leave"].

Definition channels_scope_guidance : string :=
  "채널 목록 조회 권한이 없습니다. 'channels:read' 스코프가 필요합니다.".

Definition history_scope_guidance : string :=
  "채널 히스토리 조회 권한이 없습니다. 'channels:history' 스코프가 필요합니다.".

Section Client.

Context (rt : Runtime).

(** [str(v)], the rendering of [{v}] in an f-string *)
Definition py_str (v : pyval) : string :=
  match v with
  | PStr s => s
  | PNone => "None"
  | PBool true => "True"
  | PBool false => "False"
  | PInt z => str_int z
  | _ => py_repr rt v
  end.

(** [str(e)]; [SlackAPIError.__init__] passes
    [f"Slack API Error: {error}"] to [Exception.__init__]. *)
Definition str_exn (e : exn) : string :=
  match e with
  | SlackAPIError error _ => "Slack API Error: " ++ py_str error
  | PyExc _ msg => msg
  end.

(** One outbound request: it is logged, and the remote end answers. *)
Definition http (req : Request) : M Response :=
  fun log => (remote rt log req, (log ++ [req])%list).

(** [response.raise_for_status()] *)
Definition raise_for_status (r : Response) : M unit :=
  if ((400 <=? status_code r) && (status_code r <? 500))%Z then
    raise (PyExc HTTPError (str_int (status_code r) ++ " Client Error: "
                            ++ reason r ++ " for url: " ++ resp_url r))
  else if ((500 <=? status_code r) && (status_code r <? 600))%Z then
    raise (PyExc HTTPError (str_int (status_code r) ++ " Server Error: "
                            ++ reason r ++ " for url: " ++ resp_url r))
  else ret tt.

(** [SlackAPIClient._make_request].  A result that passed
    [result.get('ok', False)] is a [dict]. *)
Definition _make_request (self : SlackAPIClient) (method endpoint : string)
    (data params : option dict) : M dict :=
  let url := BASE_URL ++ "/" ++ endpoint in
  try_except
    (response <-
       (if String.eqb (upper method) "GET"
        then http (HttpGet url (headers self) params 30)
        else http (HttpPostJson url (headers self) data 30)) ;;
     raise_for_status response ;;;
     result <- lift (json response) ;;
     match result with
     | PDict d =>
         if negb (truthy (dict_get_default d "ok" (PBool false))) then
           let error_msg := dict_get_default d "error" (PStr "Unknown error") in
           raise (SlackAPIError error_msg (Some d))
         else ret d
     | _ => raise (no_attribute result "get")
     end)
    [ except_class is_RequestException
        (fun e => raise (SlackAPIError (PStr ("Network error: " ++ e)) None));
      except_class is_JSONDecodeError
        (fun e => raise (SlackAPIError (PStr ("JSON decode error: " ++ e)) None)) ].

(** [SlackAPIClient.send_message]; [channel] is whatever the caller has
    (the direct-message path passes a field of a response). *)
Definition send_message (self : SlackAPIClient) (channel : pyval) (text : string)
    (thread_ts : pyval) : M dict :=
  channel <-
    match channel with
    | PStr s => ret (PStr (if startswith s "#" then slice_from_1 s else s))
    | _ => raise (no_attribute channel "startswith")
    end ;;
  let data := [("channel", channel); ("text", PStr text);
               ("unfurl_links", PBool true); ("unfurl_media", PBool true)] in
  let data := if truthy thread_ts then dict_set data "thread_ts" thread_ts else data in
  _make_request self "POST" "chat.postMessage" (Some data) None.

Definition channel_of_data (channel_data : pyval) : M SlackChannel :=
  id <- lift (py_getitem channel_data "id") ;;
  name <- lift (py_getitem channel_data "name") ;;
  is_private <- lift (py_get channel_data "is_private" (PBool false)) ;;
  is_member <- lift (py_get channel_data "is_member" (PBool false)) ;;
  topic <- lift (py_get channel_data "topic" (PDict [])) ;;
  topic <- lift (py_get topic "value" PNone) ;;
  purpose <- lift (py_get channel_data "purpose" (PDict [])) ;;
  purpose <- lift (py_get purpose "value" PNone) ;;
  num_members <- lift (py_get channel_data "num_members" PNone) ;;
  ret (mkSlackChannel id name is_private is_member topic purpose num_members).

(** [SlackAPIClient.get_channels] *)
Definition get_channels (self : SlackAPIClient) (exclude_archived : bool)
    : M (list SlackChannel) :=
  try_except
    (let params := [("types", PStr "public_channel");
                    ("exclude_archived", PBool exclude_archived);
                    ("limit", PInt 1000)] in
     result <- _make_request self "GET" "conversations.list" None (Some params) ;;
     channels <- lift (py_iter (dict_get_default result "channels" (PList []))) ;;
     for_each channel_of_data channels)
    [ except_SlackAPIError (fun error response =>
        if contains (py_str error) "missing_scope" then
          raise (SlackAPIError (PStr channels_scope_guidance) None)
        else raise (SlackAPIError error response)) ].

Definition history_message_of_data (channel_id : string) (msg_data : pyval)
    : M (option SlackMessage) :=
  subtype <- lift (py_get msg_data "subtype" PNone) ;;
  if in_strs subtype skipped_subtypes then ret None
  else
    text <- lift (py_get msg_data "text" (PStr "")) ;;
    user <- lift (py_get msg_data "user" (PStr "")) ;;
    ts <- lift (py_get msg_data "ts" (PStr "")) ;;
    thread_ts <- lift (py_get msg_data "thread_ts" PNone) ;;
    ret (Some (mkSlackMessage text user ts channel_id PNone thread_ts)).

(** [SlackAPIClient.get_channel_history] *)
Definition get_channel_history (self : SlackAPIClient) (channel_id : string)
    (limit : Z) (oldest latest : pyval) : M (list SlackMessage) :=
  try_except
    (let params := [("channel", PStr channel_id); ("limit", PInt (Z.min limit 100))] in
     let params := if truthy oldest then dict_set params "oldest" oldest else params in
     let params := if truthy latest then dict_set params "latest" latest else params in
     result <- _make_request self "GET" "conversations.history" None (Some params) ;;
     messages <- lift (py_iter (dict_get_default result "messages" (PList []))) ;;
     for_each_opt (history_message_of_data channel_id) messages)
    [ except_SlackAPIError (fun error response =>
        if contains (py_str error) "missing_scope" then
          raise (SlackAPIError (PStr history_scope_guidance) None)
        else raise (SlackAPIError error response)) ].

(** [SlackAPIClient.send_direct_message]; its handler only prints and
    re-raises. *)
Definition send_direct_message (self : SlackAPIClient) (user_id text : string)
    : M dict :=
  try_except
    (let dm_data := [("users", PStr user_id)] in
     dm_result <- _make_request self "POST" "conversations.open" (Some dm_data) None ;;
     dm_channel <- lift (py_getitem (PDict dm_result) "channel") ;;
     dm_channel_id <- lift (py_getitem dm_channel "id") ;;
     send_message self dm_channel_id text PNone)
    [ except_SlackAPIError (fun error response =>
        raise (SlackAPIError error response)) ].

Definition user_of_data (user_data : pyval) : M SlackUser :=
  id <- lift (py_getitem user_data "id") ;;
  name <- lift (py_getitem user_data "name") ;;
  real_name <- lift (py_get user_data "real_name" (PStr "")) ;;
  profile <- lift (py_get user_data "profile" (PDict [])) ;;
  email <- lift (py_get profile "email" PNone) ;;
  is_bot <- lift (py_get user_data "is_bot" (PBool false)) ;;
  is_admin <- lift (py_get user_data "is_admin" (PBool false)) ;;
  profile <- lift (py_get user_data "profile" (PDict [])) ;;
  status <- lift (py_get profile "status_text" PNone) ;;
  ret (mkSlackUser id name real_name email is_bot is_admin status).

(** [SlackAPIClient.get_users] *)
Definition get_users (self : SlackAPIClient) (limit : Z) : M (list SlackUser) :=
  let params := [("limit", PInt (Z.min limit 1000))] in
  result <- _make_request self "GET" "users.list" None (Some params) ;;
  members <- lift (py_iter (dict_get_default result "members" (PList []))) ;;
  for_each_opt
    (fun user_data =>
       deleted <- lift (py_get user_data "deleted" (PBool false)) ;;
       if truthy deleted then ret None
       else user <- user_of_data user_data ;; ret (Some user))
    members.

(** [SlackAPIClient.get_user_info] *)
Definition get_user_info (self : SlackAPIClient) (user_id : string) : M SlackUser :=
  let params := [("user", PStr user_id)] in
  result <- _make_request self "GET" "users.info" None (Some params) ;;
  user_data <- lift (py_getitem (PDict result) "user") ;;
  user_of_data user_data.

(** [SlackAPIClient.search_messages] *)
Definition search_messages (self : SlackAPIClient) (query : string) (count : Z)
    (sort : string) : M pyval :=
  try_except
    (let params := [("query", PStr query); ("count", PInt (Z.min count 100));
                    ("sort", PStr sort)] in
     result <- _make_request self "GET" "search.messages" None (Some params) ;;
     lift (py_get (dict_get_default result "messages" (PDict [])) "matches" (PList [])))
    [ except_SlackAPIError (fun error response =>
        if in_strs error ["not_allowed_token_type"; "missing_scope"] then
          raise (SlackAPIError
                   (PStr ("메시지 검색 권한이 없습니다. Slack 앱의 OAuth 스코프에 'search:read'를 추가해주세요. "
                          ++ "현재 오류: " ++ py_str error)) None)
        else raise (SlackAPIError error response)) ].

(** The loop of [upload_file] that looks a channel name up: the [id] of the
    first channel whose [name] equals [channels], [None] when there is none. *)
Fixpoint lookup_channel_id (channel_list : list SlackChannel) (channels : string)
    : pyval :=
  match channel_list with
  | [] => PNone
  | channel :: rest =>
      if eq_str (ch_name channel) channels then ch_id channel
      else lookup_channel_id rest channels
  end.

(** [SlackAPIClient.upload_file]; [channels] is a [str] or a list of [str],
    [title] and [initial_comment] a [str] or [None]. *)
Definition upload_file (self : SlackAPIClient) (channels : pyval)
    (file_path : string) (title initial_comment : pyval) : M dict :=
  if negb (path_exists rt file_path) then
    raise (SlackAPIError (PStr ("파일을 찾을 수 없습니다: " ++ file_path)) None)
  else
    try_except
      (channels <-
         match channels with
         | PStr name =>
             if negb (startswith name "C") then
               channel_list <- get_channels self true ;;
               let channel_id := lookup_channel_id channel_list name in
               if negb (truthy channel_id) then
                 raise (SlackAPIError (PStr ("채널을 찾을 수 없습니다: " ++ name)) None)
               else ret channel_id
             else ret channels
         | _ => ret channels
         end ;;
       file_size <- lift (path_getsize rt file_path) ;;
       let file_name := basename file_path in
       (* step 1: ask for an upload URL *)
       let upload_data := [("filename", PStr file_name); ("length", PInt file_size)] in
       upload_result <-
         _make_request self "GET" "files.getUploadURLExternal" None (Some upload_data) ;;
       upload_url <- lift (py_getitem (PDict upload_result) "upload_url") ;;
       file_id <- lift (py_getitem (PDict upload_result) "file_id") ;;
       (* step 2: send the bytes *)
       f <- lift (open_rb rt file_path) ;;
       response <-
         http (HttpPostFiles upload_url "file" file_name f "application/octet-stream") ;;
       (if negb (status_code response =? 200)%Z then
          raise (SlackAPIError
                   (PStr ("파일 업로드 실패: HTTP " ++ str_int (status_code response))) None)
        else ret tt) ;;;
       (* step 3: complete the upload *)
       channel_id <-
         match channels with
         | PStr _ => ret channels
         | _ => lift (py_getitem0 channels)
         end ;;
       let complete_data :=
         [("files", PList [PDict [("id", file_id);
                                  ("title", if truthy title then title else PStr file_name)]]);
          ("channel_id", channel_id)] in
       let complete_data :=
         if truthy initial_comment
         then dict_set complete_data "initial_comment" initial_comment
         else complete_data in
       _make_request self "POST" "files.completeUploadExternal" (Some complete_data) None)
      [ except_class is_RequestException
          (fun e => raise (SlackAPIError (PStr ("파일 업로드 중 네트워크 오류: " ++ e)) None));
        except_Exception
          (fun e => raise (SlackAPIError (PStr ("파일 업로드 실패: " ++ str_exn e)) None)) ].

(** [SlackAPIClient.add_reaction] *)
Definition add_reaction (self : SlackAPIClient) (channel timestamp name : string)
    : M dict :=
  let data := [("channel", PStr channel); ("timestamp", PStr timestamp);
               ("name", PStr name)] in
  _make_request self "POST" "reactions.add" (Some data) None.

Definition reply_of_data (channel : string) (msg_data : pyval) : M SlackMessage :=
  text <- lift (py_get msg_data "text" (PStr "")) ;;
  user <- lift (py_get msg_data "user" (PStr "unknown")) ;;
  ts <- lift (py_get msg_data "ts" (PStr "")) ;;
  thread_ts <- lift (py_get msg_data "thread_ts" PNone) ;;
  ret (mkSlackMessage text user ts channel PNone thread_ts).

(** [SlackAPIClient.get_thread_replies] *)
Definition get_thread_replies (self : SlackAPIClient) (channel thread_ts : string)
    : M (list SlackMessage) :=
  let params := [("channel", PStr channel); ("ts", PStr thread_ts)] in
  result <- _make_request self "GET" "conversations.replies" None (Some params) ;;
  messages <- lift (py_iter (dict_get_default result "messages" (PList []))) ;;
  for_each (reply_of_data channel) messages.

(** [SlackAPIClient.test_connection] *)
Definition test_connection (self : SlackAPIClient) : M dict :=
  _make_request self "GET" "auth.test" None None.

End Client.

(** ** slack_mcp_server.py *)

Section Server.

Context (rt : Runtime).

(** The module-level [slack_client = SlackAPIClient(slack_token)] *)
Context (slack_client : SlackAPIClient).

Local Abbreviation str := (py_str rt).

(** [format_timestamp] *)
Definition format_timestamp (timestamp : pyval) : M pyval :=
  try_except
    (ts_float <- lift (py_float rt timestamp) ;;
     s <- lift (strftime_local rt ts_float) ;;
     ret (PStr s))
    [ except_class is_ValueError_or_TypeError (fun _ => ret timestamp) ].

Definition format_message (msg : SlackMessage) : M string :=
  timestamp <- format_timestamp (msg_timestamp msg) ;;
  let user_display :=
    if truthy (msg_user_name msg) then msg_user_name msg else msg_user msg in
  let formatted_msg :=
    "[" ++ str timestamp ++ "] " ++ str user_display ++ ": " ++ str (msg_text msg) in
  let formatted_msg :=
    if truthy (msg_thread_ts msg) then formatted_msg ++ " (스레드 답글)"
    else formatted_msg in
  ret (formatted_msg ++ nl ++ "→ 타임스탬프: " ++ str (msg_timestamp msg)).

(** [format_message_list] *)
Definition format_message_list (messages : list SlackMessage) : M string :=
  match messages with
  | [] => ret "메시지가 없습니다."
  | _ =>
      formatted_messages <- for_each format_message messages ;;
      ret (join nl formatted_messages)
  end.

Definition format_channel (channel : SlackChannel) : string :=
  let privacy := if truthy (ch_is_private channel) then "비공개" else "공개" in
  let membership := if truthy (ch_is_member channel) then "멤버" else "비멤버" in
  let channel_info :=
    "#" ++ str (ch_name channel) ++ " (ID: " ++ str (ch_id channel) ++ ") - "
    ++ privacy ++ ", " ++ membership in
  let channel_info :=
    if truthy (ch_topic channel)
    then channel_info ++ nl ++ "  주제: " ++ str (ch_topic channel) else channel_info in
  let channel_info :=
    if truthy (ch_purpose channel)
    then channel_info ++ nl ++ "  목적: " ++ str (ch_purpose channel) else channel_info in
  if truthy (ch_num_members channel)
  then channel_info ++ nl ++ "  멤버 수: " ++ str (ch_num_members channel) ++ "명"
  else channel_info.

(** [format_channel_list] *)
Definition format_channel_list (channels : list SlackChannel) : string :=
  match channels with
  | [] => "접근 가능한 채널이 없습니다."
  | _ => join (nl ++ nl) (map format_channel channels)
  end.

Definition format_user (user : SlackUser) : string :=
  let user_info :=
    str (u_real_name user) ++ " (@" ++ str (u_name user) ++ ") - ID: " ++ str (u_id user) in
  let details :=
    List.concat
      [ if truthy (u_email user) then ["이메일: " ++ str (u_email user)] else [];
        if truthy (u_is_bot user) then ["봇"] else [];
        if truthy (u_is_admin user) then ["관리자"] else [];
        if truthy (u_status user) then ["상태: " ++ str (u_status user)] else [] ] in
  match details with
  | [] => user_info
  | _ => user_info ++ nl ++ "  " ++ join ", " details
  end.

(** [format_user_list] *)
Definition format_user_list (users : list SlackUser) : string :=
  match users with
  | [] => "사용자가 없습니다."
  | _ => join (nl ++ nl) (map format_user users)
  end.

(** The last clause of every tool: [except Exception as e] *)
Definition unexpected : clause string :=
  except_Exception (fun e => ret ("❌ 예상치 못한 오류 발생: " ++ str_exn rt e)).

(** The [try] block of [send_slack_message] *)
Definition send_slack_message_try (channel text : string) : M string :=
  result <- send_message rt slack_client (PStr channel) text PNone ;;
  let message_ts := dict_get_default result "ts" (PStr "") in
  let channel_id := dict_get_default result "channel" (PStr "") in
  ts <- format_timestamp message_ts ;;
  ret ("✅ 메시지가 성공적으로 전송되었습니다!" ++ nl
       ++ "채널: " ++ channel ++ nl
       ++ "메시지: " ++ text ++ nl
       ++ "타임스탬프: " ++ str ts).

(** [send_slack_message] *)
Definition send_slack_message (channel text : string) : M string :=
  try_except
    (send_slack_message_try channel text)
    [ except_SlackAPIError (fun error _ =>
        ret ("❌ 메시지 전송 실패: " ++ str error ++ nl
             ++ "채널: " ++ channel ++ nl
             ++ "메시지: " ++ text));
      unexpected ].

(** The [try] block of [get_slack_channels] *)
Definition get_slack_channels_try : M string :=
  channels <- get_channels rt slack_client true ;;
  match channels with
  | [] => ret "접근 가능한 채널이 없습니다."
  | _ =>
      let public_channels :=
        filter (fun ch => negb (truthy (ch_is_private ch))) channels in
      let private_channels :=
        filter (fun ch => truthy (ch_is_private ch)) channels in
      let result := "📋 총 " ++ str_len channels ++ "개의 채널을 찾았습니다." ++ nl ++ nl in
      let result :=
        match public_channels with
        | [] => result
        | _ => result ++ "🌐 공개 채널 (" ++ str_len public_channels ++ "개):" ++ nl
               ++ format_channel_list public_channels ++ nl ++ nl
        end in
      let result :=
        match private_channels with
        | [] => result
        | _ => result ++ "🔒 비공개 채널 (" ++ str_len private_channels ++ "개):" ++ nl
               ++ format_channel_list private_channels
        end in
      ret result
  end.

(** [get_slack_channels] *)
Definition get_slack_channels : M string :=
  try_except
    (get_slack_channels_try)
    [ except_SlackAPIError (fun error _ =>
        ret ("❌ 채널 목록 조회 실패: " ++ str error));
      unexpected ].

Definition is_nan (f : spec_float) : bool :=
  match f with
  | S754_nan => true
  | _ => false
  end.

(** Insertion of [x] after every element whose key is not above its own *)
Fixpoint insert_by_key {A} (x : spec_float * A) (l : list (spec_float * A))
    : list (spec_float * A) :=
  match l with
  | [] => [x]
  | y :: l' => if SFltb (fst x) (fst y) then x :: y :: l' else y :: insert_by_key x l'
  end.

(** [messages.sort(key=lambda x: float(x.timestamp))]: every key is
    computed first, then the list is sorted, stably, by [<] on the keys.
    When some key is a NaN the order is the one the interpreter's algorithm
    happens to give, [sort_with_nan]. *)
Definition sort_by_timestamp (messages : list SlackMessage) : M (list SlackMessage) :=
  keyed <- for_each
             (fun x => k <- lift (py_float rt (msg_timestamp x)) ;; ret (k, x))
             messages ;;
  ret (map snd (if existsb (fun p => is_nan (fst p)) keyed
                then sort_with_nan rt SlackMessage keyed
                else fold_left (fun sorted x => insert_by_key x sorted) keyed [])).

(** The [try] block of [get_slack_channel_history] *)
Definition get_slack_channel_history_try (channel_id : string) (limit : Z) : M string :=
  let limit := Z.max 1 (Z.min limit 100) in
  messages <- get_channel_history rt slack_client channel_id limit PNone PNone ;;
  match messages with
  | [] => ret ("채널 " ++ channel_id ++ "에 메시지가 없습니다.")
  | _ =>
      messages <- sort_by_timestamp messages ;;
      formatted <- format_message_list messages ;;
      ret ("📜 채널 " ++ channel_id ++ "의 최근 " ++ str_len messages
           ++ "개 메시지:" ++ nl ++ nl ++ formatted)
  end.

(** [get_slack_channel_history] *)
Definition get_slack_channel_history (channel_id : string) (limit : Z) : M string :=
  try_except
    (get_slack_channel_history_try channel_id limit)
    [ except_SlackAPIError (fun error _ =>
        ret ("❌ 채널 히스토리 조회 실패: " ++ str error ++ nl
             ++ "채널 ID: " ++ channel_id));
      unexpected ].

(** The [try] block of [send_slack_direct_message] *)
Definition send_slack_direct_message_try (user_id text : string) : M string :=
  result <- send_direct_message rt slack_client user_id text ;;
  let message_ts := dict_get_default result "ts" (PStr "") in
  user_display <-
    try_except
      (user_info <- get_user_info rt slack_client user_id ;;
       ret (str (u_real_name user_info) ++ " (@" ++ str (u_name user_info) ++ ")"))
      [ except_Exception (fun _ => ret user_id) ] ;;
  ts <- format_timestamp message_ts ;;
  ret ("✅ 다이렉트 메시지가 성공적으로 전송되었습니다!" ++ nl
       ++ "수신자: " ++ user_display ++ nl
       ++ "메시지: " ++ text ++ nl
       ++ "타임스탬프: " ++ str ts).

(** [send_slack_direct_message] *)
Definition send_slack_direct_message (user_id text : string) : M string :=
  try_except
    (send_slack_direct_message_try user_id text)
    [ except_SlackAPIError (fun error _ =>
        ret ("❌ 다이렉트 메시지 전송 실패: " ++ str error ++ nl
             ++ "사용자 ID: " ++ user_id ++ nl
             ++ "메시지: " ++ text));
      unexpected ].

(** The [try] block of [get_slack_users] *)
Definition get_slack_users_try (limit : Z) : M string :=
  let limit := Z.max 1 (Z.min limit 1000) in
  users <- get_users rt slack_client limit ;;
  match users with
  | [] => ret "사용자를 찾을 수 없습니다."
  | _ =>
      let regular_users := filter (fun user => negb (truthy (u_is_bot user))) users in
      let bot_users := filter (fun user => truthy (u_is_bot user)) users in
      let result := "👥 총 " ++ str_len users ++ "명의 사용자를 찾았습니다." ++ nl ++ nl in
      let result :=
        match regular_users with
        | [] => result
        | _ => result ++ "👤 일반 사용자 (" ++ str_len regular_users ++ "명):" ++ nl
               ++ format_user_list regular_users ++ nl ++ nl
        end in
      let result :=
        match bot_users with
        | [] => result
        | _ => result ++ "🤖 봇 사용자 (" ++ str_len bot_users ++ "명):" ++ nl
               ++ format_user_list bot_users
        end in
      ret result
  end.

(** [get_slack_users] *)
Definition get_slack_users (limit : Z) : M string :=
  try_except
    (get_slack_users_try limit)
    [ except_SlackAPIError (fun error _ =>
        ret ("❌ 사용자 목록 조회 실패: " ++ str error));
      unexpected ].

Definition format_search_result (i : Z) (result : pyval) : M string :=
  text <- lift (py_get result "text" (PStr "")) ;;
  user <- lift (py_get result "user" (PDict [])) ;;
  user <- lift (py_get user "name" (PStr "unknown")) ;;
  channel <- lift (py_get result "channel" (PDict [])) ;;
  channel <- lift (py_get channel "name" (PStr "unknown")) ;;
  timestamp <- lift (py_get result "ts" (PStr "")) ;;
  ts <- format_timestamp timestamp ;;
  ret (str_int i ++ ". [" ++ str ts ++ "] #" ++ str channel ++ " - @" ++ str user
       ++ ":" ++ nl ++ "   " ++ str text).

(** [for i, x in enumerate(l, i0): ...] *)
Fixpoint for_each_enumerated {A B} (f : Z -> A -> M B) (i0 : Z) (l : list A)
    : M (list B) :=
  match l with
  | [] => ret []
  | x :: l' => y <- f i0 x ;; ys <- for_each_enumerated f (i0 + 1) l' ;; ret (y :: ys)
  end.

(** The [try] block of [search_slack_messages] *)
Definition search_slack_messages_try (query : string) (count : Z) : M string :=
  let count := Z.max 1 (Z.min count 100) in
  results <- search_messages rt slack_client query count "timestamp" ;;
  if negb (truthy results) then
    ret ("'" ++ query ++ "' 키워드로 검색된 메시지가 없습니다.")
  else
    items <- lift (py_iter results) ;;
    formatted_results <- for_each_enumerated format_search_result 1 items ;;
    n <- lift (py_len results) ;;
    ret ("🔍 '" ++ query ++ "' 검색 결과 (" ++ str_int n ++ "개):" ++ nl ++ nl
         ++ join (nl ++ nl) formatted_results).

(** [search_slack_messages] *)
Definition search_slack_messages (query : string) (count : Z) : M string :=
  try_except
    (search_slack_messages_try query count)
    [ except_SlackAPIError (fun error _ =>
        ret ("❌ 메시지 검색 실패: " ++ str error ++ nl ++ "검색어: " ++ query));
      unexpected ].

(** [x or '없음'] *)
Definition or_none_label (x : pyval) : pyval :=
  if truthy x then x else PStr "없음".

(** The [channels] argument [upload_slack_file] hands to the client *)
Definition channel_param (channels : string) : pyval :=
  if startswith channels "U" && negb (has_char "," channels) then PStr channels
  else PList (map (fun ch => PStr (py_strip ch)) (split_char "," channels)).

(** The [try] block of [upload_slack_file] *)
Definition upload_slack_file_try (channels file_path : string) (title initial_comment : option string) : M string :=
  if negb (path_exists rt file_path) then
    ret ("❌ 파일을 찾을 수 없습니다: " ++ file_path)
  else
    result <- upload_file rt slack_client (channel_param channels) file_path
                (opt_str title) (opt_str initial_comment) ;;
    file_info <-
      (if truthy (dict_get_default result "files" PNone)
       then lift (py_getitem0 (dict_get_default result "files" (PList [PDict []])))
       else ret (dict_get_default result "file" (PDict []))) ;;
    file_name <- lift (py_get file_info "name" (PStr (basename file_path))) ;;
    file_size <- lift (py_get file_info "size" (PInt 0)) ;;
    ret ("✅ 파일이 성공적으로 업로드되었습니다!" ++ nl
         ++ "파일명: " ++ str file_name ++ nl
         ++ "크기: " ++ str file_size ++ " bytes" ++ nl
         ++ "채널: " ++ channels ++ nl
         ++ "제목: " ++ str (or_none_label (opt_str title)) ++ nl
         ++ "코멘트: " ++ str (or_none_label (opt_str initial_comment))).

(** [upload_slack_file] *)
Definition upload_slack_file (channels file_path : string) (title initial_comment : option string) : M string :=
  try_except
    (upload_slack_file_try channels file_path title initial_comment)
    [ except_SlackAPIError (fun error _ =>
        ret ("❌ 파일 업로드 실패: " ++ str error ++ nl
             ++ "파일: " ++ file_path ++ nl
             ++ "채널: " ++ channels));
      unexpected ].

(** The [try] block of [add_slack_reaction], after [emoji = emoji.strip(':')] *)
Definition add_slack_reaction_try (channel timestamp emoji : string) : M string :=
  result <- add_reaction rt slack_client channel timestamp emoji ;;
  ts <- format_timestamp (PStr timestamp) ;;
  ret ("✅ 이모지 반응이 성공적으로 추가되었습니다!" ++ nl
       ++ "채널: " ++ channel ++ nl
       ++ "메시지 시간: " ++ str ts ++ nl
       ++ "이모지: :" ++ emoji ++ ":").

(** [add_slack_reaction]; [emoji] is rebound first, so the call and both
    handlers see the stripped name. *)
Definition add_slack_reaction (channel timestamp emoji : string) : M string :=
  let emoji := strip_by is_colon emoji in
  try_except
    (add_slack_reaction_try channel timestamp emoji)
    [ except_SlackAPIError (fun error _ =>
        ret ("❌ 이모지 반응 추가 실패: " ++ str error ++ nl
             ++ "채널: " ++ channel ++ nl
             ++ "타임스탬프: " ++ timestamp ++ nl
             ++ "이모지: " ++ emoji));
      unexpected ].

(** [replies[1:] if len(replies) > 1 else []] *)
Definition replies_only (replies : list SlackMessage) : list SlackMessage :=
  if (1 <? Z.of_nat (length replies))%Z then skipn 1 replies else [].

(** The rendering of the replies-only view in [get_slack_thread_replies] *)
Definition render_thread_replies (thread_ts : string) (thread_replies : list SlackMessage)
    : M string :=
  ts <- format_timestamp (PStr thread_ts) ;;
  let result :=
    "🧵 스레드 답글 (" ++ str_len thread_replies ++ "개):" ++ nl
    ++ "원본 메시지 시간: " ++ str ts ++ nl ++ nl in
  match thread_replies with
  | [] => ret (result ++ "답글이 없습니다.")
  | _ => formatted <- format_message_list thread_replies ;;
         ret (result ++ formatted)
  end.

(** The [try] block of [get_slack_thread_replies] *)
Definition get_slack_thread_replies_try (channel thread_ts : string) : M string :=
  replies <- get_thread_replies rt slack_client channel thread_ts ;;
  match replies with
  | [] =>
      ts <- format_timestamp (PStr thread_ts) ;;
      ret ("스레드에 답글이 없습니다." ++ nl ++ "채널: " ++ channel ++ nl
           ++ "스레드: " ++ str ts)
  | _ =>
      let thread_replies := replies_only replies in
      render_thread_replies thread_ts thread_replies
  end.

(** [get_slack_thread_replies] *)
Definition get_slack_thread_replies (channel thread_ts : string) : M string :=
  try_except
    (get_slack_thread_replies_try channel thread_ts)
    [ except_SlackAPIError (fun error _ =>
        ret ("❌ 스레드 답글 조회 실패: " ++ str error ++ nl
             ++ "채널: " ++ channel ++ nl
             ++ "스레드: " ++ thread_ts));
      unexpected ].

(** The [try] block of [send_slack_thread_reply] *)
Definition send_slack_thread_reply_try (channel thread_ts text : string) : M string :=
  result <- send_message rt slack_client (PStr channel) text (PStr thread_ts) ;;
  let message_ts := dict_get_default result "ts" (PStr "") in
  ts0 <- format_timestamp (PStr thread_ts) ;;
  ts1 <- format_timestamp message_ts ;;
  ret ("✅ 스레드 답글이 성공적으로 전송되었습니다!" ++ nl
       ++ "채널: " ++ channel ++ nl
       ++ "원본 메시지: " ++ str ts0 ++ nl
       ++ "답글: " ++ text ++ nl
       ++ "답글 시간: " ++ str ts1).

(** [send_slack_thread_reply] *)
Definition send_slack_thread_reply (channel thread_ts text : string) : M string :=
  try_except
    (send_slack_thread_reply_try channel thread_ts text)
    [ except_SlackAPIError (fun error _ =>
        ret ("❌ 스레드 답글 전송 실패: " ++ str error ++ nl
             ++ "채널: " ++ channel ++ nl
             ++ "스레드: " ++ thread_ts ++ nl
             ++ "답글: " ++ text));
      unexpected ].

(** The [try] block of [test_slack_connection] *)
Definition test_slack_connection_try : M string :=
  result <- test_connection rt slack_client ;;
  let team_name := dict_get_default result "team" (PStr "Unknown") in
  let user_name := dict_get_default result "user" (PStr "Unknown") in
  let team_id := dict_get_default result "team_id" (PStr "Unknown") in
  let user_id := dict_get_default result "user_id" (PStr "Unknown") in
  ret ("✅ Slack API 연결 성공!" ++ nl
       ++ "팀: " ++ str team_name ++ " (ID: " ++ str team_id ++ ")" ++ nl
       ++ "봇 사용자: " ++ str user_name ++ " (ID: " ++ str user_id ++ ")" ++ nl
       ++ "연결 시간: " ++ now_strftime rt).

(** [test_slack_connection] *)
Definition test_slack_connection : M string :=
  try_except
    (test_slack_connection_try)
    [ except_SlackAPIError (fun error _ =>
        ret ("❌ Slack API 연결 실패: " ++ str error ++ nl
             ++ "토큰을 확인해주세요."));
      unexpected ].

End Server.

(** ** The tool surface

    The host invokes a tool registered with [@mcp.tool()] by its name, with
    named arguments of the annotated types. *)

Inductive tool_call : Type :=
| Call_send_slack_message (channel text : string)
| Call_get_slack_channels
| Call_get_slack_channel_history (channel_id : string) (limit : Z)
| Call_send_slack_direct_message (user_id text : string)
| Call_get_slack_users (limit : Z)
| Call_search_slack_messages (query : string) (count : Z)
| Call_upload_slack_file (channels file_path : string)
                         (title initial_comment : option string)
| Call_add_slack_reaction (channel timestamp emoji : string)
| Call_get_slack_thread_replies (channel thread_ts : string)
| Call_send_slack_thread_reply (channel thread_ts text : string)
| Call_test_slack_connection.

Section Tools.

Context (rt : Runtime) (slack_client : SlackAPIClient).

Definition call_tool (call : tool_call) : M string :=
  match call with
  | Call_send_slack_message channel text =>
      send_slack_message rt slack_client channel text
  | Call_get_slack_channels => get_slack_channels rt slack_client
  | Call_get_slack_channel_history channel_id limit =>
      get_slack_channel_history rt slack_client channel_id limit
  | Call_send_slack_direct_message user_id text =>
      send_slack_direct_message rt slack_client user_id text
  | Call_get_slack_users limit => get_slack_users rt slack_client limit
  | Call_search_slack_messages query count =>
      search_slack_messages rt slack_client query count
  | Call_upload_slack_file channels file_path title initial_comment =>
      upload_slack_file rt slack_client channels file_path title initial_comment
  | Call_add_slack_reaction channel timestamp emoji =>
      add_slack_reaction rt slack_client channel timestamp emoji
  | Call_get_slack_thread_replies channel thread_ts =>
      get_slack_thread_replies rt slack_client channel thread_ts
  | Call_send_slack_thread_reply channel thread_ts text =>
      send_slack_thread_reply rt slack_client channel thread_ts text
  | Call_test_slack_connection => test_slack_connection rt slack_client
  end.

(** The [try] block the call runs *)
Definition try_block (call : tool_call) : M string :=
  match call with
  | Call_send_slack_message channel text =>
      send_slack_message_try rt slack_client channel text
  | Call_get_slack_channels => get_slack_channels_try rt slack_client
  | Call_get_slack_channel_history channel_id limit =>
      get_slack_channel_history_try rt slack_client channel_id limit
  | Call_send_slack_direct_message user_id text =>
      send_slack_direct_message_try rt slack_client user_id text
  | Call_get_slack_users limit => get_slack_users_try rt slack_client limit
  | Call_search_slack_messages query count =>
      search_slack_messages_try rt slack_client query count
  | Call_upload_slack_file channels file_path title initial_comment =>
      upload_slack_file_try rt slack_client channels file_path title initial_comment
  | Call_add_slack_reaction channel timestamp emoji =>
      add_slack_reaction_try rt slack_client channel timestamp (strip_by is_colon emoji)
  | Call_get_slack_thread_replies channel thread_ts =>
      get_slack_thread_replies_try rt slack_client channel thread_ts
  | Call_send_slack_thread_reply channel thread_ts text =>
      send_slack_thread_reply_try rt slack_client channel thread_ts text
  | Call_test_slack_connection => test_slack_connection_try rt slack_client
  end.

End Tools.

(** Every [str] argument of the call, as the host passed it *)
Definition str_arguments (call : tool_call) : list string :=
  match call with
  | Call_send_slack_message channel text => [channel; text]
  | Call_get_slack_channels => []
  | Call_get_slack_channel_history channel_id _ => [channel_id]
  | Call_send_slack_direct_message user_id text => [user_id; text]
  | Call_get_slack_users _ => []
  | Call_search_slack_messages query _ => [query]
  | Call_upload_slack_file channels file_path title initial_comment =>
      channels :: file_path
      :: (match title with Some t => [t] | None => [] end)
      ++ (match initial_comment with Some c => [c] | None => [] end)
  | Call_add_slack_reaction channel timestamp emoji => [channel; timestamp; emoji]
  | Call_get_slack_thread_replies channel thread_ts => [channel; thread_ts]
  | Call_send_slack_thread_reply channel thread_ts text => [channel; thread_ts; text]
  | Call_test_slack_connection => []
  end.

(** The arguments the [except SlackAPIError] clause of the tool writes into
    its failure string *)
Definition rendered_arguments (call : tool_call) : list string :=
  match call with
  | Call_send_slack_message channel text => [channel; text]
  | Call_get_slack_channels => []
  | Call_get_slack_channel_history channel_id _ => [channel_id]
  | Call_send_slack_direct_message user_id text => [user_id; text]
  | Call_get_slack_users _ => []
  | Call_search_slack_messages query _ => [query]
  | Call_upload_slack_file channels file_path _ _ => [file_path; channels]
  | Call_add_slack_reaction channel timestamp emoji =>
      [channel; timestamp; strip_by is_colon emoji]
  | Call_get_slack_thread_replies channel thread_ts => [channel; thread_ts]
  | Call_send_slack_thread_reply channel thread_ts text => [channel; thread_ts; text]
  | Call_test_slack_connection => []
  end.

(** ** Notions used in the statements *)

(** A procedure is [silent] when it sends nothing. *)
Definition silent {A} (m : M A) : Prop := forall log, snd (m log) = log.

(** The request [_make_request] builds: [requests.get] with the query
    parameters for [GET], [requests.post] with the JSON body otherwise *)
Definition request_of (self : SlackAPIClient) (method endpoint : string)
    (data params : option dict) : Request :=
  if String.eqb (upper method) "GET"
  then HttpGet (BASE_URL ++ "/" ++ endpoint) (headers self) params 30
  else HttpPostJson (BASE_URL ++ "/" ++ endpoint) (headers self) data 30.

(** How [_make_request] reports an exception raised inside its [try] block *)
Definition reported (e : exn) : exn :=
  match e with
  | SlackAPIError _ _ => e
  | PyExc c msg =>
      if is_RequestException c then SlackAPIError (PStr ("Network error: " ++ msg)) None
      else if is_JSONDecodeError c then SlackAPIError (PStr ("JSON decode error: " ++ msg)) None
      else e
  end.

(** The message of the [HTTPError] that [raise_for_status] raises *)
Definition http_error_message (r : Response) : string :=
  str_int (status_code r)
  ++ (if (status_code r <? 500)%Z then " Client Error: " else " Server Error: ")
  ++ reason r ++ " for url: " ++ resp_url r.

(** The outcome of [_make_request] as a function of what the remote end
    answers *)
Definition outcome_of_exchange (o : outcome Response) : outcome dict :=
  match o with
  | Raise e => Raise (reported e)
  | Return r =>
      if ((400 <=? status_code r) && (status_code r <? 600))%Z then
        Raise (SlackAPIError (PStr ("Network error: " ++ http_error_message r)) None)
      else
        match json r with
        | Raise e => Raise (reported e)
        | Return (PDict d) =>
            if truthy (dict_get_default d "ok" (PBool false)) then Return d
            else Raise (SlackAPIError (dict_get_default d "error" (PStr "Unknown error"))
                          (Some d))
        | Return v => Raise (no_attribute v "get")
        end
  end.

(** A response the client accepts: a status that [raise_for_status] lets
    through and a decoded body whose success flag is true *)
Definition accepted_response (r : Response) (payload : dict) : Prop :=
  (status_code r < 400 \/ 600 <= status_code r) /\
  json r = Return (PDict payload) /\
  truthy (dict_get_default payload "ok" (PBool false)) = true.

(** A remote-error response with the tag [tag]: a status that
    [raise_for_status] lets through and a decoded body whose success flag is
    false (or missing) and whose [error] is [tag] *)
Definition remote_error_response (r : Response) (tag : string) : Prop :=
  (status_code r < 400 \/ 600 <= status_code r) /\
  exists d, json r = Return (PDict d) /\
            truthy (dict_get_default d "ok" (PBool false)) = false /\
            dict_get d "error" = Some (PStr tag).

(** Whether the loop of [get_channel_history] skips the entry: its
    [subtype] is one of [skipped_subtypes] *)
Definition subtype_is_skipped (msg_data : pyval) : bool :=
  match py_get msg_data "subtype" PNone with
  | Return subtype => in_strs subtype skipped_subtypes
  | Raise _ => false
  end.

(** [message] is the [SlackMessage] the loop of [get_channel_history]
    appends for the entry [msg_data] *)
Definition appended_for (channel_id : string) (msg_data : pyval) (message : SlackMessage)
    : Prop :=
  forall log, history_message_of_data channel_id msg_data log = (Return (Some message), log).

(** The [SlackMessage] the loop of [get_thread_replies] builds for an
    entry that is a [dict] *)
Definition message_of_reply (channel : string) (d : dict) : SlackMessage :=
  mkSlackMessage (dict_get_default d "text" (PStr ""))
                 (dict_get_default d "user" (PStr "unknown"))
                 (dict_get_default d "ts" (PStr ""))
                 channel PNone
                 (dict_get_default d "thread_ts" PNone).

(** Whether the first, or the last, character of [s] is one of [p] *)
Definition first_is (p : ascii -> bool) (s : string) : bool :=
  match s with
  | EmptyString => false
  | String a _ => p a
  end.

Fixpoint last_is (p : ascii -> bool) (s : string) : bool :=
  match s with
  | EmptyString => false
  | String a EmptyString => p a
  | String _ s' => last_is p s'
  end.

(** The channel an upload goes to when [upload_file] needs no lookup:
    [channels] itself when it is a [str] that starts with [C], its first
    element when it is a list *)
Definition destination (channels : pyval) : option pyval :=
  match channels with
  | PStr name => if startswith name "C" then Some channels else None
  | PList (c :: _) => Some c
  | _ => None
  end.

(** The body of the request that completes an upload *)
Definition complete_data (file_id title : pyval) (file_name : string)
    (channel_id initial_comment : pyval) : dict :=
  let data :=
    [("files", PList [PDict [("id", file_id);
                             ("title", if truthy title then title else PStr file_name)]]);
     ("channel_id", channel_id)] in
  if truthy initial_comment then dict_set data "initial_comment" initial_comment else data.

(** How [upload_file] reports what its last request gives *)
Definition upload_outcome (rt : Runtime) (o : outcome dict) : outcome dict :=
  match o with
  | Return d => Return d
  | Raise e => Raise (SlackAPIError (PStr ("파일 업로드 실패: " ++ str_exn rt e)) None)
  end.

(** ** A stub runtime for closed examples

    A remote end given as a function, a file system given as a table of
    paths and contents, and a clock that knows the timestamps it lists (with
    their binary64 value and their rendering in UTC).  No example
    has a timestamp that reads as a NaN, so its [sort_with_nan] is never
    reached; it leaves the list as it is. *)

Definition stub_clock : list (string * (spec_float * string)) :=
  [ ("1690000000.000100", (S754_finite false 7088373760000419 (-22), "2023-07-22 04:26:40"));
    ("1690000001.000200", (S754_finite false 7088373764195143 (-22), "2023-07-22 04:26:41"));
    ("1690000002.000300", (S754_finite false 7088373768389866 (-22), "2023-07-22 04:26:42")) ].

Definition stub_float (v : pyval) : outcome spec_float :=
  match v with
  | PStr s =>
      match find (fun e => String.eqb (fst e) s) stub_clock with
      | Some e => Return (fst (snd e))
      | None => Raise (PyExc ValueError ("could not convert string to float: '" ++ s ++ "'"))
      end
  | PFloat f => Return f
  | _ => Raise (PyExc TypeError
                  ("float() argument must be a string or a real number, not '"
                   ++ type_name v ++ "'"))
  end.

Definition stub_strftime (f : spec_float) : outcome string :=
  match find (fun e => SFeqb (fst (snd e)) f) stub_clock with
  | Some e => Return (snd (snd e))
  | None => Raise (PyExc OverflowError "timestamp out of range for platform time_t")
  end.

Definition stub_file (files : list (string * string)) (p : string) : outcome string :=
  match find (fun e => String.eqb (fst e) p) files with
  | Some e => Return (snd e)
  | None => Raise (PyExc OSError ("[Errno 2] No such file or directory: '" ++ p ++ "'"))
  end.

Definition stub_runtime (server : list Request -> Request -> outcome Response)
    (files : list (string * string)) : Runtime :=
  {| remote := server;
     path_exists := fun p => existsb (fun e => String.eqb (fst e) p) files;
     path_getsize := fun p =>
       match stub_file files p with
       | Return c => Return (Z.of_nat (String.length c))
       | Raise e => Raise e
       end;
     open_rb := stub_file files;
     py_float := stub_float;
     strftime_local := stub_strftime;
     now_strftime := "2023-07-22 04:26:40";
     py_repr := fun v => "<" ++ type_name v ++ ">";
     sort_with_nan := fun _ l => l |}.

Definition stub_client : SlackAPIClient := SlackAPIClient_init "xoxb-test".

Definition stub_files : list (string * string) := [("/tmp/report.pdf", "%PDF")].

(** A response with status 200 and the decoded body [body] *)
Definition ok_response (body : pyval) : Response :=
  {| status_code := 200; reason := "OK"; resp_url := ""; json := Return body |}.

(** A remote end that accepts every request: [{"ok": true}] *)
Definition server_ok : list Request -> Request -> outcome Response :=
  fun _ _ => Return (ok_response (PDict [("ok", PBool true)])).

(** A remote end that answers every request with the JSON array [[]] *)
Definition server_json_array : list Request -> Request -> outcome Response :=
  fun _ _ => Return (ok_response (PList [])).

(** A remote end that cannot be reached: [requests] raises
    [ConnectionError] *)
Definition server_unreachable : list Request -> Request -> outcome Response :=
  fun _ _ =>
    Raise (PyExc ConnectionError_
             "HTTPSConnectionPool(host='slack.com', port=443): Max retries exceeded").


(** A remote end that answers 200 with a body that is not JSON; the decoder
    raises the exception class given *)
Definition server_200_html (c : exc_class) : list Request -> Request -> outcome Response :=
  fun _ _ =>
    Return {| status_code := 200; reason := "OK";
              resp_url := "https://slack.com/api/auth.test";
              json := Raise (PyExc c "Expecting value: line 1 column 1 (char 0)") |}.

(** A remote end that rejects every request with the tag given *)
Definition server_error (tag : string) : list Request -> Request -> outcome Response :=
  fun _ _ => Return (ok_response (PDict [("ok", PBool false); ("error", PStr tag)])).

(** A remote end that answers with a history of two ordinary messages, a
    bot message, a join and a leave *)
Definition mixed_history : list pyval :=
  [ PDict [("type", PStr "message"); ("user", PStr "U1"); ("text", PStr "hello");
           ("ts", PStr "1690000002.000300")];
    PDict [("type", PStr "message"); ("subtype", PStr "bot_message");
           ("text", PStr "build passed"); ("ts", PStr "1690000001.000200")];
    PDict [("type", PStr "message"); ("subtype", PStr "channel_join"); ("user", PStr "U2");
           ("text", PStr "<@U2> has joined the channel"); ("ts", PStr "1690000001.000200")];
    PDict [("type", PStr "message"); ("user", PStr "U2"); ("text", PStr "hi");
           ("ts", PStr "1690000000.000100"); ("thread_ts", PStr "1690000000.000100")];
    PDict [("type", PStr "message"); ("subtype", PStr "channel_leave"); ("user", PStr "U1");
           ("text", PStr "<@U1> has left the channel"); ("ts", PStr "1690000000.000100")] ].

Definition server_history : list Request -> Request -> outcome Response :=
  fun _ _ => Return (ok_response (PDict [("ok", PBool true); ("messages", PList mixed_history)])).

(** A thread: the parent and two replies *)
Definition thread_parent : dict :=
  [("user", PStr "U1"); ("text", PStr "release today?"); ("ts", PStr "1690000000.000100");
   ("thread_ts", PStr "1690000000.000100")].

Definition thread_rest : list dict :=
  [ [("user", PStr "U2"); ("text", PStr "yes"); ("ts", PStr "1690000001.000200");
     ("thread_ts", PStr "1690000000.000100")];
    [("user", PStr "U1"); ("text", PStr "thanks"); ("ts", PStr "1690000002.000300");
     ("thread_ts", PStr "1690000000.000100")] ].

Definition thread_payload : dict :=
  [("ok", PBool true); ("messages", PList (map PDict (thread_parent :: thread_rest)))].

Definition server_thread : list Request -> Request -> outcome Response :=
  fun _ _ => Return (ok_response (PDict thread_payload)).

(** A remote end for uploads: one public channel [general], an upload URL
    for every file, the status given for the transfer of the bytes, and an
    accepted completion *)
Definition server_upload (transfer_status : Z) : list Request -> Request -> outcome Response :=
  fun _ req =>
    match req with
    | HttpGet url _ _ _ =>
        if contains url "conversations.list" then
          Return (ok_response
                    (PDict [("ok", PBool true);
                            ("channels", PList [PDict [("id", PStr "C0123456789");
                                                       ("name", PStr "general")]])]))
        else
          Return (ok_response
                    (PDict [("ok", PBool true);
                            ("upload_url", PStr "https://files.slack.com/upload/v1/abc");
                            ("file_id", PStr "F0123")]))
    | HttpPostFiles _ _ _ _ _ =>
        Return {| status_code := transfer_status; reason := "";
                  resp_url := "https://files.slack.com/upload/v1/abc";
                  json := Raise (PyExc JSONDecodeError
                                   "Expecting value: line 1 column 1 (char 0)") |}
    | HttpPostJson _ _ _ _ =>
        Return (ok_response
                  (PDict [("ok", PBool true);
                          ("files", PList [PDict [("id", PStr "F0123");
                                                  ("name", PStr "report.pdf");
                                                  ("size", PInt 4)]])]))
    end.

(** [m] appends at most [n] requests to the log, each of them in [P], and
    removes none. *)
Definition sends {A} (P : Request -> Prop) (n : nat) (m : M A) : Prop :=
  forall log, exists reqs,
    snd (m log) = (log ++ reqs)%list /\ Forall P reqs /\ (length reqs <= n)%nat.

(** A request of the client [self]: a call of the Web API under [BASE_URL]
    with the client's headers and the timeout of 30, or the transfer of a
    file's bytes as the form field [file] *)
Definition client_request (self : SlackAPIClient) (req : Request) : Prop :=
  match req with
  | HttpGet url h _ t | HttpPostJson url h _ t =>
      startswith url (BASE_URL ++ "/") = true /\ h = headers self /\ t = 30
  | HttpPostFiles _ field _ _ content_type =>
      field = "file" /\ content_type = "application/octet-stream"
  end.

(** The most requests a call of the tool can make *)
Definition request_budget (call : tool_call) : nat :=
  match call with
  | Call_send_slack_direct_message _ _ => 3
  | Call_upload_slack_file _ _ _ _ => 4
  | _ => 1
  end.

(** A procedure is [pure] when it sends nothing and its outcome does not
    depend on the log. *)
Definition pure {A} (m : M A) : Prop := exists o, forall log, m log = (o, log).

(** Whether the loop of [get_users] skips the entry: its [deleted] is truthy *)
Definition is_deleted (user_data : pyval) : bool :=
  match py_get user_data "deleted" (PBool false) with
  | Return deleted => truthy deleted
  | Raise _ => false
  end.

(** [user] is the [SlackUser] built for the entry [user_data] *)
Definition user_built_for (user_data : pyval) (user : SlackUser) : Prop :=
  forall log, user_of_data user_data log = (Return user, log).

(** A member list: a person, a deleted account of which only the flag is
    left, and a bot *)
Definition some_members : list pyval :=
  [ PDict [("id", PStr "U1"); ("name", PStr "kim"); ("real_name", PStr "Kim");
           ("profile", PDict [("email", PStr "kim@example.com")])];
    PDict [("deleted", PBool true)];
    PDict [("id", PStr "B1"); ("name", PStr "deploybot"); ("is_bot", PBool true)] ].

Definition server_members : list Request -> Request -> outcome Response :=
  fun _ _ => Return (ok_response (PDict [("ok", PBool true); ("members", PList some_members)])).

Definition is_dict (v : pyval) : bool :=
  match v with
  | PDict _ => true
  | _ => false
  end.

(** An entry of a channel listing that [get_channels] can read: it has an
    [id] and a [name], and its [topic] and [purpose], when present, are
    objects (a [null] is not) *)
Definition readable_channel (d : dict) : bool :=
  match dict_get d "id", dict_get d "name" with
  | Some _, Some _ =>
      is_dict (dict_get_default d "topic" (PDict []))
      && is_dict (dict_get_default d "purpose" (PDict []))
  | _, _ => false
  end.

(** A remote end that answers with the channel listing given *)
Definition server_channels (entries : list dict) : list Request -> Request -> outcome Response :=
  fun _ _ =>
    Return (ok_response (PDict [("ok", PBool true); ("channels", PList (map PDict entries))])).

Definition two_channels : list dict :=
  [ [("id", PStr "C1"); ("name", PStr "general"); ("is_member", PBool true);
     ("topic", PDict [("value", PStr "news")]); ("num_members", PInt 12)];
    [("id", PStr "C2"); ("name", PStr "random")] ].

(** The message [search_messages] raises for a token that may not search *)
Definition search_scope_guidance (tag : string) : string :=
  "메시지 검색 권한이 없습니다. Slack 앱의 OAuth 스코프에 'search:read'를 추가해주세요. "
  ++ "현재 오류: " ++ tag.

(** What [format_timestamp] gives: the local date and time, the value
    itself when [float] or the conversion raises a [ValueError] or a
    [TypeError], and any other exception unchanged *)
Definition format_timestamp_outcome (rt : Runtime) (timestamp : pyval) : outcome pyval :=
  let caught e :=
    match e with
    | PyExc c _ => if is_ValueError_or_TypeError c then Return timestamp else Raise e
    | SlackAPIError _ _ => Raise e
    end in
  match py_float rt timestamp with
  | Raise e => caught e
  | Return ts_float =>
      match strftime_local rt ts_float with
      | Raise e => caught e
      | Return s => Return (PStr s)
      end
  end.

(** A runtime that also reads the timestamp [1e999]: [float] gives
    infinity, which [datetime.fromtimestamp] refuses with [OverflowError] *)
Definition overflowing_runtime (server : list Request -> Request -> outcome Response)
    : Runtime :=
  let rt := stub_runtime server [] in
  {| remote := remote rt;
     path_exists := path_exists rt;
     path_getsize := path_getsize rt;
     open_rb := open_rb rt;
     py_float := fun v =>
       if eq_str v "1e999" then Return (S754_infinity false) else py_float rt v;
     strftime_local := fun f =>
       match f with
       | S754_infinity _ =>
           Raise (PyExc OverflowError "timestamp out of range for platform time_t")
       | _ => strftime_local rt f
       end;
     now_strftime := now_strftime rt;
     py_repr := py_repr rt;
     sort_with_nan := sort_with_nan rt |}.

(** A remote end that accepts a message and answers with that timestamp *)
Definition server_ts_1e999 : list Request -> Request -> outcome Response :=
  fun _ _ => Return (ok_response (PDict [("ok", PBool true); ("ts", PStr "1e999")])).

(** Neither key is below the other *)
Definition same_key (k k' : spec_float) : bool := negb (SFltb k k') && negb (SFltb k' k).

(** The sort key of [m1] is not above the key of [m2]. *)
Definition not_after (rt : Runtime) (m1 m2 : SlackMessage) : Prop :=
  exists k1 k2,
    py_float rt (msg_timestamp m1) = Return k1 /\
    py_float rt (msg_timestamp m2) = Return k2 /\
    SFltb k2 k1 = false.

(** The sort key of [m] is neither below nor above [k]. *)
Definition at_key (rt : Runtime) (k : spec_float) (m : SlackMessage) : bool :=
  match py_float rt (msg_timestamp m) with
  | Return k' => same_key k k'
  | Raise _ => false
  end.

(** The [SlackMessage] the loop of [get_channel_history] appends for an
    entry that is a [dict] and is not skipped *)
Definition message_of_entry (channel_id : string) (d : dict) : SlackMessage :=
  mkSlackMessage (dict_get_default d "text" (PStr ""))
                 (dict_get_default d "user" (PStr ""))
                 (dict_get_default d "ts" (PStr ""))
                 channel_id PNone
                 (dict_get_default d "thread_ts" PNone).

(** Three messages, newest first, as a history arrives *)
Definition newest_first : list SlackMessage :=
  [ mkSlackMessage (PStr "c") (PStr "U1") (PStr "1690000002.000300") "C1" PNone PNone;
    mkSlackMessage (PStr "b") (PStr "U2") (PStr "1690000001.000200") "C1" PNone PNone;
    mkSlackMessage (PStr "a") (PStr "U1") (PStr "1690000000.000100") "C1" PNone PNone ].

(** A remote end that answers with the history given *)
Definition server_messages (entries : list dict) : list Request -> Request -> outcome Response :=
  fun _ _ =>
    Return (ok_response (PDict [("ok", PBool true); ("messages", PList (map PDict entries))])).

(** The first block in the [try] of [upload_file]: a [str] that does not
    start with [C] is taken for a channel name and looked up *)
Definition channel_resolution (rt : Runtime) (self : SlackAPIClient) (channels : pyval)
    : M pyval :=
  match channels with
  | PStr name =>
      if negb (startswith name "C") then
        channel_list <- get_channels rt self true ;;
        let channel_id := lookup_channel_id channel_list name in
        if negb (truthy channel_id) then
          raise (SlackAPIError (PStr ("채널을 찾을 수 없습니다: " ++ name)) None)
        else ret channel_id
      else ret channels
  | _ => ret channels
  end.

(** [channels if isinstance(channels, str) else channels[0]] *)
Definition first_channel (channels : pyval) : outcome pyval :=
  match channels with
  | PStr _ => Return channels
  | _ => py_getitem0 channels
  end.

(** The three requests of an upload *)
Definition upload_url_request (self : SlackAPIClient) (file_path : string) (file_size : Z)
    : Request :=
  HttpGet "https://slack.com/api/files.getUploadURLExternal" (headers self)
    (Some [("filename", PStr (basename file_path)); ("length", PInt file_size)]) 30.

Definition transfer_request (upload_url : pyval) (file_path content : string) : Request :=
  HttpPostFiles upload_url "file" (basename file_path) content "application/octet-stream".

Definition completion_request (self : SlackAPIClient) (file_id title : pyval)
    (file_path : string) (channel_id initial_comment : pyval) : Request :=
  HttpPostJson "https://slack.com/api/files.completeUploadExternal" (headers self)
    (Some (complete_data file_id title (basename file_path) channel_id initial_comment)) 30.

(** A remote end that opens a conversation and posts to it, but refuses
    [users.info] *)
Definition server_dm : list Request -> Request -> outcome Response :=
  fun _ req =>
    match req with
    | HttpPostJson url _ _ _ =>
        if contains url "conversations.open" then
          Return (ok_response (PDict [("ok", PBool true);
                                      ("channel", PDict [("id", PStr "D0123")])]))
        else
          Return (ok_response (PDict [("ok", PBool true); ("channel", PStr "D0123");
                                      ("ts", PStr "1690000000.000100")]))
    | _ => Return (ok_response (PDict [("ok", PBool false); ("error", PStr "missing_scope")]))
    end.

(** A [channels] argument with an ideographic space (U+3000) before and a
    no-break space (U+00A0) after its first id *)
Definition padded_channels : string :=
  String "227" (String "128" (String "128" "C0123456789"))
  ++ String "194" (String "160" ", C0999").

(** A history of system entries: a topic change, and a join and a leave of a
    private channel *)
Definition system_history : list pyval :=
  [ PDict [("type", PStr "message"); ("subtype", PStr "channel_topic"); ("user", PStr "U1");
           ("text", PStr "<@U1> set the channel topic: news");
           ("ts", PStr "1690000002.000300")];
    PDict [("type", PStr "message"); ("subtype", PStr "group_join"); ("user", PStr "U2");
           ("text", PStr "<@U2> has joined the group"); ("ts", PStr "1690000001.000200")];
    PDict [("type", PStr "message"); ("subtype", PStr "group_leave"); ("user", PStr "U2");
           ("text", PStr "<@U2> has left the group"); ("ts", PStr "1690000000.000100")] ].

Definition server_system_history : list Request -> Request -> outcome Response :=
  fun _ _ =>
    Return (ok_response (PDict [("ok", PBool true); ("messages", PList system_history)])).

(** The remote end for uploads, with a second public channel whose name is
    the text [name] *)
Definition server_upload_named (name id : string)
    : list Request -> Request -> outcome Response :=
  fun log req =>
    match req with
    | HttpGet url _ _ _ =>
        if contains url "conversations.list" then
          Return (ok_response
                    (PDict [("ok", PBool true);
                            ("channels", PList [PDict [("id", PStr "C0123456789");
                                                       ("name", PStr "general")];
                                                PDict [("id", PStr id);
                                                       ("name", PStr name)]])]))
        else server_upload 200 log req
    | _ => server_upload 200 log req
    end.

(** * Properties *)

(** ** Substrings *)

Lemma prefix_empty (t : string) : String.prefix "" t = true.
Proof. destruct t; reflexivity. Qed.

Lemma prefix_append (s t : string) : String.prefix s (s ++ t) = true.
Proof.
  induction s as [|a s IH]; simpl; [apply prefix_empty|].
  destruct (ascii_dec a a) as [_|ne]; [exact IH | now destruct ne].
Qed.

Lemma prefix_refl (s : string) : String.prefix s s = true.
Proof.
  induction s as [|a s IH]; simpl; [reflexivity|].
  destruct (ascii_dec a a) as [_|ne]; [exact IH | now destruct ne].
Qed.

Lemma contains_prefix (s sub : string) :
  String.prefix sub s = true -> contains s sub = true.
Proof. intros H. destruct s; cbn [contains]; now rewrite H. Qed.

Lemma contains_refl (s : string) : contains s s = true.
Proof. apply contains_prefix, prefix_refl. Qed.

Lemma contains_here (sub t : string) : contains (sub ++ t) sub = true.
Proof. apply contains_prefix, prefix_append. Qed.

Lemma contains_app_r (s t sub : string) :
  contains t sub = true -> contains (s ++ t) sub = true.
Proof.
  intros H. induction s as [|a s IH]; [exact H|].
  cbn [append contains]. rewrite IH.
  now destruct (String.prefix sub (String a (s ++ t))).
Qed.

Ltac find_substring :=
  first [ apply contains_refl
        | apply contains_here
        | apply contains_app_r; find_substring ].

(** ** The [try]/[except] skeleton of the tools *)

Section Skeleton.

Context (rt : Runtime).

(** A [try] block followed by [except SlackAPIError] and [except Exception]
    clauses that only build a string returns a string whatever the block
    does, and leaves the log as the block left it. *)
Lemma tool_skeleton (body : M string) (h : pyval -> option dict -> string) (log : Log) :
  try_except body
    [ except_SlackAPIError (fun error response => ret (h error response));
      unexpected rt ] log
  = match body log with
    | (Return s, log') => (Return s, log')
    | (Raise (SlackAPIError error response), log') => (Return (h error response), log')
    | (Raise (PyExc c msg), log') =>
        (Return ("❌ 예상치 못한 오류 발생: " ++ msg), log')
    end.
Proof.
  unfold try_except. destruct (body log) as [[s|[error response|c msg]] log']; reflexivity.
Qed.

End Skeleton.

(** ** Nothing escapes a tool *)

(** C1 (as amended).  Every tool returns a string, whatever its [try] block
    does, and the log is as the block left it.  When the block returns, the
    tool returns its string.  When it raises a [SlackAPIError], the string
    embeds [str(e.error)] and the arguments the tool's handler lists
    ([rendered_arguments]).  When it raises anything else, the string is the
    generic failure text followed by [str(e)], and embeds no argument of its
    own. *)
Theorem tools_always_return_a_string
    (rt : Runtime) (slack_client : SlackAPIClient) (call : tool_call) (log : Log) :
  exists s log',
    call_tool rt slack_client call log = (Return s, log') /\
    match try_block rt slack_client call log with
    | (Return ok, l) => log' = l /\ s = ok
    | (Raise (SlackAPIError error _), l) =>
        log' = l /\
        contains s (py_str rt error) = true /\
        Forall (fun p => contains s p = true) (rendered_arguments call)
    | (Raise (PyExc _ msg), l) =>
        log' = l /\ s = "❌ 예상치 못한 오류 발생: " ++ msg
    end.
Proof.
  destruct call;
    cbv beta iota delta
      [call_tool try_block rendered_arguments
       send_slack_message get_slack_channels get_slack_channel_history
       send_slack_direct_message get_slack_users search_slack_messages
       upload_slack_file add_slack_reaction get_slack_thread_replies
       send_slack_thread_reply test_slack_connection];
    rewrite tool_skeleton;
    match goal with
    | |- context [match ?b log with _ => _ end] =>
        destruct (b log) as [[ok|[error response|c msg]] l]
    end;
    do 2 eexists; (split; [reflexivity|]);
    repeat split;
    repeat (apply Forall_cons || apply Forall_nil);
    find_substring.
Qed.

(** C1 (as stated) fails on both kinds of fault.
    [send_slack_message("general", "hello")] against a remote end that
    answers with a JSON array: [result.get('ok', False)] raises
    [AttributeError], the [except Exception] clause renders it, and the
    failure string holds neither argument.
    [upload_slack_file("C0123456789", "/tmp/report.pdf", title="Q3 report")]
    against a remote end that rejects the request: the
    [except SlackAPIError] clause renders the channel and the path, and
    leaves the title out. *)
Lemma failure_string_without_arguments :
  let rt := stub_runtime server_json_array [] in
  let call := Call_send_slack_message "general" "hello" in
  let failure := "❌ 예상치 못한 오류 발생: 'list' object has no attribute 'get'" in
  let rt' := stub_runtime (server_error "invalid_auth") stub_files in
  let call' := Call_upload_slack_file "C0123456789" "/tmp/report.pdf" (Some "Q3 report") None in
  let failure' :=
    "❌ 파일 업로드 실패: 파일 업로드 실패: Slack API Error: invalid_auth" ++ nl
    ++ "파일: /tmp/report.pdf" ++ nl ++ "채널: C0123456789" in
  (fst (try_block rt stub_client call [])
     = Raise (PyExc AttributeError "'list' object has no attribute 'get'") /\
   fst (call_tool rt stub_client call []) = Return failure /\
   map (contains failure) (str_arguments call) = [false; false]) /\
  (fst (try_block rt' stub_client call' [])
     = Raise (SlackAPIError
                (PStr "파일 업로드 실패: Slack API Error: invalid_auth") None) /\
   fst (call_tool rt' stub_client call' []) = Return failure' /\
   map (contains failure') (str_arguments call') = [true; true; false]).
Proof. repeat split; vm_compute; reflexivity. Qed.

(** A network-level exception thrown during the request reaches the tool as
    a [SlackAPIError] and is rendered with the arguments. *)
Example unreachable_endpoint_is_rendered :
  send_slack_message (stub_runtime server_unreachable []) stub_client "#general" "hello" []
  = (Return ("❌ 메시지 전송 실패: Network error: "
             ++ "HTTPSConnectionPool(host='slack.com', port=443): Max retries exceeded" ++ nl
             ++ "채널: #general" ++ nl ++ "메시지: hello"),
     [HttpPostJson "https://slack.com/api/chat.postMessage" (headers stub_client)
        (Some [("channel", PStr "general"); ("text", PStr "hello");
               ("unfurl_links", PBool true); ("unfurl_media", PBool true)]) 30]).
Proof. vm_compute. reflexivity. Qed.

(** ** Which requests a procedure sends *)


Lemma silent_ret {A} (a : A) : silent (ret a).
Proof. intro; reflexivity. Qed.

Lemma silent_raise {A} (e : exn) : silent (@raise A e).
Proof. intro; reflexivity. Qed.

Lemma silent_lift {A} (o : outcome A) : silent (lift o).
Proof. intro; reflexivity. Qed.

Lemma silent_bind {A B} (m : M A) (k : A -> M B) :
  silent m -> (forall a, silent (k a)) -> silent (bind m k).
Proof.
  intros Hm Hk log. unfold bind. specialize (Hm log).
  destruct (m log) as [[a|e] log']; simpl in *; subst; [apply Hk | reflexivity].
Qed.

Lemma silent_dispatch_nil {A} (e : exn) : silent (@dispatch A [] e).
Proof. intro; reflexivity. Qed.

Lemma silent_dispatch_cons {A} (c : clause A) (rest : list (clause A)) (e : exn) :
  (forall h, c e = Some h -> silent h) -> silent (dispatch rest e) ->
  silent (dispatch (c :: rest) e).
Proof.
  intros Hc Hrest. cbn [dispatch]. destruct (c e) as [h|]; [now apply Hc | exact Hrest].
Qed.

Lemma silent_except_SlackAPIError {A} (h : pyval -> option dict -> M A) (e : exn) (m : M A) :
  (forall error response, silent (h error response)) ->
  except_SlackAPIError h e = Some m -> silent m.
Proof. intros Hh E. destruct e; inversion E; subst. apply Hh. Qed.

Lemma silent_except_class {A} (p : exc_class -> bool) (h : string -> M A) (e : exn) (m : M A) :
  (forall msg, silent (h msg)) -> except_class p h e = Some m -> silent m.
Proof.
  intros Hh E. destruct e as [|c msg]; cbn in E; [discriminate|].
  destruct (p c); inversion E; subst. apply Hh.
Qed.

Lemma silent_except_Exception {A} (h : exn -> M A) (e : exn) (m : M A) :
  (forall e', silent (h e')) -> except_Exception h e = Some m -> silent m.
Proof. intros Hh E. inversion E; subst. apply Hh. Qed.

Lemma silent_try_except {A} (body : M A) (clauses : list (clause A)) :
  silent body -> (forall e, silent (dispatch clauses e)) ->
  silent (try_except body clauses).
Proof.
  intros Hb Hc log. unfold try_except. specialize (Hb log).
  destruct (body log) as [[a|e] log']; simpl in *; subst; [reflexivity | apply Hc].
Qed.

Lemma silent_for_each {A B} (f : A -> M B) (l : list A) :
  (forall x, silent (f x)) -> silent (for_each f l).
Proof.
  intros Hf. induction l as [|x l IH]; cbn [for_each]; [apply silent_ret|].
  apply silent_bind; [apply Hf | intro]. apply silent_bind; [exact IH | intro; apply silent_ret].
Qed.

Lemma silent_for_each_opt {A B} (f : A -> M (option B)) (l : list A) :
  (forall x, silent (f x)) -> silent (for_each_opt f l).
Proof.
  intros Hf. induction l as [|x l IH]; cbn [for_each_opt]; [apply silent_ret|].
  apply silent_bind; [apply Hf | intro]. apply silent_bind; [exact IH | intro; apply silent_ret].
Qed.

Lemma silent_for_each_enumerated {A B} (f : Z -> A -> M B) (l : list A) (i0 : Z) :
  (forall i x, silent (f i x)) -> silent (for_each_enumerated f i0 l).
Proof.
  intros Hf. revert i0. induction l as [|x l IH]; intro i0; cbn [for_each_enumerated];
    [apply silent_ret|].
  apply silent_bind; [apply Hf | intro]. apply silent_bind; [apply IH | intro; apply silent_ret].
Qed.

Create HintDb silent.

(** Proves that a procedure built from the pieces above, and from the
    procedures recorded in the database [silent], sends nothing. *)
Ltac silence :=
  repeat first
    [ solve [auto with silent nocore]
    | progress cbv beta
    | apply silent_ret | apply silent_raise | apply silent_lift
    | apply silent_dispatch_nil
    | apply silent_bind; [|intro]
    | apply silent_try_except; [|intro]
    | apply silent_dispatch_cons; [intros ? ?|]
    | eapply silent_except_SlackAPIError; [intros ? ?|eassumption]
    | eapply silent_except_class; [intro|eassumption]
    | eapply silent_except_Exception; [intro|eassumption]
    | apply silent_for_each; intro
    | apply silent_for_each_opt; intro
    | apply silent_for_each_enumerated; intros ? ?
    | match goal with
      | |- silent (if ?b then _ else _) => destruct b
      | |- silent (match ?x with _ => _ end) => destruct x
      end ].

(** The log after a procedure that goes on silently *)
Lemma log_bind_silent {A B} (m : M A) (k : A -> M B) (log : Log) :
  (forall a, silent (k a)) -> snd (bind m k log) = snd (m log).
Proof.
  intros Hk. unfold bind. destruct (m log) as [[a|e] log']; [apply Hk | reflexivity].
Qed.

Lemma log_try_except_silent {A} (body : M A) (clauses : list (clause A)) (log : Log) :
  (forall e, silent (dispatch clauses e)) ->
  snd (try_except body clauses log) = snd (body log).
Proof.
  intros Hc. unfold try_except. destruct (body log) as [[a|e] log']; [reflexivity | apply Hc].
Qed.

Section Requests.

Context (rt : Runtime) (self : SlackAPIClient).

(** [_make_request] sends exactly one request, whatever comes back. *)
Lemma log_make_request (method endpoint : string) (data params : option dict) (log : Log) :
  snd (_make_request rt self method endpoint data params log)
  = (log ++ [request_of self method endpoint data params])%list.
Proof.
  unfold _make_request, request_of.
  rewrite log_try_except_silent by (intro; silence).
  rewrite log_bind_silent.
  - destruct (String.eqb (upper method) "GET"); reflexivity.
  - intro r. unfold raise_for_status. silence.
Qed.

Lemma silent_format_timestamp (timestamp : pyval) : silent (format_timestamp rt timestamp).
Proof. unfold format_timestamp. silence. Qed.

Lemma silent_format_message_list (messages : list SlackMessage) :
  silent (format_message_list rt messages).
Proof. unfold format_message_list. silence. Qed.

Lemma log_tool (body : M string) (h : pyval -> option dict -> string) (log : Log) :
  snd (try_except body
         [ except_SlackAPIError (fun error response => ret (h error response));
           unexpected rt ] log)
  = snd (body log).
Proof. apply log_try_except_silent. intro. unfold unexpected. silence. Qed.

End Requests.

#[global] Hint Resolve silent_format_timestamp silent_format_message_list : silent.

(** ** Limits *)

Lemma clamp_idempotent (limit cap : Z) :
  1 <= cap -> Z.min (Z.max 1 (Z.min limit cap)) cap = Z.max 1 (Z.min limit cap).
Proof. lia. Qed.

(** C5.  Whatever integer the host passes, the only request of
    [get_slack_channel_history], [get_slack_users] and
    [search_slack_messages] carries [max(1, min(limit, cap))] as its
    [limit] (or [count]) query parameter, with [cap] 100, 1000 and 100, and
    that value lies in [[1, cap]]. *)
Theorem limits_are_clamped (rt : Runtime) (slack_client : SlackAPIClient) (limit : Z) (log : Log) :
  (forall channel_id,
     snd (get_slack_channel_history rt slack_client channel_id limit log)
     = (log ++ [HttpGet "https://slack.com/api/conversations.history" (headers slack_client)
                  (Some [("channel", PStr channel_id);
                         ("limit", PInt (Z.max 1 (Z.min limit 100)))]) 30])%list) /\
  snd (get_slack_users rt slack_client limit log)
  = (log ++ [HttpGet "https://slack.com/api/users.list" (headers slack_client)
               (Some [("limit", PInt (Z.max 1 (Z.min limit 1000)))]) 30])%list /\
  (forall query,
     snd (search_slack_messages rt slack_client query limit log)
     = (log ++ [HttpGet "https://slack.com/api/search.messages" (headers slack_client)
                  (Some [("query", PStr query);
                         ("count", PInt (Z.max 1 (Z.min limit 100)));
                         ("sort", PStr "timestamp")]) 30])%list) /\
  1 <= Z.max 1 (Z.min limit 100) <= 100 /\
  1 <= Z.max 1 (Z.min limit 1000) <= 1000.
Proof.
  repeat split; try lia; intros.
  - unfold get_slack_channel_history. rewrite log_tool.
    unfold get_slack_channel_history_try.
    rewrite log_bind_silent by (intro; silence).
    unfold get_channel_history.
    rewrite log_try_except_silent by (intro; silence).
    rewrite log_bind_silent by (intro; silence).
    rewrite log_make_request. cbn [truthy].
    now rewrite clamp_idempotent by lia.
  - unfold get_slack_users. rewrite log_tool.
    unfold get_slack_users_try.
    rewrite log_bind_silent by (intro; silence).
    unfold get_users.
    rewrite log_bind_silent by (intro; silence).
    rewrite log_make_request.
    now rewrite clamp_idempotent by lia.
  - unfold search_slack_messages. rewrite log_tool.
    unfold search_slack_messages_try.
    rewrite log_bind_silent by (intro; silence).
    unfold search_messages.
    rewrite log_try_except_silent by (intro; silence).
    rewrite log_bind_silent by (intro; silence).
    rewrite log_make_request.
    now rewrite clamp_idempotent by lia.
Qed.

(** ** Reactions *)

Lemma rstrip_by_id (p : ascii -> bool) (s : string) :
  last_is p s = false -> rstrip_by p s = s.
Proof.
  induction s as [|a s IH]; [reflexivity|].
  cbn [last_is rstrip_by]. destruct s as [|b s].
  - cbn [rstrip_by]. now intros ->.
  - intros H. now rewrite (IH H).
Qed.

Lemma strip_by_id (p : ascii -> bool) (s : string) :
  first_is p s = false -> last_is p s = false -> strip_by p s = s.
Proof.
  intros Hf Hl. unfold strip_by. rewrite (rstrip_by_id _ _ Hl).
  destruct s as [|a s]; [reflexivity|]. cbn in Hf. cbn [lstrip_by]. now rewrite Hf.
Qed.

(** C7 (as amended).  The client's [add_reaction] puts the name it is given
    into the request unchanged.  The tool [add_slack_reaction] first rebinds
    [emoji = emoji.strip(':')], so the request carries the tag without its
    leading and trailing colons: the tag itself exactly when it neither
    starts nor ends with a colon. *)
Theorem reaction_name_in_request
    (rt : Runtime) (slack_client : SlackAPIClient) (channel timestamp emoji : string)
    (log : Log) :
  snd (add_reaction rt slack_client channel timestamp emoji log)
  = (log ++ [HttpPostJson "https://slack.com/api/reactions.add" (headers slack_client)
               (Some [("channel", PStr channel); ("timestamp", PStr timestamp);
                      ("name", PStr emoji)]) 30])%list /\
  snd (add_slack_reaction rt slack_client channel timestamp emoji log)
  = (log ++ [HttpPostJson "https://slack.com/api/reactions.add" (headers slack_client)
               (Some [("channel", PStr channel); ("timestamp", PStr timestamp);
                      ("name", PStr (strip_by is_colon emoji))]) 30])%list /\
  (first_is is_colon emoji = false -> last_is is_colon emoji = false ->
   strip_by is_colon emoji = emoji).
Proof.
  repeat split.
  - unfold add_reaction. now rewrite log_make_request.
  - unfold add_slack_reaction. cbv zeta. rewrite log_tool.
    unfold add_slack_reaction_try.
    rewrite log_bind_silent by (intro; silence).
    unfold add_reaction. now rewrite log_make_request.
  - apply strip_by_id.
Qed.

Lemma reaction_name_in_request_witness :
  strip_by is_colon "thumbsup::skin-tone-2" = "thumbsup::skin-tone-2".
Proof.
  apply (reaction_name_in_request (stub_runtime server_ok []) stub_client
           "C1" "1690000000.000100" "thumbsup::skin-tone-2" []); reflexivity.
Defined.

(** C7 (as stated) fails: the tool does not pass [":thumbsup:"] through
    verbatim; the request names ["thumbsup"]. *)
Lemma reaction_colons_are_stripped :
  snd (add_slack_reaction (stub_runtime server_ok []) stub_client
         "C1" "1690000000.000100" ":thumbsup:" [])
  = [HttpPostJson "https://slack.com/api/reactions.add" (headers stub_client)
       (Some [("channel", PStr "C1"); ("timestamp", PStr "1690000000.000100");
              ("name", PStr "thumbsup")]) 30] /\
  "thumbsup" <> ":thumbsup:".
Proof. split; [vm_compute; reflexivity | discriminate]. Qed.

(** ** File upload *)

(** C8.  When [file_path] does not exist, [upload_slack_file] returns the
    failure string that names the path and the log is unchanged: no request
    has been made.  (The client's own check, which the tool's check keeps
    from being reached, raises before any request as well.) *)
Theorem upload_of_missing_file
    (rt : Runtime) (slack_client : SlackAPIClient) (channels file_path : string)
    (title initial_comment : option string) (log : Log) :
  path_exists rt file_path = false ->
  upload_slack_file rt slack_client channels file_path title initial_comment log
  = (Return ("❌ 파일을 찾을 수 없습니다: " ++ file_path), log) /\
  contains ("❌ 파일을 찾을 수 없습니다: " ++ file_path) file_path = true /\
  forall chs t c,
    upload_file rt slack_client chs file_path t c log
    = (Raise (SlackAPIError (PStr ("파일을 찾을 수 없습니다: " ++ file_path)) None), log).
Proof.
  intros H. repeat split.
  - unfold upload_slack_file. rewrite tool_skeleton.
    unfold upload_slack_file_try. now rewrite H.
  - find_substring.
  - intros. unfold upload_file. now rewrite H.
Qed.

Lemma upload_of_missing_file_witness :
  upload_slack_file (stub_runtime server_ok [("/tmp/report.pdf", "%PDF")]) stub_client
    "C0123456789" "/tmp/missing.txt" None None []
  = (Return "❌ 파일을 찾을 수 없습니다: /tmp/missing.txt", []).
Proof.
  apply (upload_of_missing_file (stub_runtime server_ok [("/tmp/report.pdf", "%PDF")])
           stub_client "C0123456789" "/tmp/missing.txt" None None []).
  reflexivity.
Defined.

(** ** The request primitive *)

Section MakeRequest.

Context (rt : Runtime) (self : SlackAPIClient).

Lemma make_request_eq (method endpoint : string) (data params : option dict) (log : Log) :
  _make_request rt self method endpoint data params log
  = (outcome_of_exchange (remote rt log (request_of self method endpoint data params)),
     (log ++ [request_of self method endpoint data params])%list).
Proof.
  unfold _make_request, request_of, try_except, bind, http.
  destruct (String.eqb (upper method) "GET");
    match goal with
    | |- context [remote rt log ?q] => destruct (remote rt log q) as [r|[error resp|c msg]]
    end;
    cbn [outcome_of_exchange reported dispatch except_class];
    try reflexivity;
    try (destruct (is_RequestException c); [reflexivity|];
         destruct (is_JSONDecodeError c); reflexivity);
    unfold raise_for_status, http_error_message;
    destruct (400 <=? status_code r)%Z eqn:E4; cbn [andb];
    try (destruct (status_code r <? 500)%Z eqn:E5; cbn [andb];
         [ assert ((status_code r <? 600)%Z = true) as -> by lia; reflexivity |];
         destruct (500 <=? status_code r)%Z eqn:E5'; [|lia]; cbn [andb];
         destruct (status_code r <? 600)%Z eqn:E6; [reflexivity|]);
    try (destruct (500 <=? status_code r)%Z eqn:E5'; [lia|]; cbn [andb]);
    unfold ret, lift, raise;
    (destruct (json r) as [[| | | | |l|d]|[error resp|c msg]];
     cbn [reported dispatch except_class]; try reflexivity;
     [ destruct (truthy (dict_get_default d "ok" (PBool false))); reflexivity
     | destruct (is_RequestException c); [reflexivity|];
       destruct (is_JSONDecodeError c); reflexivity ]).
Qed.

End MakeRequest.




(** The decode failure of [requests] 2.27 and later is a
    [RequestException] as well; the first clause catches it, so a 200
    response with an undecodable body is reported as a network error. *)
Example decode_failure_of_requests :
  fst (_make_request (stub_runtime (server_200_html RequestsJSONDecodeError) []) stub_client
         "GET" "auth.test" None None [])
  = Raise (SlackAPIError
             (PStr "Network error: Expecting value: line 1 column 1 (char 0)") None).
Proof. vm_compute. reflexivity. Qed.

(** ** Permission errors *)

Section RemoteErrors.

Context (rt : Runtime) (slack_client : SlackAPIClient) (log : Log) (r : Response)
        (tag : string).

Hypothesis answers : forall req, remote rt log req = Return r.
Hypothesis rejected : remote_error_response r tag.

Lemma make_request_remote_error (method endpoint : string) (data params : option dict) :
  exists d,
    _make_request rt slack_client method endpoint data params log
    = (Raise (SlackAPIError (PStr tag) (Some d)),
       (log ++ [request_of slack_client method endpoint data params])%list).
Proof.
  destruct rejected as [Hs (d & Hj & Hok & Herr)]. exists d.
  rewrite make_request_eq, answers. unfold outcome_of_exchange.
  assert (((400 <=? status_code r) && (status_code r <? 600))%Z = false) as -> by lia.
  rewrite Hj, Hok. unfold dict_get_default. now rewrite Herr.
Qed.

Lemma get_slack_channels_remote_error :
  fst (get_slack_channels rt slack_client log)
  = Return ("❌ 채널 목록 조회 실패: "
            ++ (if contains tag "missing_scope" then channels_scope_guidance else tag)).
Proof.
  unfold get_slack_channels. rewrite tool_skeleton.
  unfold get_slack_channels_try, get_channels, bind, try_except.
  destruct (make_request_remote_error "GET" "conversations.list" None
              (Some [("types", PStr "public_channel");
                     ("exclude_archived", PBool true); ("limit", PInt 1000)]))
    as (d & ->).
  cbn [dispatch except_SlackAPIError py_str].
  destruct (contains tag "missing_scope"); reflexivity.
Qed.

Lemma get_slack_channel_history_remote_error (channel_id : string) (limit : Z) :
  fst (get_slack_channel_history rt slack_client channel_id limit log)
  = Return ("❌ 채널 히스토리 조회 실패: "
            ++ (if contains tag "missing_scope" then history_scope_guidance else tag)
            ++ nl ++ "채널 ID: " ++ channel_id).
Proof.
  unfold get_slack_channel_history. rewrite tool_skeleton.
  unfold get_slack_channel_history_try, get_channel_history, bind, try_except.
  cbn [truthy].
  match goal with
  | |- context [_make_request rt slack_client ?m ?e ?d ?p log] =>
      destruct (make_request_remote_error m e d p) as (d' & ->)
  end.
  cbn [dispatch except_SlackAPIError py_str].
  destruct (contains tag "missing_scope"); reflexivity.
Qed.

End RemoteErrors.

Lemma length_append (s t : string) :
  String.length (s ++ t) = (String.length s + String.length t)%nat.
Proof. induction s as [|a s IH]; cbn [append String.length]; [reflexivity | now rewrite IH]. Qed.

Lemma append_inv_head (p x y : string) : p ++ x = p ++ y -> x = y.
Proof. induction p as [|a p IH]; cbn [append]; [trivial | intros [= H]; now apply IH]. Qed.

Lemma append_inv_tail (x y r : string) : x ++ r = y ++ r -> x = y.
Proof.
  revert y. induction x as [|a x IH]; intros [|b y] H; cbn [append] in H.
  - reflexivity.
  - apply (f_equal String.length) in H. cbn [String.length] in H.
    rewrite length_append in H. lia.
  - apply (f_equal String.length) in H. cbn [String.length] in H.
    rewrite length_append in H. lia.
  - injection H as -> H. now rewrite (IH _ H).
Qed.

(** C6 (as amended).  When the remote end rejects the request of
    [get_slack_channels] or of [get_slack_channel_history] with a tag, the
    tool makes that one request and returns its failure prefix followed by
    the client's guidance message when the text ["missing_scope"] occurs in
    the tag (the tag ["missing_scope"] itself among them), and by the tag as
    it came when it does not.  The guidance names the scope to add and does
    not contain ["missing_scope"], so the string with the guidance differs
    from the raw rendering of the tag it replaces. *)
Theorem missing_scope_guidance
    (rt : Runtime) (slack_client : SlackAPIClient) (log : Log) (r : Response)
    (tag : string) :
  (forall req, remote rt log req = Return r) ->
  remote_error_response r tag ->
  get_slack_channels rt slack_client log
  = (Return ("❌ 채널 목록 조회 실패: "
             ++ (if contains tag "missing_scope" then channels_scope_guidance else tag)),
     (log ++ [HttpGet "https://slack.com/api/conversations.list" (headers slack_client)
                (Some [("types", PStr "public_channel"); ("exclude_archived", PBool true);
                       ("limit", PInt 1000)]) 30])%list) /\
  (forall channel_id limit,
     get_slack_channel_history rt slack_client channel_id limit log
     = (Return ("❌ 채널 히스토리 조회 실패: "
                ++ (if contains tag "missing_scope" then history_scope_guidance else tag)
                ++ nl ++ "채널 ID: " ++ channel_id),
        (log ++ [HttpGet "https://slack.com/api/conversations.history"
                   (headers slack_client)
                   (Some [("channel", PStr channel_id);
                          ("limit", PInt (Z.max 1 (Z.min limit 100)))]) 30])%list)) /\
  contains channels_scope_guidance "'channels:read'" = true /\
  contains history_scope_guidance "'channels:history'" = true /\
  contains channels_scope_guidance "missing_scope" = false /\
  contains history_scope_guidance "missing_scope" = false /\
  (contains tag "missing_scope" = true ->
   "❌ 채널 목록 조회 실패: " ++ channels_scope_guidance
   <> "❌ 채널 목록 조회 실패: " ++ tag /\
   forall channel_id,
     "❌ 채널 히스토리 조회 실패: " ++ history_scope_guidance ++ nl ++ "채널 ID: " ++ channel_id
     <> "❌ 채널 히스토리 조회 실패: " ++ tag ++ nl ++ "채널 ID: " ++ channel_id).
Proof.
  intros Ha Hr. split; [|split].
  - rewrite (surjective_pairing (get_slack_channels rt slack_client log)).
    rewrite (get_slack_channels_remote_error rt slack_client log r tag Ha Hr). f_equal.
    unfold get_slack_channels. rewrite log_tool. unfold get_slack_channels_try.
    rewrite log_bind_silent by (intro; silence).
    unfold get_channels.
    rewrite log_try_except_silent by (intro; silence).
    rewrite log_bind_silent by (intro; silence).
    now rewrite log_make_request.
  - intros channel_id limit.
    rewrite (surjective_pairing (get_slack_channel_history rt slack_client channel_id limit log)).
    rewrite (get_slack_channel_history_remote_error rt slack_client log r tag Ha Hr).
    f_equal.
    unfold get_slack_channel_history. rewrite log_tool.
    unfold get_slack_channel_history_try.
    rewrite log_bind_silent by (intro; silence).
    unfold get_channel_history.
    rewrite log_try_except_silent by (intro; silence).
    rewrite log_bind_silent by (intro; silence).
    rewrite log_make_request. cbn [truthy].
    now rewrite clamp_idempotent by lia.
  - repeat split; try (vm_compute; reflexivity).
    + intros E.
      apply (append_inv_head "❌ 채널 목록 조회 실패: " channels_scope_guidance tag) in E.
      rewrite <- E in H. vm_compute in H. discriminate H.
    + intros channel_id E.
      apply (append_inv_head "❌ 채널 히스토리 조회 실패: "
               (history_scope_guidance ++ nl ++ "채널 ID: " ++ channel_id)
               (tag ++ nl ++ "채널 ID: " ++ channel_id)) in E.
      apply append_inv_tail in E. rewrite <- E in H. vm_compute in H. discriminate H.
Qed.

Lemma missing_scope_guidance_witness :
  get_slack_channels (stub_runtime (server_error "missing_scope") []) stub_client []
  = (Return "❌ 채널 목록 조회 실패: 채널 목록 조회 권한이 없습니다. 'channels:read' 스코프가 필요합니다.",
     [HttpGet "https://slack.com/api/conversations.list" (headers stub_client)
        (Some [("types", PStr "public_channel"); ("exclude_archived", PBool true);
               ("limit", PInt 1000)]) 30]).
Proof.
  apply (missing_scope_guidance (stub_runtime (server_error "missing_scope") []) stub_client []
           (ok_response (PDict [("ok", PBool false); ("error", PStr "missing_scope")]))
           "missing_scope").
  - reflexivity.
  - split; [cbn; lia|]. eexists. repeat split.
Defined.

(** C6 (as stated) fails: a tag that is not ["missing_scope"] but holds that
    text is no raw-tag rendering either; the guidance replaces it. *)
Lemma longer_tag_gets_the_guidance :
  fst (get_slack_channel_history (stub_runtime (server_error "token_missing_scope") [])
         stub_client "C1" 10 [])
  = Return ("❌ 채널 히스토리 조회 실패: "
            ++ "채널 히스토리 조회 권한이 없습니다. 'channels:history' 스코프가 필요합니다."
            ++ nl ++ "채널 ID: C1").
Proof. vm_compute. reflexivity. Qed.

(** Another tag is rendered as it came. *)
Example channel_not_found_is_rendered_raw :
  fst (get_slack_channel_history (stub_runtime (server_error "channel_not_found") [])
         stub_client "C404" 10 [])
  = Return ("❌ 채널 히스토리 조회 실패: channel_not_found" ++ nl ++ "채널 ID: C404").
Proof. vm_compute. reflexivity. Qed.

(** ** Channel history *)

Lemma history_message_of_data_eq (channel_id : string) (msg_data : pyval) (log : Log) :
  history_message_of_data channel_id msg_data log
  = (match msg_data with
     | PDict d =>
         if in_strs (dict_get_default d "subtype" PNone) skipped_subtypes then Return None
         else Return (Some (mkSlackMessage
                              (dict_get_default d "text" (PStr ""))
                              (dict_get_default d "user" (PStr ""))
                              (dict_get_default d "ts" (PStr ""))
                              channel_id PNone
                              (dict_get_default d "thread_ts" PNone)))
     | _ => Raise (no_attribute msg_data "get")
     end, log).
Proof.
  destruct msg_data; try reflexivity.
  unfold history_message_of_data, bind, lift, py_get.
  destruct (in_strs (dict_get_default d "subtype" PNone) skipped_subtypes); reflexivity.
Qed.

(** Closes a goal whose hypothesis [H] says that a handler which raises
    again has returned. *)
Ltac rethrown H :=
  cbn [dispatch except_SlackAPIError except_class except_Exception raise] in H;
  repeat match type of H with
         | context [if ?b then _ else _] => destruct b
         end;
  discriminate H.

(** The loop returns one message per entry it does not skip, in order. *)
Lemma history_loop (channel_id : string) (raw : list pyval) :
  forall out log log',
    for_each_opt (history_message_of_data channel_id) raw log = (Return out, log') ->
    Forall2 (appended_for channel_id)
      (filter (fun m => negb (subtype_is_skipped m)) raw) out.
Proof.
  induction raw as [|m raw IH]; intros out log log' H.
  - inversion H. constructor.
  - cbn [for_each_opt] in H. unfold bind in H.
    rewrite history_message_of_data_eq in H.
    destruct m as [| | | | | |d]; try discriminate.
    cbn [filter]. unfold subtype_is_skipped at 1. cbn [py_get].
    destruct (in_strs (dict_get_default d "subtype" PNone) skipped_subtypes) eqn:E;
      destruct (for_each_opt (history_message_of_data channel_id) raw log)
        as [[ms|e] log''] eqn:Eloop; try discriminate;
      inversion H; subst; cbn [negb].
    + eapply IH, Eloop.
    + constructor; [|eapply IH, Eloop].
      intro l. rewrite history_message_of_data_eq. now rewrite E.
Qed.

(** The skipped subtypes by name *)
Lemma subtype_is_skipped_iff (m : pyval) :
  subtype_is_skipped m = true <->
  py_get m "subtype" PNone = Return (PStr "bot_message") \/
  py_get m "subtype" PNone = Return (PStr "channel_join") \/
  py_get m "subtype" PNone = Return (PStr "channel_leave").
Proof.
  unfold subtype_is_skipped.
  destruct (py_get m "subtype" PNone) as [v|e].
  - destruct v as [| | | |s| |];
      try (split; [discriminate | intros [H|[H|H]]; discriminate H]).
    unfold in_strs, skipped_subtypes. cbn [existsb eq_str]. rewrite !orb_true_iff.
    rewrite !String.eqb_eq. split.
    + intros [->|[->|[->|H]]]; auto. discriminate H.
    + intros [H|[H|H]]; injection H as ->; auto.
  - split; [discriminate | intros [H|[H|H]]; discriminate H].
Qed.

(** C3 (as amended).  Whatever payload the remote end answers with, when
    [get_channel_history] returns a list, its messages are, one for one and
    in order, those appended for the entries of the payload's [messages]
    that are not skipped, and the skipped entries are exactly those whose
    [subtype] is [bot_message], [channel_join] or [channel_leave]: no such
    entry has a message in the list, and an entry of any other subtype
    has. *)
Theorem history_skips_noise
    (rt : Runtime) (self : SlackAPIClient) (channel_id : string) (limit : Z)
    (oldest latest : pyval) (log log' : Log) (r : Response) (payload : dict)
    (raw : list pyval) (out : list SlackMessage) :
  (forall req, remote rt log req = Return r) ->
  json r = Return (PDict payload) ->
  py_iter (dict_get_default payload "messages" (PList [])) = Return raw ->
  get_channel_history rt self channel_id limit oldest latest log = (Return out, log') ->
  let kept := filter (fun m => negb (subtype_is_skipped m)) raw in
  Forall (fun m => subtype_is_skipped m = false) kept /\
  Forall2 (appended_for channel_id) kept out /\
  (forall m, subtype_is_skipped m = true <->
             py_get m "subtype" PNone = Return (PStr "bot_message") \/
             py_get m "subtype" PNone = Return (PStr "channel_join") \/
             py_get m "subtype" PNone = Return (PStr "channel_leave")).
Proof.
  intros Ha Hj Hraw H kept. split; [|split].
  - apply Forall_forall. intros m Hm. apply filter_In in Hm.
    now destruct (subtype_is_skipped m), Hm.
  - unfold get_channel_history, try_except, bind in H.
    rewrite make_request_eq, Ha in H. unfold outcome_of_exchange in H.
    destruct ((400 <=? status_code r) && (status_code r <? 600))%Z; [rethrown H|].
    rewrite Hj in H.
    destruct (truthy (dict_get_default payload "ok" (PBool false))); [|rethrown H].
    unfold lift in H. rewrite Hraw in H.
    match type of H with
    | match ?loop with _ => _ end = _ =>
        destruct loop as [[ms|e] l] eqn:Eloop
    end.
    + inversion H; subst. eapply history_loop, Eloop.
    + destruct e; rethrown H.
  - exact subtype_is_skipped_iff.
Qed.

Lemma history_skips_noise_witness :
  Forall2 (appended_for "C1")
    (filter (fun m => negb (subtype_is_skipped m)) mixed_history)
    [ mkSlackMessage (PStr "hello") (PStr "U1") (PStr "1690000002.000300") "C1" PNone PNone;
      mkSlackMessage (PStr "hi") (PStr "U2") (PStr "1690000000.000100") "C1" PNone
        (PStr "1690000000.000100") ].
Proof.
  apply (history_skips_noise (stub_runtime server_history []) stub_client "C1" 10 PNone PNone
           [] [HttpGet "https://slack.com/api/conversations.history" (headers stub_client)
                 (Some [("channel", PStr "C1"); ("limit", PInt 10)]) 30]
           (ok_response (PDict [("ok", PBool true); ("messages", PList mixed_history)]))
           [("ok", PBool true); ("messages", PList mixed_history)] mixed_history);
    reflexivity.
Defined.

(** C3 (as stated) fails: entries whose subtype marks a topic change, or a
    join or a leave of a private channel, are system, join and leave
    entries, and are returned like ordinary messages. *)
Lemma history_keeps_other_system_entries :
  fst (get_channel_history (stub_runtime server_system_history []) stub_client
         "C1" 10 PNone PNone [])
  = Return
      [ mkSlackMessage (PStr "<@U1> set the channel topic: news") (PStr "U1")
          (PStr "1690000002.000300") "C1" PNone PNone;
        mkSlackMessage (PStr "<@U2> has joined the group") (PStr "U2")
          (PStr "1690000001.000200") "C1" PNone PNone;
        mkSlackMessage (PStr "<@U2> has left the group") (PStr "U2")
          (PStr "1690000000.000100") "C1" PNone PNone ].
Proof. vm_compute. reflexivity. Qed.

(** ** Threads *)

Lemma make_request_accepted
    (rt : Runtime) (self : SlackAPIClient) (method endpoint : string)
    (data params : option dict) (log : Log) (r : Response) (payload : dict) :
  remote rt log (request_of self method endpoint data params) = Return r ->
  accepted_response r payload ->
  _make_request rt self method endpoint data params log
  = (Return payload, (log ++ [request_of self method endpoint data params])%list).
Proof.
  intros Hr (Hs & Hj & Hok). rewrite make_request_eq, Hr. unfold outcome_of_exchange.
  assert (((400 <=? status_code r) && (status_code r <? 600))%Z = false) as -> by lia.
  now rewrite Hj, Hok.
Qed.

Lemma thread_loop (channel : string) (entries : list dict) (log : Log) :
  for_each (reply_of_data channel) (map PDict entries) log
  = (Return (map (message_of_reply channel) entries), log).
Proof.
  induction entries as [|d entries IH]; [reflexivity|].
  cbn [map for_each]. unfold bind at 1.
  change (reply_of_data channel (PDict d) log) with (Return (message_of_reply channel d), log).
  cbv beta iota. unfold bind at 1. now rewrite IH.
Qed.

Lemma replies_only_cons (parent : SlackMessage) (replies : list SlackMessage) :
  replies_only (parent :: replies) = replies.
Proof.
  unfold replies_only. destruct replies as [|m replies]; [reflexivity|].
  assert ((1 <? Z.of_nat (length (parent :: m :: replies)))%Z = true) as ->; [|reflexivity].
  cbn [length]. apply Z.ltb_lt. rewrite !Nat2Z.inj_succ.
  pose proof (Nat2Z.is_nonneg (length replies)). lia.
Qed.

(** C4.  When the remote end answers [conversations.replies] with an
    accepted payload whose [messages] are the entry [parent] followed by
    the entries [rest], [get_thread_replies] returns the message built for
    [parent] as element 0, followed by the messages built for [rest]; and
    the [try] block of [get_slack_thread_replies] renders, as the replies,
    exactly the messages built for [rest], in order. *)
Theorem thread_parent_comes_first
    (rt : Runtime) (slack_client : SlackAPIClient) (channel thread_ts : string)
    (log : Log) (r : Response) (payload parent : dict) (rest : list dict) :
  (forall req, remote rt log req = Return r) ->
  accepted_response r payload ->
  dict_get_default payload "messages" (PList []) = PList (map PDict (parent :: rest)) ->
  let log' :=
    (log ++ [HttpGet "https://slack.com/api/conversations.replies" (headers slack_client)
               (Some [("channel", PStr channel); ("ts", PStr thread_ts)]) 30])%list in
  let replies := map (message_of_reply channel) (parent :: rest) in
  get_thread_replies rt slack_client channel thread_ts log = (Return replies, log') /\
  nth_error replies 0 = Some (message_of_reply channel parent) /\
  replies_only replies = map (message_of_reply channel) rest /\
  get_slack_thread_replies_try rt slack_client channel thread_ts log
  = render_thread_replies rt thread_ts (map (message_of_reply channel) rest) log'.
Proof.
  intros Ha Hr Hm log' replies.
  assert (get_thread_replies rt slack_client channel thread_ts log = (Return replies, log'))
    as Hclient.
  { unfold get_thread_replies, bind.
    rewrite (make_request_accepted _ _ _ _ _ _ _ r payload (Ha _) Hr).
    rewrite Hm. cbn [lift py_iter]. now rewrite thread_loop. }
  repeat split.
  - exact Hclient.
  - apply replies_only_cons.
  - unfold get_slack_thread_replies_try, bind. rewrite Hclient.
    subst replies. cbn [map]. now rewrite replies_only_cons.
Qed.

Lemma thread_parent_comes_first_witness :
  fst (get_slack_thread_replies_try (stub_runtime server_thread []) stub_client
         "C1" "1690000000.000100" [])
  = Return ("🧵 스레드 답글 (2개):" ++ nl
            ++ "원본 메시지 시간: 2023-07-22 04:26:40" ++ nl ++ nl
            ++ "[2023-07-22 04:26:41] U2: yes (스레드 답글)" ++ nl
            ++ "→ 타임스탬프: 1690000001.000200" ++ nl
            ++ "[2023-07-22 04:26:42] U1: thanks (스레드 답글)" ++ nl
            ++ "→ 타임스탬프: 1690000002.000300").
Proof.
  destruct (thread_parent_comes_first (stub_runtime server_thread []) stub_client
              "C1" "1690000000.000100" [] (ok_response (PDict thread_payload))
              thread_payload thread_parent thread_rest)
    as (_ & _ & _ & ->).
  - reflexivity.
  - split; [cbn; lia|]. split; reflexivity.
  - reflexivity.
  - vm_compute. reflexivity.
Defined.

(** ** The three steps of an upload *)

Section UploadSteps.

Context (rt : Runtime) (self : SlackAPIClient).
Context (channels : pyval) (file_path : string) (title initial_comment : pyval).
Context (log : Log) (channel_id : pyval) (file_size : Z) (content : string).
Context (r1 r2 : Response) (payload : dict) (upload_url file_id : pyval).

Let req1 : Request :=
  HttpGet "https://slack.com/api/files.getUploadURLExternal" (headers self)
    (Some [("filename", PStr (basename file_path)); ("length", PInt file_size)]) 30.
Let req2 : Request :=
  HttpPostFiles upload_url "file" (basename file_path) content "application/octet-stream".
Let req3 : Request :=
  HttpPostJson "https://slack.com/api/files.completeUploadExternal" (headers self)
    (Some (complete_data file_id title (basename file_path) channel_id initial_comment)) 30.

Hypothesis file_exists : path_exists rt file_path = true.
Hypothesis no_lookup : destination channels = Some channel_id.
Hypothesis size_known : path_getsize rt file_path = Return file_size.
Hypothesis step1 : remote rt log req1 = Return r1.
Hypothesis step1_accepted : accepted_response r1 payload.
Hypothesis step1_url : dict_get payload "upload_url" = Some upload_url.
Hypothesis step1_id : dict_get payload "file_id" = Some file_id.
Hypothesis file_opens : open_rb rt file_path = Return content.
Hypothesis step2 : remote rt (log ++ [req1])%list req2 = Return r2.

(** C9 (as amended).  Once the upload URL has been obtained and the
    transfer of the bytes has been answered with [r2]: when the status of
    [r2] is exactly 200, [upload_file] goes on to send the completing
    request and reports what that request gives; with any other status,
    2xx or not, it raises the failure that names the status, and the
    completing request is not sent. *)
Theorem transfer_needs_status_200 :
  upload_file rt self channels file_path title initial_comment log
  = if (status_code r2 =? 200)%Z then
      (upload_outcome rt (outcome_of_exchange (remote rt (log ++ [req1; req2])%list req3)),
       (log ++ [req1; req2; req3])%list)
    else
      (Raise (SlackAPIError
                (PStr ("파일 업로드 실패: Slack API Error: 파일 업로드 실패: HTTP "
                       ++ str_int (status_code r2))) None),
       (log ++ [req1; req2])%list).
Proof.
  unfold upload_file. rewrite file_exists. cbn [negb].
  unfold try_except, bind, lift, ret, http.
  unfold destination in no_lookup.
  destruct channels as [| | | |name|l|]; try discriminate no_lookup;
    [ destruct (startswith name "C") eqn:Es; [|discriminate no_lookup]; cbn [negb]
    | destruct l as [|c l]; [discriminate no_lookup|] ];
    injection no_lookup as Hc;
    rewrite size_known;
    rewrite (make_request_accepted rt self "GET" "files.getUploadURLExternal" None
               (Some [("filename", PStr (basename file_path)); ("length", PInt file_size)])
               log r1 payload step1 step1_accepted);
    change (request_of self "GET" "files.getUploadURLExternal" None
              (Some [("filename", PStr (basename file_path)); ("length", PInt file_size)]))
      with req1;
    unfold py_getitem; rewrite step1_url, step1_id, file_opens;
    fold req2; rewrite step2;
    (destruct (status_code r2 =? 200)%Z; cbn [negb];
     [| rewrite <- app_assoc; reflexivity ]);
    cbn [py_getitem0]; rewrite Hc;
    rewrite make_request_eq;
    fold (complete_data file_id title (basename file_path) channel_id initial_comment);
    change (request_of self "POST" "files.completeUploadExternal"
              (Some (complete_data file_id title (basename file_path)
                       channel_id initial_comment)) None) with req3;
    rewrite <- !app_assoc; cbn [app];
    (destruct (outcome_of_exchange (remote rt (log ++ [req1; req2])%list req3))
       as [d|[error resp|c' msg]] eqn:E; try reflexivity);
    cbn [dispatch except_class upload_outcome];
    (destruct (is_RequestException c') eqn:Ec; [|reflexivity]);
    (* [_make_request] lets no [RequestException] out *)
    exfalso; unfold outcome_of_exchange, reported in E;
    repeat match type of E with
           | context [match ?x with _ => _ end] => destruct x eqn:?; try discriminate
           end;
    inversion E; subst; try congruence; discriminate.
Qed.

End UploadSteps.

Lemma transfer_needs_status_200_witness :
  upload_file (stub_runtime (server_upload 200) stub_files) stub_client
    (PList [PStr "C0123456789"]) "/tmp/report.pdf" PNone (PStr "monthly report") []
  = (Return [("ok", PBool true);
             ("files", PList [PDict [("id", PStr "F0123"); ("name", PStr "report.pdf");
                                     ("size", PInt 4)]])],
     [ HttpGet "https://slack.com/api/files.getUploadURLExternal" (headers stub_client)
         (Some [("filename", PStr "report.pdf"); ("length", PInt 4)]) 30;
       HttpPostFiles (PStr "https://files.slack.com/upload/v1/abc") "file" "report.pdf"
         "%PDF" "application/octet-stream";
       HttpPostJson "https://slack.com/api/files.completeUploadExternal" (headers stub_client)
         (Some [("files", PList [PDict [("id", PStr "F0123"); ("title", PStr "report.pdf")]]);
                ("channel_id", PStr "C0123456789");
                ("initial_comment", PStr "monthly report")]) 30 ]).
Proof.
  refine (eq_trans
            (transfer_needs_status_200
               (stub_runtime (server_upload 200) stub_files) stub_client
               (PList [PStr "C0123456789"]) "/tmp/report.pdf" PNone (PStr "monthly report")
               [] (PStr "C0123456789") 4 "%PDF"
               (ok_response
                  (PDict [("ok", PBool true);
                          ("upload_url", PStr "https://files.slack.com/upload/v1/abc");
                          ("file_id", PStr "F0123")]))
               {| status_code := 200; reason := "";
                  resp_url := "https://files.slack.com/upload/v1/abc";
                  json := Raise (PyExc JSONDecodeError
                                   "Expecting value: line 1 column 1 (char 0)") |}
               [("ok", PBool true);
                ("upload_url", PStr "https://files.slack.com/upload/v1/abc");
                ("file_id", PStr "F0123")]
               (PStr "https://files.slack.com/upload/v1/abc") (PStr "F0123")
               eq_refl eq_refl eq_refl eq_refl _ eq_refl eq_refl eq_refl eq_refl) _).
  - split; [cbn; lia|]. split; reflexivity.
  - vm_compute. reflexivity.
Defined.

(** C9 (as stated) fails: the transfer is answered with 201, a 2xx status,
    and [upload_file] aborts; the log ends with the transfer. *)
Lemma transfer_status_201_aborts :
  upload_file (stub_runtime (server_upload 201) stub_files) stub_client
    (PList [PStr "C0123456789"]) "/tmp/report.pdf" PNone PNone []
  = (Raise (SlackAPIError
              (PStr "파일 업로드 실패: Slack API Error: 파일 업로드 실패: HTTP 201") None),
     [ HttpGet "https://slack.com/api/files.getUploadURLExternal" (headers stub_client)
         (Some [("filename", PStr "report.pdf"); ("length", PInt 4)]) 30;
       HttpPostFiles (PStr "https://files.slack.com/upload/v1/abc") "file" "report.pdf"
         "%PDF" "application/octet-stream" ]).
Proof. vm_compute. reflexivity. Qed.

(** ** Upload to a user *)

Lemma startswith_U_not_C (s : string) : startswith s "U" = true -> startswith s "C" = false.
Proof.
  unfold startswith. destruct s as [|a s]; cbn [String.prefix]; [discriminate|].
  destruct (ascii_dec "U" a) as [<-|ne]; [intros _; reflexivity | discriminate].
Qed.

Lemma lookup_channel_id_no_match (channel_list : list SlackChannel) (name : string) :
  Forall (fun ch => eq_str (ch_name ch) name = false) channel_list ->
  lookup_channel_id channel_list name = PNone.
Proof.
  induction 1 as [|ch l Hch _ IH]; [reflexivity|].
  cbn [lookup_channel_id]. now rewrite Hch.
Qed.

(** The first channel of the name is the one whose [id] is used. *)
Lemma lookup_channel_id_first_match
    (before after : list SlackChannel) (ch : SlackChannel) (name : string) :
  Forall (fun c => eq_str (ch_name c) name = false) before ->
  eq_str (ch_name ch) name = true ->
  lookup_channel_id (before ++ ch :: after)%list name = ch_id ch.
Proof.
  intros Hb Hch. induction Hb as [|c l Hc _ IH]; cbn [app lookup_channel_id].
  - now rewrite Hch.
  - now rewrite Hc.
Qed.

Lemma log_get_channels (rt : Runtime) (self : SlackAPIClient) (exclude_archived : bool)
    (log : Log) :
  snd (get_channels rt self exclude_archived log)
  = (log ++ [HttpGet "https://slack.com/api/conversations.list" (headers self)
               (Some [("types", PStr "public_channel");
                      ("exclude_archived", PBool exclude_archived);
                      ("limit", PInt 1000)]) 30])%list.
Proof.
  unfold get_channels.
  rewrite log_try_except_silent by (intro; silence).
  rewrite log_bind_silent by (intro; silence).
  now rewrite log_make_request.
Qed.

Lemma eq_str_false (v : pyval) (s : string) : v <> PStr s -> eq_str v s = false.
Proof.
  intros H. destruct v; try reflexivity. cbn [eq_str].
  destruct (String.eqb s0 s) eqn:E; [|reflexivity].
  apply String.eqb_eq in E. now subst.
Qed.

(** C10.  A [channels] argument that starts with [U] and holds no comma
    goes to the client as a bare string.  It does not start with [C], so
    the client lists the channels and looks for one whose name is that
    string.  When the listing succeeds and no channel has that name,
    [upload_file] raises the channel-not-found error (wrapped by its own
    handler), after the listing request and nothing else, and the tool
    renders it.  When a channel has that name, the upload is not refused:
    it goes on, after the listing request, as the upload to the [id] of the
    first such channel. *)
Theorem upload_to_user_id_is_a_channel_lookup
    (rt : Runtime) (slack_client : SlackAPIClient) (channels file_path : string)
    (title initial_comment : option string) (log log' : Log)
    (channel_list : list SlackChannel) :
  startswith channels "U" = true ->
  has_char "," channels = false ->
  path_exists rt file_path = true ->
  get_channels rt slack_client true log = (Return channel_list, log') ->
  channel_param channels = PStr channels /\
  log' = (log ++ [HttpGet "https://slack.com/api/conversations.list" (headers slack_client)
                    (Some [("types", PStr "public_channel");
                           ("exclude_archived", PBool true);
                           ("limit", PInt 1000)]) 30])%list /\
  (Forall (fun ch => ch_name ch <> PStr channels) channel_list ->
   upload_file rt slack_client (channel_param channels) file_path
     (opt_str title) (opt_str initial_comment) log
   = (Raise (SlackAPIError
               (PStr ("파일 업로드 실패: Slack API Error: 채널을 찾을 수 없습니다: " ++ channels))
               None), log') /\
   upload_slack_file rt slack_client channels file_path title initial_comment log
   = (Return ("❌ 파일 업로드 실패: 파일 업로드 실패: Slack API Error: 채널을 찾을 수 없습니다: "
              ++ channels ++ nl ++ "파일: " ++ file_path ++ nl ++ "채널: " ++ channels),
      log')) /\
  (forall (before after : list SlackChannel) (ch : SlackChannel) (id : string),
     channel_list = (before ++ ch :: after)%list ->
     Forall (fun c => ch_name c <> PStr channels) before ->
     ch_name ch = PStr channels ->
     ch_id ch = PStr id ->
     id <> EmptyString ->
     upload_file rt slack_client (channel_param channels) file_path
       (opt_str title) (opt_str initial_comment) log
     = upload_file rt slack_client (PList [PStr id]) file_path
         (opt_str title) (opt_str initial_comment) log').
Proof.
  intros HU Hcomma Hexists Hlist.
  assert (channel_param channels = PStr channels) as Hparam.
  { unfold channel_param. now rewrite HU, Hcomma. }
  split; [exact Hparam|]. split; [|split].
  - pose proof (log_get_channels rt slack_client true log) as Hlog.
    now rewrite Hlist in Hlog.
  - intros Hnone.
    assert (Forall (fun ch => eq_str (ch_name ch) channels = false) channel_list) as Hnone'.
    { eapply Forall_impl; [|exact Hnone]. intros ch. apply eq_str_false. }
    assert (upload_file rt slack_client (PStr channels) file_path
              (opt_str title) (opt_str initial_comment) log
            = (Raise (SlackAPIError
                        (PStr ("파일 업로드 실패: Slack API Error: 채널을 찾을 수 없습니다: "
                               ++ channels)) None), log')) as Hupload.
    { unfold upload_file. rewrite Hexists. cbn [negb].
      unfold try_except, bind. rewrite (startswith_U_not_C _ HU). cbn [negb].
      rewrite Hlist, (lookup_channel_id_no_match _ _ Hnone'). reflexivity. }
    split.
    + now rewrite Hparam.
    + unfold upload_slack_file. rewrite tool_skeleton.
      unfold upload_slack_file_try. rewrite Hexists. cbn [negb].
      unfold bind. rewrite Hparam, Hupload. reflexivity.
  - intros before after ch id -> Hbefore Hname Hid Hne.
    assert (lookup_channel_id (before ++ ch :: after)%list channels = PStr id) as Hlookup.
    { rewrite <- Hid. apply lookup_channel_id_first_match.
      - eapply Forall_impl; [|exact Hbefore]. intros c. apply eq_str_false.
      - rewrite Hname. cbn [eq_str]. apply String.eqb_refl. }
    rewrite Hparam. unfold upload_file. rewrite Hexists. cbn [negb].
    unfold try_except, bind. rewrite (startswith_U_not_C _ HU). cbn [negb].
    rewrite Hlist, Hlookup.
    destruct id as [|a id]; [now destruct Hne|]. reflexivity.
Qed.

Lemma upload_to_user_id_is_a_channel_lookup_witness :
  let listing :=
    HttpGet "https://slack.com/api/conversations.list" (headers stub_client)
      (Some [("types", PStr "public_channel"); ("exclude_archived", PBool true);
             ("limit", PInt 1000)]) 30 in
  upload_slack_file (stub_runtime (server_upload 200) stub_files) stub_client
    "U0123456789" "/tmp/report.pdf" None None []
  = (Return ("❌ 파일 업로드 실패: 파일 업로드 실패: Slack API Error: "
             ++ "채널을 찾을 수 없습니다: U0123456789" ++ nl
             ++ "파일: /tmp/report.pdf" ++ nl ++ "채널: U0123456789"), [listing]) /\
  upload_file (stub_runtime (server_upload_named "U0123456789" "C0777") stub_files)
    stub_client (PStr "U0123456789") "/tmp/report.pdf" PNone PNone []
  = upload_file (stub_runtime (server_upload_named "U0123456789" "C0777") stub_files)
      stub_client (PList [PStr "C0777"]) "/tmp/report.pdf" PNone PNone [listing].
Proof.
  cbv zeta. split.
  - apply (upload_to_user_id_is_a_channel_lookup
             (stub_runtime (server_upload 200) stub_files) stub_client
             "U0123456789" "/tmp/report.pdf" None None []
             [HttpGet "https://slack.com/api/conversations.list" (headers stub_client)
                (Some [("types", PStr "public_channel");
                       ("exclude_archived", PBool true);
                       ("limit", PInt 1000)]) 30]
             [mkSlackChannel (PStr "C0123456789") (PStr "general") (PBool false)
                (PBool false) PNone PNone PNone]
             eq_refl eq_refl eq_refl eq_refl).
    repeat constructor. discriminate.
  - apply (proj2 (proj2 (proj2
             (upload_to_user_id_is_a_channel_lookup
                (stub_runtime (server_upload_named "U0123456789" "C0777") stub_files)
                stub_client "U0123456789" "/tmp/report.pdf" None None []
                [HttpGet "https://slack.com/api/conversations.list" (headers stub_client)
                   (Some [("types", PStr "public_channel");
                          ("exclude_archived", PBool true);
                          ("limit", PInt 1000)]) 30]
                [mkSlackChannel (PStr "C0123456789") (PStr "general") (PBool false)
                   (PBool false) PNone PNone PNone;
                 mkSlackChannel (PStr "C0777") (PStr "U0123456789") (PBool false)
                   (PBool false) PNone PNone PNone]
                eq_refl eq_refl eq_refl eq_refl)))
             [mkSlackChannel (PStr "C0123456789") (PStr "general") (PBool false)
                (PBool false) PNone PNone PNone]
             []
             (mkSlackChannel (PStr "C0777") (PStr "U0123456789") (PBool false)
                (PBool false) PNone PNone PNone)
             "C0777").
    + reflexivity.
    + repeat constructor. discriminate.
    + reflexivity.
    + reflexivity.
    + discriminate.
Defined.

(** A channel that bears the name of the user receives the file. *)
Example upload_to_the_channel_named_like_the_user :
  snd (upload_slack_file
         (stub_runtime (server_upload_named "U0123456789" "C0777") stub_files) stub_client
         "U0123456789" "/tmp/report.pdf" None None [])
  = [ HttpGet "https://slack.com/api/conversations.list" (headers stub_client)
        (Some [("types", PStr "public_channel"); ("exclude_archived", PBool true);
               ("limit", PInt 1000)]) 30;
      HttpGet "https://slack.com/api/files.getUploadURLExternal" (headers stub_client)
        (Some [("filename", PStr "report.pdf"); ("length", PInt 4)]) 30;
      HttpPostFiles (PStr "https://files.slack.com/upload/v1/abc") "file" "report.pdf"
        "%PDF" "application/octet-stream";
      HttpPostJson "https://slack.com/api/files.completeUploadExternal" (headers stub_client)
        (Some [("files", PList [PDict [("id", PStr "F0123"); ("title", PStr "report.pdf")]]);
               ("channel_id", PStr "C0777")]) 30 ].
Proof. vm_compute. reflexivity. Qed.

(** * Further properties *)

(** ** How many requests, and of which form *)

Lemma sends_weaken {A} (P : Request -> Prop) (n n' : nat) (m : M A) :
  (n <= n')%nat -> sends P n m -> sends P n' m.
Proof.
  intros Hn Hm log. destruct (Hm log) as (reqs & E & HP & Hl).
  exists reqs. repeat split; [exact E | exact HP | lia].
Qed.

Lemma sends_silent {A} (P : Request -> Prop) (n : nat) (m : M A) :
  silent m -> sends P n m.
Proof.
  intros Hm log. exists []. rewrite Hm, app_nil_r.
  repeat split; [constructor | cbn; lia].
Qed.

Lemma sends_http (rt : Runtime) (P : Request -> Prop) (req : Request) :
  P req -> sends P 1 (http rt req).
Proof.
  intros HP log. exists [req]. repeat split; [now constructor | cbn; lia].
Qed.

Lemma sends_bind {A B} (P : Request -> Prop) (n1 n2 : nat) (m : M A) (k : A -> M B) :
  sends P n1 m -> (forall a, sends P n2 (k a)) -> sends P (n1 + n2) (bind m k).
Proof.
  intros Hm Hk log. unfold bind. destruct (Hm log) as (r1 & E1 & P1 & L1).
  destruct (m log) as [[a|e] log1]; cbn [snd] in *; subst log1.
  - destruct (Hk a (log ++ r1)%list) as (r2 & E2 & P2 & L2).
    exists (r1 ++ r2)%list. rewrite E2, app_assoc.
    repeat split; [now apply Forall_app | rewrite length_app; lia].
  - exists r1. repeat split; [exact P1 | lia].
Qed.

Lemma sends_try_except {A} (P : Request -> Prop) (n1 n2 : nat) (body : M A)
    (clauses : list (clause A)) :
  sends P n1 body -> (forall e, sends P n2 (dispatch clauses e)) ->
  sends P (n1 + n2) (try_except body clauses).
Proof.
  intros Hb Hc log. unfold try_except. destruct (Hb log) as (r1 & E1 & P1 & L1).
  destruct (body log) as [[a|e] log1]; cbn [snd] in *; subst log1.
  - exists r1. repeat split; [exact P1 | lia].
  - destruct (Hc e (log ++ r1)%list) as (r2 & E2 & P2 & L2).
    exists (r1 ++ r2)%list. rewrite E2, app_assoc.
    repeat split; [now apply Forall_app | rewrite length_app; lia].
Qed.

(** The forms used below: a procedure followed, or preceded, by silence *)
Lemma sends_then_silent {A B} (P : Request -> Prop) (n : nat) (m : M A) (k : A -> M B) :
  sends P n m -> (forall a, silent (k a)) -> sends P n (bind m k).
Proof.
  intros Hm Hk. apply (sends_weaken P (n + 0)); [lia|].
  apply sends_bind; [exact Hm | intro; now apply sends_silent].
Qed.

Lemma silent_then_sends {A B} (P : Request -> Prop) (n : nat) (m : M A) (k : A -> M B) :
  silent m -> (forall a, sends P n (k a)) -> sends P n (bind m k).
Proof.
  intros Hm Hk. apply (sends_bind P 0 n); [now apply sends_silent | exact Hk].
Qed.

Lemma sends_try_silent {A} (P : Request -> Prop) (n : nat) (body : M A)
    (clauses : list (clause A)) :
  sends P n body -> (forall e, silent (dispatch clauses e)) ->
  sends P n (try_except body clauses).
Proof.
  intros Hb Hc. apply (sends_weaken P (n + 0)); [lia|].
  apply sends_try_except; [exact Hb | intro; now apply sends_silent].
Qed.

Section ClientRequests.

Context (rt : Runtime) (self : SlackAPIClient).

Local Abbreviation P := (client_request self).

Lemma client_request_of (method endpoint : string) (data params : option dict) :
  P (request_of self method endpoint data params).
Proof.
  unfold request_of.
  assert (startswith (BASE_URL ++ "/" ++ endpoint) (BASE_URL ++ "/") = true) as H.
  { unfold startswith, BASE_URL. cbn. apply prefix_empty. }
  destruct (String.eqb (upper method) "GET"); cbn; auto.
Qed.

Lemma sends_make_request (method endpoint : string) (data params : option dict) :
  sends P 1 (_make_request rt self method endpoint data params).
Proof.
  intro log. exists [request_of self method endpoint data params].
  rewrite log_make_request.
  repeat split; [constructor; [apply client_request_of | constructor] | cbn; lia].
Qed.

End ClientRequests.

Section OperationRequests.

Context (rt : Runtime) (self : SlackAPIClient).

Local Abbreviation P := (client_request self).

(** A single call of [_make_request] followed by silence *)
Ltac one_request :=
  repeat first
    [ apply sends_make_request
    | apply sends_try_silent; [|intro; silence]
    | apply sends_then_silent; [|intro; silence] ].

Lemma sends_send_message (channel : pyval) (text : string) (thread_ts : pyval) :
  sends P 1 (send_message rt self channel text thread_ts).
Proof.
  unfold send_message. apply silent_then_sends; [silence|].
  intro. apply sends_make_request.
Qed.

Lemma sends_get_channels (exclude_archived : bool) :
  sends P 1 (get_channels rt self exclude_archived).
Proof. unfold get_channels. one_request. Qed.

Lemma sends_get_channel_history (channel_id : string) (limit : Z) (oldest latest : pyval) :
  sends P 1 (get_channel_history rt self channel_id limit oldest latest).
Proof. unfold get_channel_history. one_request. Qed.

Lemma sends_send_direct_message (user_id text : string) :
  sends P 2 (send_direct_message rt self user_id text).
Proof.
  unfold send_direct_message. apply sends_try_silent; [|intro; silence].
  apply (sends_bind P 1 1); [apply sends_make_request | intro].
  apply silent_then_sends; [silence | intro].
  apply silent_then_sends; [silence | intro].
  apply sends_send_message.
Qed.

Lemma sends_get_users (limit : Z) : sends P 1 (get_users rt self limit).
Proof. unfold get_users. one_request. Qed.

Lemma sends_get_user_info (user_id : string) : sends P 1 (get_user_info rt self user_id).
Proof. unfold get_user_info. one_request. Qed.

Lemma sends_search_messages (query : string) (count : Z) (sort : string) :
  sends P 1 (search_messages rt self query count sort).
Proof. unfold search_messages. one_request. Qed.

Lemma sends_add_reaction (channel timestamp name : string) :
  sends P 1 (add_reaction rt self channel timestamp name).
Proof. unfold add_reaction. one_request. Qed.

Lemma sends_get_thread_replies (channel thread_ts : string) :
  sends P 1 (get_thread_replies rt self channel thread_ts).
Proof. unfold get_thread_replies. one_request. Qed.

Lemma sends_test_connection : sends P 1 (test_connection rt self).
Proof. unfold test_connection. one_request. Qed.

Lemma sends_upload_file (channels : pyval) (file_path : string)
    (title initial_comment : pyval) :
  sends P 4 (upload_file rt self channels file_path title initial_comment).
Proof.
  unfold upload_file. destruct (negb (path_exists rt file_path));
    [apply sends_silent; silence|].
  apply sends_try_silent; [|intro; silence].
  apply (sends_bind P 1 3).
  { destruct channels; try solve [apply sends_silent; silence].
    destruct (negb (startswith s "C")); [|apply sends_silent; silence].
    apply sends_then_silent; [apply sends_get_channels | intro; silence]. }
  intro. apply silent_then_sends; [silence | intro].
  apply (sends_bind P 1 2); [apply sends_make_request | intro].
  apply silent_then_sends; [silence | intro].
  apply silent_then_sends; [silence | intro].
  apply silent_then_sends; [silence | intro].
  apply (sends_bind P 1 1); [apply sends_http; cbn; auto | intro].
  apply silent_then_sends; [silence | intro].
  apply silent_then_sends; [silence | intro].
  apply sends_make_request.
Qed.

End OperationRequests.

(** X1.  Whatever the remote end does, a call of a tool only appends to the
    log: at most four requests for [upload_slack_file], three for
    [send_slack_direct_message] and one for every other tool (nothing is
    retried), each of them a call under [BASE_URL] with the client's
    headers and the timeout of 30, or the transfer of the file's bytes. *)
Theorem tools_request_budget
    (rt : Runtime) (slack_client : SlackAPIClient) (call : tool_call) :
  sends (client_request slack_client) (request_budget call)
    (call_tool rt slack_client call).
Proof.
  destruct call; cbn [call_tool request_budget];
    match goal with
    | |- sends _ _ (?tool _ _ _ _ _ _) => unfold tool
    | |- sends _ _ (?tool _ _ _ _ _) => unfold tool
    | |- sends _ _ (?tool _ _ _ _) => unfold tool
    | |- sends _ _ (?tool _ _ _) => unfold tool
    | |- sends _ _ (?tool _ _) => unfold tool
    end;
    cbv zeta; unfold unexpected;
    (apply sends_try_silent; [|intro; silence]).
  - unfold send_slack_message_try.
    apply sends_then_silent; [apply sends_send_message | intro; silence].
  - unfold get_slack_channels_try.
    apply sends_then_silent; [apply sends_get_channels | intro; silence].
  - unfold get_slack_channel_history_try.
    apply sends_then_silent; [apply sends_get_channel_history | intro; silence].
  - unfold send_slack_direct_message_try.
    apply (sends_bind _ 2 1); [apply sends_send_direct_message | intro].
    apply sends_then_silent; [|intro; silence].
    apply sends_try_silent; [|intro; silence].
    apply sends_then_silent; [apply sends_get_user_info | intro; silence].
  - unfold get_slack_users_try.
    apply sends_then_silent; [apply sends_get_users | intro; silence].
  - unfold search_slack_messages_try.
    apply sends_then_silent; [apply sends_search_messages | intro; silence].
  - unfold upload_slack_file_try.
    destruct (negb (path_exists rt file_path)); [apply sends_silent; silence|].
    apply sends_then_silent; [apply sends_upload_file | intro; silence].
  - unfold add_slack_reaction_try.
    apply sends_then_silent; [apply sends_add_reaction | intro; silence].
  - unfold get_slack_thread_replies_try.
    apply sends_then_silent; [apply sends_get_thread_replies | intro].
    destruct a; [silence|]. unfold render_thread_replies. silence.
  - unfold send_slack_thread_reply_try.
    apply sends_then_silent; [apply sends_send_message | intro; silence].
  - unfold test_slack_connection_try.
    apply sends_then_silent; [apply sends_test_connection | intro; silence].
Qed.

(** ** What [_make_request] lets out *)

Lemma reported_class (e : exn) :
  match reported e with
  | SlackAPIError _ _ => True
  | PyExc c _ => is_RequestException c = false /\ is_JSONDecodeError c = false
  end.
Proof.
  destruct e as [|c msg]; cbn; [exact I|].
  destruct (is_RequestException c) eqn:E1; [exact I|].
  destruct (is_JSONDecodeError c) eqn:E2; [exact I|]. now rewrite E1, E2.
Qed.

(** X2.  [_make_request] returns a body only when the remote end answered
    with a status outside 400..599 and the body decoded to a [dict] whose
    [ok] is truthy, and the body it returns is that [dict].  Whatever it
    raises is a [SlackAPIError] or an exception that is neither a
    [RequestException] nor a [JSONDecodeError]: those two never leave it. *)
Theorem make_request_outcomes
    (rt : Runtime) (self : SlackAPIClient) (method endpoint : string)
    (data params : option dict) (log : Log) :
  match fst (_make_request rt self method endpoint data params log) with
  | Return d =>
      truthy (dict_get_default d "ok" (PBool false)) = true /\
      exists r,
        remote rt log (request_of self method endpoint data params) = Return r /\
        (status_code r < 400 \/ 600 <= status_code r) /\
        json r = Return (PDict d)
  | Raise (SlackAPIError _ _) => True
  | Raise (PyExc c _) => is_RequestException c = false /\ is_JSONDecodeError c = false
  end.
Proof.
  rewrite make_request_eq. cbn [fst]. unfold outcome_of_exchange.
  destruct (remote rt log (request_of self method endpoint data params)) as [r|e].
  - destruct ((400 <=? status_code r) && (status_code r <? 600))%Z eqn:Es; [exact I|].
    destruct (json r) as [v|e] eqn:Ej; [|apply reported_class].
    destruct v; try (cbn; now split).
    destruct (truthy (dict_get_default d "ok" (PBool false))) eqn:Eok; [|exact I].
    split; [exact Eok|]. exists r. split; [reflexivity|]. split; [lia | exact Ej].
  - apply reported_class.
Qed.

(** ** Messages *)

(** X3.  The one request of [send_slack_message] posts the text unchanged
    to the channel with a single leading [#] removed, and carries no
    [thread_ts].  The one request of [send_slack_thread_reply] carries
    [thread_ts] after the four fields of a plain message, unless it is the
    empty string: then the field is left out and the reply is posted like a
    plain message. *)
Theorem message_requests
    (rt : Runtime) (slack_client : SlackAPIClient) (channel thread_ts text : string)
    (log : Log) :
  let post data :=
    HttpPostJson "https://slack.com/api/chat.postMessage" (headers slack_client)
      (Some data) 30 in
  let plain :=
    [("channel", PStr (if startswith channel "#" then slice_from_1 channel else channel));
     ("text", PStr text); ("unfurl_links", PBool true); ("unfurl_media", PBool true)] in
  snd (send_slack_message rt slack_client channel text log) = (log ++ [post plain])%list /\
  snd (send_slack_thread_reply rt slack_client channel thread_ts text log)
  = (log ++ [post (match thread_ts with
                    | EmptyString => plain
                    | _ => plain ++ [("thread_ts", PStr thread_ts)]
                    end)])%list.
Proof.
  cbv zeta. split.
  - unfold send_slack_message. rewrite log_tool. unfold send_slack_message_try.
    rewrite log_bind_silent by (intro; silence).
    unfold send_message, bind, ret. cbn [truthy]. now rewrite log_make_request.
  - unfold send_slack_thread_reply. rewrite log_tool. unfold send_slack_thread_reply_try.
    rewrite log_bind_silent by (intro; silence).
    unfold send_message, bind, ret. rewrite log_make_request.
    destruct thread_ts; reflexivity.
Qed.

Lemma try_reraise {A} (body : M A) (log : Log) :
  try_except body
    [ except_SlackAPIError (fun error response => raise (SlackAPIError error response)) ] log
  = body log.
Proof.
  unfold try_except. destruct (body log) as [[a|[error response|c msg]] log']; reflexivity.
Qed.

(** X4.  [send_direct_message] opens the conversation first.  When that
    request fails, in any way, the failure is the failure of the whole
    operation and no message is posted.  When it is accepted, the operation
    is [send_message] to the [id] of the [channel] of the answer, run after
    that one request; an answer without [channel], or a [channel] without
    [id], raises before anything is posted. *)
Theorem direct_message_steps
    (rt : Runtime) (self : SlackAPIClient) (user_id text : string) (log : Log) :
  let open :=
    HttpPostJson "https://slack.com/api/conversations.open" (headers self)
      (Some [("users", PStr user_id)]) 30 in
  let log1 := (log ++ [open])%list in
  match outcome_of_exchange (remote rt log open) with
  | Raise e => send_direct_message rt self user_id text log = (Raise e, log1)
  | Return payload =>
      match py_getitem (PDict payload) "channel" with
      | Raise e => send_direct_message rt self user_id text log = (Raise e, log1)
      | Return dm_channel =>
          match py_getitem dm_channel "id" with
          | Raise e => send_direct_message rt self user_id text log = (Raise e, log1)
          | Return dm_channel_id =>
              send_direct_message rt self user_id text log
              = send_message rt self dm_channel_id text PNone log1
          end
      end
  end.
Proof.
  cbv zeta. unfold send_direct_message. rewrite try_reraise.
  unfold bind, lift. rewrite make_request_eq.
  change (request_of self "POST" "conversations.open" (Some [("users", PStr user_id)]) None)
    with (HttpPostJson "https://slack.com/api/conversations.open" (headers self)
            (Some [("users", PStr user_id)]) 30).
  destruct (outcome_of_exchange _) as [payload|e]; [|reflexivity].
  destruct (py_getitem (PDict payload) "channel") as [dm_channel|e]; [|reflexivity].
  destruct (py_getitem dm_channel "id") as [dm_channel_id|e]; reflexivity.
Qed.

(** ** Pure procedures *)

Lemma pure_ret {A} (a : A) : pure (ret a).
Proof. now exists (Return a). Qed.

Lemma pure_raise {A} (e : exn) : pure (@raise A e).
Proof. now exists (Raise e). Qed.

Lemma pure_lift {A} (o : outcome A) : pure (lift o).
Proof. now exists o. Qed.

Lemma pure_bind {A B} (m : M A) (k : A -> M B) :
  pure m -> (forall a, pure (k a)) -> pure (bind m k).
Proof.
  intros [o Ho] Hk. destruct o as [a|e].
  - destruct (Hk a) as [o' Ho']. exists o'. intro log. unfold bind. now rewrite Ho.
  - exists (Raise e). intro log. unfold bind. now rewrite Ho.
Qed.

Lemma pure_outcome {A} (m : M A) (log log' : Log) (o : outcome A) :
  pure m -> m log = (o, log') -> log' = log /\ forall l, m l = (o, l).
Proof.
  intros [o' Ho] E. rewrite Ho in E. inversion E; subst. now split.
Qed.

Ltac purity :=
  repeat first
    [ apply pure_ret | apply pure_raise | apply pure_lift
    | apply pure_bind; [|intro]
    | match goal with
      | |- pure (if ?b then _ else _) => destruct b
      end ].

Lemma pure_user_of_data (user_data : pyval) : pure (user_of_data user_data).
Proof. unfold user_of_data. purity. Qed.

Lemma pure_channel_of_data (channel_data : pyval) : pure (channel_of_data channel_data).
Proof. unfold channel_of_data. purity. Qed.

(** ** Users *)

(** The loop of [get_users] returns one user per entry it does not skip,
    in order. *)
Lemma users_loop (raw : list pyval) :
  forall out log log',
    for_each_opt
      (fun user_data =>
         deleted <- lift (py_get user_data "deleted" (PBool false)) ;;
         if truthy deleted then ret None
         else user <- user_of_data user_data ;; ret (Some user))
      raw log = (Return out, log') ->
    Forall2 user_built_for (filter (fun u => negb (is_deleted u)) raw) out.
Proof.
  induction raw as [|x raw IH]; intros out log log' H.
  - inversion H. constructor.
  - cbn [for_each_opt] in H. unfold bind at 1 in H. unfold bind at 1 in H.
    unfold lift at 1 in H. cbn [filter]. unfold is_deleted at 1.
    destruct (py_get x "deleted" (PBool false)) as [deleted|e]; [|discriminate].
    destruct (truthy deleted); cbn [negb].
    + unfold ret at 1 in H. unfold bind in H.
      destruct (for_each_opt _ raw log) as [[us|e] l] eqn:Eloop; [|discriminate].
      inversion H; subst. eapply IH, Eloop.
    + unfold bind at 1 in H.
      destruct (user_of_data x log) as [[u|e] l] eqn:Eu; [|discriminate].
      destruct (pure_outcome _ _ _ _ (pure_user_of_data x) Eu) as [-> Hu].
      unfold ret at 1 in H. unfold bind in H.
      destruct (for_each_opt _ raw log) as [[us|e] l] eqn:Eloop; [|discriminate].
      inversion H; subst. constructor; [exact Hu | eapply IH, Eloop].
Qed.

(** X5.  When [get_users] returns a list, its users are, one for one and in
    order, those built for the entries of the payload's [members] whose
    [deleted] is not truthy.  An entry marked deleted is dropped before any
    of its other fields is read. *)
Theorem users_skip_deleted
    (rt : Runtime) (self : SlackAPIClient) (limit : Z) (log log' : Log) (r : Response)
    (payload : dict) (raw : list pyval) (out : list SlackUser) :
  (forall req, remote rt log req = Return r) ->
  json r = Return (PDict payload) ->
  py_iter (dict_get_default payload "members" (PList [])) = Return raw ->
  get_users rt self limit log = (Return out, log') ->
  Forall2 user_built_for (filter (fun u => negb (is_deleted u)) raw) out.
Proof.
  intros Ha Hj Hraw H. unfold get_users in H. unfold bind at 1 in H.
  rewrite make_request_eq, Ha in H. unfold outcome_of_exchange in H.
  destruct ((400 <=? status_code r) && (status_code r <? 600))%Z; [discriminate|].
  rewrite Hj in H.
  destruct (truthy (dict_get_default payload "ok" (PBool false))); [|discriminate].
  unfold bind at 1 in H. unfold lift at 1 in H. rewrite Hraw in H.
  eapply users_loop, H.
Qed.

Lemma users_skip_deleted_witness :
  Forall2 user_built_for (filter (fun u => negb (is_deleted u)) some_members)
    [ mkSlackUser (PStr "U1") (PStr "kim") (PStr "Kim") (PStr "kim@example.com")
        (PBool false) (PBool false) PNone;
      mkSlackUser (PStr "B1") (PStr "deploybot") (PStr "") PNone
        (PBool true) (PBool false) PNone ].
Proof.
  apply (users_skip_deleted (stub_runtime server_members []) stub_client 50 []
           [HttpGet "https://slack.com/api/users.list" (headers stub_client)
              (Some [("limit", PInt 50)]) 30]
           (ok_response (PDict [("ok", PBool true); ("members", PList some_members)]))
           [("ok", PBool true); ("members", PList some_members)] some_members);
    reflexivity.
Defined.

(** ** Channel listings *)

Lemma channel_of_dict (d : dict) (log : Log) :
  match fst (channel_of_data (PDict d) log) with
  | Return _ => readable_channel d = true
  | Raise _ => readable_channel d = false
  end.
Proof.
  unfold channel_of_data, readable_channel, bind, lift, ret, py_getitem.
  destruct (dict_get d "id"); [|reflexivity].
  destruct (dict_get d "name"); [|reflexivity].
  cbn [py_get].
  destruct (dict_get_default d "topic" (PDict [])); try reflexivity.
  cbn [py_get is_dict andb].
  destruct (dict_get_default d "purpose" (PDict [])); reflexivity.
Qed.

Lemma channels_loop (entries : list dict) (log : Log) :
  match for_each channel_of_data (map PDict entries) log with
  | (Return out, log') =>
      log' = log /\ length out = length entries /\ forallb readable_channel entries = true
  | (Raise _, log') => log' = log /\ forallb readable_channel entries = false
  end.
Proof.
  induction entries as [|d entries IH]; [now cbn|].
  cbn [map for_each forallb]. unfold bind at 1.
  pose proof (channel_of_dict d log) as Hd.
  destruct (channel_of_data (PDict d) log) as [[ch|e] l] eqn:Ed;
    destruct (pure_outcome _ _ _ _ (pure_channel_of_data (PDict d)) Ed) as [-> _];
    cbn [fst] in Hd; rewrite Hd; [|now split].
  unfold bind at 1.
  destruct (for_each channel_of_data (map PDict entries) log) as [[out|e] l];
    destruct IH as (-> & IH); [destruct IH as [Hl Hr]|]; cbn; auto.
Qed.

(** X6.  For an accepted channel listing whose [channels] are objects,
    [get_channels] returns a list exactly when every entry is readable: it
    has [id] and [name], and its [topic] and [purpose] are objects when
    present.  The list then has one channel per entry.  One unreadable
    entry (a [topic] that is [null], say) makes the whole listing raise. *)
Theorem channel_listing_returns_iff
    (rt : Runtime) (self : SlackAPIClient) (exclude_archived : bool) (log : Log)
    (r : Response) (payload : dict) (entries : list dict) :
  (forall req, remote rt log req = Return r) ->
  accepted_response r payload ->
  dict_get_default payload "channels" (PList []) = PList (map PDict entries) ->
  match fst (get_channels rt self exclude_archived log) with
  | Return out =>
      forallb readable_channel entries = true /\ length out = length entries
  | Raise _ => forallb readable_channel entries = false
  end.
Proof.
  intros Ha Hr Hc. unfold get_channels, try_except, bind.
  rewrite (make_request_accepted _ _ _ _ _ _ _ r payload (Ha _) Hr).
  rewrite Hc. cbn [lift py_iter].
  pose proof (channels_loop entries
                (log ++ [request_of self "GET" "conversations.list" None
                           (Some [("types", PStr "public_channel");
                                  ("exclude_archived", PBool exclude_archived);
                                  ("limit", PInt 1000)])])%list) as Hloop.
  destruct (for_each channel_of_data (map PDict entries) _) as [[out|e] l].
  - destruct Hloop as (_ & Hl & Hr'). now split.
  - destruct Hloop as (_ & Hr').
    destruct e as [error response|c msg]; cbn [dispatch except_SlackAPIError raise fst].
    + now destruct (contains (py_str rt error) "missing_scope").
    + exact Hr'.
Qed.

Lemma channel_listing_returns_iff_witness :
  match fst (get_channels (stub_runtime (server_channels two_channels) []) stub_client true [])
  with
  | Return out => forallb readable_channel two_channels = true /\ length out = 2%nat
  | Raise _ => forallb readable_channel two_channels = false
  end.
Proof.
  apply (channel_listing_returns_iff (stub_runtime (server_channels two_channels) [])
           stub_client true []
           (ok_response (PDict [("ok", PBool true);
                                ("channels", PList (map PDict two_channels))]))
           [("ok", PBool true); ("channels", PList (map PDict two_channels))] two_channels).
  - reflexivity.
  - split; [cbn; lia|]. split; reflexivity.
  - reflexivity.
Defined.

(** A [topic] that is [null] hides the whole listing from the tool. *)
Example null_topic_hides_the_listing :
  fst (get_slack_channels
         (stub_runtime (server_channels
                          (two_channels ++ [[("id", PStr "C3"); ("name", PStr "ops");
                                             ("topic", PNone)]])) [])
         stub_client [])
  = Return "❌ 예상치 못한 오류 발생: 'NoneType' object has no attribute 'get'".
Proof. vm_compute. reflexivity. Qed.

(** ** Search *)

(** X7.  When the remote end rejects a search with the tag [tag],
    [search_slack_messages] returns its failure string with the query: the
    tag is replaced by the guidance that names ['search:read'] and repeats
    the tag exactly when the tag is [not_allowed_token_type] or
    [missing_scope] (the whole tag, not a part of it), and is rendered as it
    came otherwise. *)
Theorem search_failure_rendering
    (rt : Runtime) (slack_client : SlackAPIClient) (query : string) (count : Z)
    (log : Log) (r : Response) (tag : string) :
  (forall req, remote rt log req = Return r) ->
  remote_error_response r tag ->
  fst (search_slack_messages rt slack_client query count log)
  = Return ("❌ 메시지 검색 실패: "
            ++ (if (String.eqb tag "not_allowed_token_type" || String.eqb tag "missing_scope")%bool
                then search_scope_guidance tag else tag)
            ++ nl ++ "검색어: " ++ query).
Proof.
  intros Ha Hr. unfold search_slack_messages. rewrite tool_skeleton.
  unfold search_slack_messages_try, search_messages, bind, try_except.
  match goal with
  | |- context [_make_request rt slack_client ?m ?e ?d ?p log] =>
      destruct (make_request_remote_error rt slack_client log r tag Ha Hr m e d p)
        as (d' & ->)
  end.
  cbn [dispatch except_SlackAPIError in_strs existsb eq_str orb].
  rewrite orb_false_r.
  destruct (String.eqb tag "not_allowed_token_type" || String.eqb tag "missing_scope")%bool;
    reflexivity.
Qed.

Lemma search_failure_rendering_witness :
  fst (search_slack_messages (stub_runtime (server_error "not_allowed_token_type") [])
         stub_client "in:#general release" 20 [])
  = Return ("❌ 메시지 검색 실패: " ++ search_scope_guidance "not_allowed_token_type"
            ++ nl ++ "검색어: in:#general release").
Proof.
  apply (search_failure_rendering (stub_runtime (server_error "not_allowed_token_type") [])
           stub_client "in:#general release" 20 []
           (ok_response (PDict [("ok", PBool false);
                                ("error", PStr "not_allowed_token_type")]))
           "not_allowed_token_type").
  - reflexivity.
  - split; [cbn; lia|]. eexists. repeat split.
Defined.

(** ** Timestamps in the strings of the tools *)

Lemma format_timestamp_eq (rt : Runtime) (timestamp : pyval) (log : Log) :
  format_timestamp rt timestamp log = (format_timestamp_outcome rt timestamp, log).
Proof.
  unfold format_timestamp, format_timestamp_outcome, try_except, bind, lift, ret.
  destruct (py_float rt timestamp) as [f|[error resp|c msg]]; cbn; try reflexivity.
  - destruct (strftime_local rt f) as [s|[error resp|c msg]]; cbn; try reflexivity.
    destruct (is_ValueError_or_TypeError c); reflexivity.
  - destruct (is_ValueError_or_TypeError c); reflexivity.
Qed.

(** X8.  When the remote end accepts the message of [send_slack_message],
    the string returned depends on the [ts] of the answer alone: the
    confirmation, with the text and the channel as the caller gave them,
    when [format_timestamp] gives a rendering (the [ts] itself when it is
    missing or no number); but a failure string when the conversion raises
    anything other than [ValueError] or [TypeError], although the message
    has been posted. *)
Theorem send_message_confirmation
    (rt : Runtime) (slack_client : SlackAPIClient) (channel text : string) (log : Log)
    (r : Response) (payload : dict) :
  (forall req, remote rt log req = Return r) ->
  accepted_response r payload ->
  fst (send_slack_message rt slack_client channel text log)
  = Return
      match format_timestamp_outcome rt (dict_get_default payload "ts" (PStr "")) with
      | Return ts =>
          "✅ 메시지가 성공적으로 전송되었습니다!" ++ nl
          ++ "채널: " ++ channel ++ nl
          ++ "메시지: " ++ text ++ nl
          ++ "타임스탬프: " ++ py_str rt ts
      | Raise (SlackAPIError error _) =>
          "❌ 메시지 전송 실패: " ++ py_str rt error ++ nl
          ++ "채널: " ++ channel ++ nl ++ "메시지: " ++ text
      | Raise (PyExc _ msg) => "❌ 예상치 못한 오류 발생: " ++ msg
      end.
Proof.
  intros Ha Hr. unfold send_slack_message. rewrite tool_skeleton.
  unfold send_slack_message_try, send_message, bind, ret.
  rewrite (make_request_accepted _ _ _ _ _ _ _ r payload (Ha _) Hr).
  rewrite format_timestamp_eq.
  destruct (format_timestamp_outcome rt (dict_get_default payload "ts" (PStr "")))
    as [ts|[error resp|c msg]]; reflexivity.
Qed.

Lemma send_message_confirmation_witness :
  fst (send_slack_message (overflowing_runtime server_ts_1e999) stub_client
         "#general" "hello" [])
  = Return "❌ 예상치 못한 오류 발생: timestamp out of range for platform time_t".
Proof.
  apply (send_message_confirmation (overflowing_runtime server_ts_1e999) stub_client
           "#general" "hello" []
           (ok_response (PDict [("ok", PBool true); ("ts", PStr "1e999")]))
           [("ok", PBool true); ("ts", PStr "1e999")]).
  - reflexivity.
  - split; [cbn; lia|]. split; reflexivity.
Defined.

(** ** The order of a history *)

Ltac compare_cases :=
  repeat match goal with
         | |- context [Z.compare ?a ?b] => destruct (Z.compare_spec a b)
         | H : context [Z.compare ?a ?b] |- _ => destruct (Z.compare_spec a b)
         | |- context [Pos.compare ?a ?b] => destruct (Pos.compare_spec a b)
         | H : context [Pos.compare ?a ?b] |- _ => destruct (Pos.compare_spec a b)
         end.

Lemma SFltb_asym (a b : spec_float) : SFltb a b = true -> SFltb b a = false.
Proof.
  unfold SFltb, SFcompare.
  destruct a as [sa|sa| |sa ma ea], b as [sb|sb| |sb mb eb];
    try destruct sa; try destruct sb; try (intros; reflexivity); try discriminate;
    change (Pos.compare_cont Eq) with Pos.compare;
    intros H; compare_cases; cbn in *; try reflexivity; try discriminate; try lia.
Qed.

(** Below is negatively transitive through a key that is a number. *)
Lemma SFltb_neg_trans (a b c : spec_float) :
  is_nan b = false -> SFltb b a = false -> SFltb c b = false -> SFltb c a = false.
Proof.
  unfold SFltb, SFcompare, is_nan.
  destruct a as [sa|sa| |sa ma ea], b as [sb|sb| |sb mb eb], c as [sc|sc| |sc mc ec];
    try destruct sa; try destruct sb; try destruct sc;
    try (intros; reflexivity); try discriminate;
    change (Pos.compare_cont Eq) with Pos.compare;
    intros _ H1 H2; compare_cases; cbn in *; try reflexivity; try discriminate; try lia.
Qed.

Section InsertionSort.

Context {A : Type}.

Local Abbreviation keyed := (list (spec_float * A)).
Local Abbreviation le := (fun p q : spec_float * A => SFltb (fst q) (fst p) = false).
Local Abbreviation numbers := (Forall (fun p : spec_float * A => is_nan (fst p) = false)).

Lemma insert_by_key_perm (x : spec_float * A) (l : keyed) :
  Permutation (x :: l) (insert_by_key x l).
Proof.
  induction l as [|y l IH]; cbn [insert_by_key]; [reflexivity|].
  destruct (SFltb (fst x) (fst y)); [reflexivity|].
  rewrite perm_swap. now constructor.
Qed.

Lemma insert_by_key_sorted (x : spec_float * A) (l : keyed) :
  numbers (x :: l) -> StronglySorted le l -> StronglySorted le (insert_by_key x l).
Proof.
  intros Hn Hs. induction Hs as [|y l Hs IH Hy]; cbn [insert_by_key].
  - repeat constructor.
  - inversion Hn as [|? ? Hx Hn']; subst. inversion Hn' as [|? ? Hyn Hln]; subst.
    destruct (SFltb (fst x) (fst y)) eqn:E.
    + constructor; [now constructor|].
      constructor; [now apply SFltb_asym|].
      rewrite Forall_forall in *. intros z Hz.
      apply (SFltb_neg_trans _ (fst y)); [exact Hyn | now apply SFltb_asym | now apply Hy].
    + constructor; [apply IH; now constructor|].
      rewrite Forall_forall in *. intros z Hz.
      apply (Permutation_in _ (Permutation_sym (insert_by_key_perm x l))) in Hz.
      destruct Hz as [<-|Hz]; [exact E | now apply Hy].
Qed.

(** An element goes behind the elements of its own key. *)
Lemma insert_by_key_stable (k : spec_float) (x : spec_float * A) (l : keyed) :
  is_nan k = false -> numbers (x :: l) -> StronglySorted le l ->
  filter (fun p => same_key k (fst p)) (insert_by_key x l)
  = (filter (fun p => same_key k (fst p)) l
     ++ filter (fun p => same_key k (fst p)) [x])%list.
Proof.
  intros Hk Hn Hs. induction Hs as [|y l Hs IH Hy]; [reflexivity|].
  inversion Hn as [|? ? Hx Hn']; subst. inversion Hn' as [|? ? Hyn Hln]; subst.
  cbn [insert_by_key]. destruct (SFltb (fst x) (fst y)) eqn:E.
  - cbn [filter]. destruct (same_key k (fst x)) eqn:Ex; [|now rewrite app_nil_r].
    (* every element of [y :: l] is above [x], so none has the key [k] *)
    assert (forall z, In z (y :: l) -> same_key k (fst z) = false) as Habove.
    { intros z Hz. unfold same_key in *.
      apply andb_true_iff in Ex. destruct Ex as [Ekx Exk].
      apply negb_true_iff in Ekx, Exk.
      assert (SFltb (fst x) (fst z) = true) as Hxz.
      { destruct Hz as [<-|Hz]; [exact E|].
        destruct (SFltb (fst x) (fst z)) eqn:Exz; [reflexivity|].
        rewrite Forall_forall in Hy, Hln.
        rewrite (SFltb_neg_trans (fst y) (fst z) (fst x) (Hln z Hz) (Hy z Hz) Exz) in E.
        discriminate. }
      destruct (SFltb k (fst z)) eqn:Ekz; [reflexivity|]. cbn [negb andb].
      rewrite (SFltb_neg_trans (fst z) k (fst x) Hk Ekz Exk) in Hxz. discriminate. }
    assert (filter (fun p => same_key k (fst p)) (y :: l) = []) as Hnone.
    { generalize (y :: l) Habove. clear. induction l as [|z l IH]; intros H; [reflexivity|].
      cbn [filter]. rewrite (H z (or_introl eq_refl)). apply IH.
      intros z' Hz'. apply H. now right. }
    cbn [filter] in Hnone. rewrite Hnone. reflexivity.
  - cbn [filter]. rewrite IH by now constructor.
    destruct (same_key k (fst y)); reflexivity.
Qed.

Lemma isort_spec (k : spec_float) (l acc : keyed) :
  is_nan k = false -> numbers (acc ++ l) -> StronglySorted le acc ->
  let sorted := fold_left (fun sorted x => insert_by_key x sorted) l acc in
  Permutation (acc ++ l) sorted /\
  StronglySorted le sorted /\
  filter (fun p => same_key k (fst p)) sorted
  = filter (fun p => same_key k (fst p)) (acc ++ l).
Proof.
  intros Hk. revert acc. induction l as [|x l IH]; intros acc Hn Hs; cbn [fold_left].
  - rewrite app_nil_r. repeat split; [reflexivity | exact Hs].
  - assert (numbers (x :: acc)) as Hxa.
    { rewrite Forall_forall in *. intros z [<-|Hz]; apply Hn, in_or_app;
        [right; now left | now left]. }
    assert (Permutation (acc ++ x :: l) (insert_by_key x acc ++ l)) as Hp.
    { rewrite <- insert_by_key_perm. now rewrite <- Permutation_middle. }
    destruct (IH (insert_by_key x acc)) as (P & S & F).
    + eapply Permutation_Forall; [exact Hp | exact Hn].
    + now apply insert_by_key_sorted.
    + repeat split; [now rewrite Hp | exact S |].
      cbv zeta in F. rewrite F, !filter_app, insert_by_key_stable by assumption.
      rewrite <- app_assoc. f_equal. cbn [filter]. now destruct (same_key k (fst x)).
Qed.

End InsertionSort.

Section HistoryOrder.

Context (rt : Runtime).

Local Abbreviation key_of :=
  (fun p : spec_float * SlackMessage => py_float rt (msg_timestamp (snd p)) = Return (fst p)).

Lemma keys_loop (messages : list SlackMessage) :
  forall keyed log log',
    for_each (fun x => k <- lift (py_float rt (msg_timestamp x)) ;; ret (k, x))
      messages log = (Return keyed, log') ->
    log' = log /\ map snd keyed = messages /\ Forall key_of keyed.
Proof.
  induction messages as [|m messages IH]; intros keyed log log' H.
  - inversion H. repeat split. constructor.
  - cbn [for_each] in H. unfold bind at 1 in H. unfold bind at 1 in H.
    unfold lift at 1 in H.
    destruct (py_float rt (msg_timestamp m)) as [k|e] eqn:Ek; [|discriminate].
    unfold ret at 1 in H. unfold bind in H.
    destruct (for_each _ messages log) as [[ks|e] l] eqn:Eloop; [|discriminate].
    destruct (IH _ _ _ Eloop) as (-> & Hm & Hk).
    inversion H; subst keyed log'. split; [reflexivity|]. split.
    + cbn [map snd]. now rewrite Hm.
    + now constructor.
Qed.

Lemma sorted_messages (l : list (spec_float * SlackMessage)) :
  Forall key_of l ->
  StronglySorted (fun p q => SFltb (fst q) (fst p) = false) l ->
  StronglySorted (not_after rt) (map snd l).
Proof.
  intros Hk Hs. induction Hs as [|p l Hs IH Hp]; cbn [map]; [constructor|].
  inversion Hk as [|? ? Hkp Hkl]; subst.
  constructor; [now apply IH|].
  rewrite Forall_forall in *. intros m Hm.
  apply in_map_iff in Hm. destruct Hm as (q & <- & Hq).
  exists (fst p), (fst q). repeat split; [exact Hkp | now apply Hkl | now apply Hp].
Qed.

Lemma filter_keyed (k : spec_float) (l : list (spec_float * SlackMessage)) :
  Forall key_of l ->
  filter (at_key rt k) (map snd l) = map snd (filter (fun p => same_key k (fst p)) l).
Proof.
  induction 1 as [|p l Hp _ IH]; [reflexivity|].
  cbn [map filter]. unfold at_key at 1. rewrite Hp, IH.
  now destruct (same_key k (fst p)).
Qed.

(** X9.  When the sort of [get_slack_channel_history] returns and no
    timestamp reads as a NaN, the result holds the same messages, ascending
    by [float(timestamp)] (oldest first), and messages of one key keep the
    order in which they came. *)
Theorem history_is_sorted_oldest_first
    (messages sorted : list SlackMessage) (log log' : Log) :
  sort_by_timestamp rt messages log = (Return sorted, log') ->
  (forall m, In m messages -> py_float rt (msg_timestamp m) <> Return S754_nan) ->
  Permutation messages sorted /\
  StronglySorted (not_after rt) sorted /\
  forall k, is_nan k = false ->
            filter (at_key rt k) sorted = filter (at_key rt k) messages.
Proof.
  intros H Hnan. unfold sort_by_timestamp in H. unfold bind at 1 in H.
  destruct (for_each _ messages log) as [[keyed|e] l] eqn:Eloop; [|discriminate].
  destruct (keys_loop _ _ _ _ Eloop) as (-> & Hm & Hk).
  assert (Forall (fun p : spec_float * SlackMessage => is_nan (fst p) = false) keyed) as Hn.
  { rewrite Forall_forall in *. intros p Hp.
    assert (In (snd p) messages) as Hin by (rewrite <- Hm; now apply in_map).
    specialize (Hnan _ Hin). rewrite (Hk p Hp) in Hnan.
    destruct (fst p); try reflexivity. now destruct Hnan. }
  assert (existsb (fun p : spec_float * SlackMessage => is_nan (fst p)) keyed = false) as Hex.
  { clear - Hn. induction Hn as [|p l Hp _ IH]; [reflexivity|].
    cbn [existsb]. now rewrite Hp, IH. }
  rewrite Hex in H. inversion H; subst sorted log'. clear H.
  assert (forall k, is_nan k = false ->
            let sk := fold_left (fun sorted x => insert_by_key x sorted) keyed [] in
            Permutation keyed sk /\
            StronglySorted (fun p q => SFltb (fst q) (fst p) = false) sk /\
            filter (fun p => same_key k (fst p)) sk
            = filter (fun p => same_key k (fst p)) keyed) as Hspec.
  { intros k Hkn. apply (isort_spec k keyed [] Hkn); [exact Hn | constructor]. }
  destruct (Hspec (S754_zero false) eq_refl) as (P & S & _).
  assert (Forall key_of (fold_left (fun sorted x => insert_by_key x sorted) keyed [])) as Hk'
    by (eapply Permutation_Forall; eassumption).
  repeat split.
  - rewrite <- Hm. now apply Permutation_map.
  - now apply sorted_messages.
  - intros k Hkn. destruct (Hspec k Hkn) as (_ & _ & F).
    rewrite <- Hm, !filter_keyed by assumption. cbv zeta in F. now rewrite F.
Qed.

End HistoryOrder.

Lemma history_is_sorted_oldest_first_witness :
  Permutation newest_first (rev newest_first) /\
  StronglySorted (not_after (stub_runtime server_ok [])) (rev newest_first).
Proof.
  destruct (history_is_sorted_oldest_first (stub_runtime server_ok [])
              newest_first (rev newest_first) [] []) as (P & S & _).
  - reflexivity.
  - intros m [<-|[<-|[<-|[]]]]; discriminate.
  - now split.
Defined.

(** ** A history of objects *)

Lemma history_loop_dicts (channel_id : string) (entries : list dict) (log : Log) :
  for_each_opt (history_message_of_data channel_id) (map PDict entries) log
  = (Return (map (message_of_entry channel_id)
               (filter (fun d => negb (subtype_is_skipped (PDict d))) entries)), log).
Proof.
  induction entries as [|d entries IH]; [reflexivity|].
  cbn [map for_each_opt filter]. unfold bind at 1.
  rewrite history_message_of_data_eq. unfold subtype_is_skipped at 1. cbn [py_get].
  unfold bind at 1. rewrite IH. unfold ret.
  now destruct (in_strs (dict_get_default d "subtype" PNone) skipped_subtypes).
Qed.

(** X10.  For an accepted payload whose [messages] are objects,
    [get_channel_history] returns, after its one request, exactly the
    messages of the entries whose [subtype] is not skipped, in order, each
    with the [text], [user], [ts] and [thread_ts] of its entry (the empty
    string, or [None] for [thread_ts], when the field is missing) and the
    channel asked for.  A payload with no [messages] gives the empty list. *)
Theorem history_of_objects
    (rt : Runtime) (self : SlackAPIClient) (channel_id : string) (limit : Z) (log : Log)
    (r : Response) (payload : dict) (entries : list dict) :
  (forall req, remote rt log req = Return r) ->
  accepted_response r payload ->
  dict_get_default payload "messages" (PList []) = PList (map PDict entries) ->
  get_channel_history rt self channel_id limit PNone PNone log
  = (Return (map (message_of_entry channel_id)
               (filter (fun d => negb (subtype_is_skipped (PDict d))) entries)),
     (log ++ [HttpGet "https://slack.com/api/conversations.history" (headers self)
                (Some [("channel", PStr channel_id); ("limit", PInt (Z.min limit 100))])
                30])%list).
Proof.
  intros Ha Hr Hm. unfold get_channel_history, try_except, bind. cbn [truthy].
  rewrite (make_request_accepted _ _ _ _ _ _ _ r payload (Ha _) Hr).
  rewrite Hm. cbn [lift py_iter]. now rewrite history_loop_dicts.
Qed.

Lemma history_of_objects_witness :
  fst (get_channel_history (stub_runtime server_history []) stub_client "C1" 10 PNone PNone [])
  = Return [ mkSlackMessage (PStr "hello") (PStr "U1") (PStr "1690000002.000300") "C1"
               PNone PNone;
             mkSlackMessage (PStr "hi") (PStr "U2") (PStr "1690000000.000100") "C1" PNone
               (PStr "1690000000.000100") ].
Proof.
  rewrite (history_of_objects (stub_runtime server_history []) stub_client "C1" 10 []
             (ok_response (PDict [("ok", PBool true); ("messages", PList mixed_history)]))
             [("ok", PBool true); ("messages", PList mixed_history)]
             [ [("type", PStr "message"); ("user", PStr "U1"); ("text", PStr "hello");
                ("ts", PStr "1690000002.000300")];
               [("type", PStr "message"); ("subtype", PStr "bot_message");
                ("text", PStr "build passed"); ("ts", PStr "1690000001.000200")];
               [("type", PStr "message"); ("subtype", PStr "channel_join");
                ("user", PStr "U2"); ("text", PStr "<@U2> has joined the channel");
                ("ts", PStr "1690000001.000200")];
               [("type", PStr "message"); ("user", PStr "U2"); ("text", PStr "hi");
                ("ts", PStr "1690000000.000100");
                ("thread_ts", PStr "1690000000.000100")];
               [("type", PStr "message"); ("subtype", PStr "channel_leave");
                ("user", PStr "U1"); ("text", PStr "<@U1> has left the channel");
                ("ts", PStr "1690000000.000100")] ]).
  - reflexivity.
  - reflexivity.
  - split; [cbn; lia|]. split; reflexivity.
  - reflexivity.
Defined.

Lemma keys_loop_raises (rt : Runtime) (before after : list SlackMessage) (m : SlackMessage)
    (e : exn) (log : Log) :
  Forall (fun x => exists k, py_float rt (msg_timestamp x) = Return k) before ->
  py_float rt (msg_timestamp m) = Raise e ->
  for_each (fun x => k <- lift (py_float rt (msg_timestamp x)) ;; ret (k, x))
    (before ++ m :: after) log = (Raise e, log).
Proof.
  intros Hb Hm. induction Hb as [|x before [k Hx] _ IH]; cbn [app for_each].
  - unfold bind at 1. unfold bind at 1. unfold lift at 1. now rewrite Hm.
  - unfold bind at 1. unfold bind at 1. unfold lift at 1. rewrite Hx.
    unfold ret at 1. unfold bind at 1. now rewrite IH.
Qed.

(** X11.  [get_slack_channel_history] on an accepted payload whose
    [messages] are objects.  When no entry is left after the skipped
    subtypes (or the payload has no [messages]), the tool returns its
    no-messages text.  When an entry is left whose [ts] [float] cannot read
    (a missing [ts] among them), and [float] reads those before it, the tool
    returns the generic failure string with the message of that exception:
    one such entry hides the history the client returned. *)
Theorem history_tool_edges
    (rt : Runtime) (slack_client : SlackAPIClient) (channel_id : string) (limit : Z)
    (log : Log) (r : Response) (payload : dict) (entries : list dict) :
  (forall req, remote rt log req = Return r) ->
  accepted_response r payload ->
  dict_get_default payload "messages" (PList []) = PList (map PDict entries) ->
  let kept :=
    map (message_of_entry channel_id)
      (filter (fun d => negb (subtype_is_skipped (PDict d))) entries) in
  (kept = [] ->
   fst (get_slack_channel_history rt slack_client channel_id limit log)
   = Return ("채널 " ++ channel_id ++ "에 메시지가 없습니다.")) /\
  (forall before m after c msg,
     kept = (before ++ m :: after)%list ->
     Forall (fun x => exists k, py_float rt (msg_timestamp x) = Return k) before ->
     py_float rt (msg_timestamp m) = Raise (PyExc c msg) ->
     fst (get_slack_channel_history rt slack_client channel_id limit log)
     = Return ("❌ 예상치 못한 오류 발생: " ++ msg)).
Proof.
  intros Ha Hr Hm kept.
  assert (fst (get_slack_channel_history rt slack_client channel_id limit log)
          = fst (try_except
                   (match kept with
                    | [] => ret ("채널 " ++ channel_id ++ "에 메시지가 없습니다.")
                    | _ =>
                        messages <- sort_by_timestamp rt kept ;;
                        formatted <- format_message_list rt messages ;;
                        ret ("📜 채널 " ++ channel_id ++ "의 최근 " ++ str_len messages
                             ++ "개 메시지:" ++ nl ++ nl ++ formatted)
                    end)
                   [ except_SlackAPIError (fun error _ =>
                       ret ("❌ 채널 히스토리 조회 실패: " ++ py_str rt error ++ nl
                            ++ "채널 ID: " ++ channel_id));
                     unexpected rt ]
                   (log ++ [HttpGet "https://slack.com/api/conversations.history"
                              (headers slack_client)
                              (Some [("channel", PStr channel_id);
                                     ("limit",
                                      PInt (Z.min (Z.max 1 (Z.min limit 100)) 100))])
                              30])%list)) as ->.
  { unfold get_slack_channel_history, try_except, get_slack_channel_history_try.
    unfold bind at 1.
    now rewrite (history_of_objects rt slack_client channel_id _ log r payload entries
                   Ha Hr Hm). }
  rewrite tool_skeleton. split.
  - intros ->. reflexivity.
  - intros before m after c msg Hk Hb Hf. rewrite Hk.
    destruct (before ++ m :: after)%list as [|x l] eqn:Hxl; [now destruct before|].
    rewrite <- Hxl. unfold bind at 1. unfold sort_by_timestamp. unfold bind at 1.
    now rewrite (keys_loop_raises rt before after m _ _ Hb Hf).
Qed.

Lemma history_tool_edges_witness :
  fst (get_slack_channel_history
         (stub_runtime (server_messages [[("user", PStr "U1"); ("text", PStr "no ts")]]) [])
         stub_client "C1" 10 [])
  = Return "❌ 예상치 못한 오류 발생: could not convert string to float: ''".
Proof.
  refine (proj2
            (history_tool_edges
               (stub_runtime (server_messages [[("user", PStr "U1"); ("text", PStr "no ts")]])
                  [])
               stub_client "C1" 10 []
               (ok_response
                  (PDict [("ok", PBool true);
                          ("messages",
                           PList (map PDict [[("user", PStr "U1"); ("text", PStr "no ts")]]))]))
               [("ok", PBool true);
                ("messages", PList (map PDict [[("user", PStr "U1"); ("text", PStr "no ts")]]))]
               [[("user", PStr "U1"); ("text", PStr "no ts")]]
               (fun _ => eq_refl) _ eq_refl)
            [] (mkSlackMessage (PStr "no ts") (PStr "U1") (PStr "") "C1" PNone PNone) []
            ValueError "could not convert string to float: ''" eq_refl _ eq_refl).
  - split; [cbn; lia|]. split; reflexivity.
  - constructor.
Defined.

(** ** A thread without replies *)

Lemma string_app_assoc (a b c : string) : (a ++ b) ++ c = a ++ (b ++ c).
Proof. induction a as [|x a IH]; [reflexivity|]. cbn. now rewrite IH. Qed.

(** X12.  [get_slack_thread_replies] on an accepted answer, with a thread
    timestamp that [format_timestamp] renders as [t].  An answer with no
    messages gives the text that names the channel and the thread.  An
    answer that holds the parent alone gives the header with the count 0 and
    the no-replies line: the parent is not counted and not shown. *)
Theorem thread_without_replies
    (rt : Runtime) (slack_client : SlackAPIClient) (channel thread_ts : string)
    (log : Log) (r : Response) (payload : dict) (t : pyval) :
  (forall req, remote rt log req = Return r) ->
  accepted_response r payload ->
  format_timestamp_outcome rt (PStr thread_ts) = Return t ->
  (dict_get_default payload "messages" (PList []) = PList [] ->
   fst (get_slack_thread_replies rt slack_client channel thread_ts log)
   = Return ("스레드에 답글이 없습니다." ++ nl ++ "채널: " ++ channel ++ nl
             ++ "스레드: " ++ py_str rt t)) /\
  (forall parent,
     dict_get_default payload "messages" (PList []) = PList [PDict parent] ->
     fst (get_slack_thread_replies rt slack_client channel thread_ts log)
     = Return ("🧵 스레드 답글 (0개):" ++ nl
               ++ "원본 메시지 시간: " ++ py_str rt t ++ nl ++ nl ++ "답글이 없습니다.")).
Proof.
  intros Ha Hr Ht. split; [intros Hm | intros parent Hm];
    unfold get_slack_thread_replies; rewrite tool_skeleton;
    unfold get_slack_thread_replies_try, get_thread_replies, bind;
    rewrite (make_request_accepted _ _ _ _ _ _ _ r payload (Ha _) Hr);
    rewrite Hm; cbn [lift py_iter].
  - change (@nil pyval) with (map PDict []). rewrite thread_loop. cbn [map].
    unfold bind. rewrite format_timestamp_eq, Ht. reflexivity.
  - change [PDict parent] with (map PDict [parent]). rewrite thread_loop.
    cbn [map]. rewrite replies_only_cons. unfold render_thread_replies, bind.
    rewrite format_timestamp_eq, Ht. cbn [fst ret]. now rewrite !string_app_assoc.
Qed.

Lemma thread_without_replies_witness :
  fst (get_slack_thread_replies
         (stub_runtime (server_messages [thread_parent]) []) stub_client
         "C1" "1690000000.000100" [])
  = Return ("🧵 스레드 답글 (0개):" ++ nl
            ++ "원본 메시지 시간: 2023-07-22 04:26:40" ++ nl ++ nl ++ "답글이 없습니다.").
Proof.
  refine (proj2
            (thread_without_replies
               (stub_runtime (server_messages [thread_parent]) []) stub_client
               "C1" "1690000000.000100" []
               (ok_response
                  (PDict [("ok", PBool true);
                          ("messages", PList (map PDict [thread_parent]))]))
               [("ok", PBool true); ("messages", PList (map PDict [thread_parent]))]
               (PStr "2023-07-22 04:26:40") (fun _ => eq_refl) _ eq_refl)
            thread_parent eq_refl).
  split; [cbn; lia|]. split; reflexivity.
Defined.

(** ** Where an upload goes *)

Section UploadRun.

Context (rt : Runtime) (self : SlackAPIClient).
Context (channels : pyval) (file_path : string) (title initial_comment : pyval).
Context (log log0 : Log) (resolved channel_id : pyval) (file_size : Z) (content : string).
Context (r1 r2 : Response) (payload : dict) (upload_url file_id : pyval).

Local Abbreviation req1 := (upload_url_request self file_path file_size).
Local Abbreviation req2 := (transfer_request upload_url file_path content).
Local Abbreviation req3 :=
  (completion_request self file_id title file_path channel_id initial_comment).

Hypothesis file_exists : path_exists rt file_path = true.
Hypothesis resolution : channel_resolution rt self channels log = (Return resolved, log0).
Hypothesis target : first_channel resolved = Return channel_id.
Hypothesis size_known : path_getsize rt file_path = Return file_size.
Hypothesis step1 : remote rt log0 req1 = Return r1.
Hypothesis step1_accepted : accepted_response r1 payload.
Hypothesis step1_url : dict_get payload "upload_url" = Some upload_url.
Hypothesis step1_id : dict_get payload "file_id" = Some file_id.
Hypothesis file_opens : open_rb rt file_path = Return content.
Hypothesis step2 : remote rt (log0 ++ [req1])%list req2 = Return r2.
Hypothesis transferred : status_code r2 = 200.

(** An upload whose every step before the last succeeds ends with the
    completing request, for the first channel of the resolved target. *)
Lemma upload_file_completes :
  snd (upload_file rt self channels file_path title initial_comment log)
  = (log0 ++ [req1; req2; req3])%list.
Proof.
  unfold upload_file. rewrite file_exists. cbn [negb].
  rewrite log_try_except_silent by (intro; silence).
  unfold bind at 1. unfold channel_resolution in resolution. rewrite resolution.
  unfold bind at 1. unfold lift at 1. rewrite size_known.
  unfold bind at 1.
  rewrite (make_request_accepted rt self "GET" "files.getUploadURLExternal" None
             (Some [("filename", PStr (basename file_path)); ("length", PInt file_size)])
             log0 r1 payload step1 step1_accepted).
  unfold bind at 1. unfold lift at 1. unfold py_getitem at 1. rewrite step1_url.
  unfold bind at 1. unfold lift at 1. unfold py_getitem at 1. rewrite step1_id.
  unfold bind at 1. unfold lift at 1. rewrite file_opens.
  unfold bind at 1. unfold http at 1.
  change (request_of self "GET" "files.getUploadURLExternal" None
            (Some [("filename", PStr (basename file_path)); ("length", PInt file_size)]))
    with req1.
  change (HttpPostFiles upload_url "file" (basename file_path) content
            "application/octet-stream") with req2.
  rewrite step2, transferred. cbn [Z.eqb Pos.eqb negb].
  unfold bind at 1. unfold ret at 1.
  unfold bind at 1.
  assert ((match resolved with
           | PStr _ => ret resolved
           | _ => lift (py_getitem0 resolved)
           end) ((log0 ++ [req1]) ++ [req2])%list
          = (Return channel_id, ((log0 ++ [req1]) ++ [req2])%list)) as ->.
  { unfold first_channel in target. destruct resolved; unfold ret, lift; now rewrite ?target;
      try (inversion target; subst). }
  rewrite log_make_request. now rewrite <- !app_assoc.
Qed.

End UploadRun.

Lemma split_char_not_empty (c : ascii) (s : string) :
  split_char c s = hd EmptyString (split_char c s) :: tl (split_char c s).
Proof.
  induction s as [|a s IH]; cbn [split_char]; [reflexivity|].
  destruct (Ascii.eqb a c); [reflexivity|]. rewrite IH. reflexivity.
Qed.

(** [strip()] removes the Unicode spaces at both ends (here U+3000, a blank
    and U+00A0), and nothing inside. *)
Example strip_removes_unicode_spaces :
  py_strip (String "227" (String "128" (String "128" " my channel"))
            ++ String "194" (String "160" " "))
  = "my channel".
Proof. reflexivity. Qed.

(** X13.  An upload through the tool whose [channels] is not a single
    [U...] string goes to the client as the list of its comma-separated
    parts, so no channel is ever looked up by name, and when every step
    succeeds the upload is completed for the first part alone, stripped of
    white space: the log grows by the three requests of the upload, and the
    other channels of the list receive nothing. *)
Theorem upload_goes_to_first_channel
    (rt : Runtime) (slack_client : SlackAPIClient) (channels file_path : string)
    (title initial_comment : option string) (log : Log) (file_size : Z) (content : string)
    (r1 r2 : Response) (payload : dict) (upload_url file_id : pyval) :
  (startswith channels "U" && negb (has_char "," channels))%bool = false ->
  path_exists rt file_path = true ->
  path_getsize rt file_path = Return file_size ->
  remote rt log (upload_url_request slack_client file_path file_size) = Return r1 ->
  accepted_response r1 payload ->
  dict_get payload "upload_url" = Some upload_url ->
  dict_get payload "file_id" = Some file_id ->
  open_rb rt file_path = Return content ->
  remote rt (log ++ [upload_url_request slack_client file_path file_size])%list
    (transfer_request upload_url file_path content) = Return r2 ->
  status_code r2 = 200 ->
  snd (upload_slack_file rt slack_client channels file_path title initial_comment log)
  = (log ++ [ upload_url_request slack_client file_path file_size;
              transfer_request upload_url file_path content;
              completion_request slack_client file_id (opt_str title) file_path
                (PStr (py_strip (hd EmptyString (split_char "," channels))))
                (opt_str initial_comment) ])%list.
Proof.
  intros Hlist Hexists Hsize H1 Ha Hurl Hid Hopen H2 Hs.
  unfold upload_slack_file. rewrite log_tool.
  unfold upload_slack_file_try. rewrite Hexists. cbn [negb].
  rewrite log_bind_silent by (intro; silence).
  apply (upload_file_completes rt slack_client (channel_param channels) file_path
           (opt_str title) (opt_str initial_comment) log log (channel_param channels)
           _ file_size content r1 r2 payload upload_url file_id); try assumption.
  - unfold channel_param. now rewrite Hlist.
  - unfold channel_param. rewrite Hlist, split_char_not_empty. reflexivity.
Qed.

Lemma upload_goes_to_first_channel_witness :
  snd (upload_slack_file (stub_runtime (server_upload 200) stub_files) stub_client
         padded_channels "/tmp/report.pdf" None None [])
  = [ HttpGet "https://slack.com/api/files.getUploadURLExternal" (headers stub_client)
        (Some [("filename", PStr "report.pdf"); ("length", PInt 4)]) 30;
      HttpPostFiles (PStr "https://files.slack.com/upload/v1/abc") "file" "report.pdf"
        "%PDF" "application/octet-stream";
      HttpPostJson "https://slack.com/api/files.completeUploadExternal" (headers stub_client)
        (Some [("files", PList [PDict [("id", PStr "F0123"); ("title", PStr "report.pdf")]]);
               ("channel_id", PStr "C0123456789")]) 30 ].
Proof.
  apply (upload_goes_to_first_channel (stub_runtime (server_upload 200) stub_files)
           stub_client padded_channels "/tmp/report.pdf" None None [] 4 "%PDF"
           (ok_response
              (PDict [("ok", PBool true);
                      ("upload_url", PStr "https://files.slack.com/upload/v1/abc");
                      ("file_id", PStr "F0123")]))
           {| status_code := 200; reason := "";
              resp_url := "https://files.slack.com/upload/v1/abc";
              json := Raise (PyExc JSONDecodeError
                               "Expecting value: line 1 column 1 (char 0)") |}
           [("ok", PBool true);
            ("upload_url", PStr "https://files.slack.com/upload/v1/abc");
            ("file_id", PStr "F0123")]
           (PStr "https://files.slack.com/upload/v1/abc") (PStr "F0123"));
    try reflexivity.
  split; [cbn; lia|]. split; reflexivity.
Defined.

(** X14.  [upload_file] with a [str] that does not start with [C]: when
    the listing returns a channel of that name whose [id] is truthy, the
    upload runs after the listing request and, when every step succeeds, is
    completed for the [id] the lookup gives (that of the first channel of
    the name, [lookup_channel_id_first_match]). *)
Theorem upload_by_channel_name
    (rt : Runtime) (self : SlackAPIClient) (name file_path : string)
    (title initial_comment : pyval) (log log0 : Log) (channel_list : list SlackChannel)
    (file_size : Z) (content : string)
    (r1 r2 : Response) (payload : dict) (upload_url file_id : pyval) :
  startswith name "C" = false ->
  get_channels rt self true log = (Return channel_list, log0) ->
  truthy (lookup_channel_id channel_list name) = true ->
  (exists s, lookup_channel_id channel_list name = PStr s) ->
  path_exists rt file_path = true ->
  path_getsize rt file_path = Return file_size ->
  remote rt log0 (upload_url_request self file_path file_size) = Return r1 ->
  accepted_response r1 payload ->
  dict_get payload "upload_url" = Some upload_url ->
  dict_get payload "file_id" = Some file_id ->
  open_rb rt file_path = Return content ->
  remote rt (log0 ++ [upload_url_request self file_path file_size])%list
    (transfer_request upload_url file_path content) = Return r2 ->
  status_code r2 = 200 ->
  snd (upload_file rt self (PStr name) file_path title initial_comment log)
  = (log0 ++ [ upload_url_request self file_path file_size;
               transfer_request upload_url file_path content;
               completion_request self file_id title file_path
                 (lookup_channel_id channel_list name) initial_comment ])%list.
Proof.
  intros HC Hlist Hid [s Hs] Hexists Hsize H1 Ha Hurl Hfid Hopen H2 Hst.
  apply (upload_file_completes rt self (PStr name) file_path title initial_comment
           log log0 (lookup_channel_id channel_list name) _ file_size content
           r1 r2 payload upload_url file_id); try assumption.
  - unfold channel_resolution. rewrite HC. cbn [negb]. unfold bind.
    now rewrite Hlist, Hid.
  - now rewrite Hs.
Qed.

Lemma upload_by_channel_name_witness :
  snd (upload_file (stub_runtime (server_upload 200) stub_files) stub_client
         (PStr "general") "/tmp/report.pdf" PNone PNone [])
  = [ HttpGet "https://slack.com/api/conversations.list" (headers stub_client)
        (Some [("types", PStr "public_channel"); ("exclude_archived", PBool true);
               ("limit", PInt 1000)]) 30;
      HttpGet "https://slack.com/api/files.getUploadURLExternal" (headers stub_client)
        (Some [("filename", PStr "report.pdf"); ("length", PInt 4)]) 30;
      HttpPostFiles (PStr "https://files.slack.com/upload/v1/abc") "file" "report.pdf"
        "%PDF" "application/octet-stream";
      HttpPostJson "https://slack.com/api/files.completeUploadExternal" (headers stub_client)
        (Some [("files", PList [PDict [("id", PStr "F0123"); ("title", PStr "report.pdf")]]);
               ("channel_id", PStr "C0123456789")]) 30 ].
Proof.
  apply (upload_by_channel_name (stub_runtime (server_upload 200) stub_files)
           stub_client "general" "/tmp/report.pdf" PNone PNone []
           [HttpGet "https://slack.com/api/conversations.list" (headers stub_client)
              (Some [("types", PStr "public_channel"); ("exclude_archived", PBool true);
                     ("limit", PInt 1000)]) 30]
           [mkSlackChannel (PStr "C0123456789") (PStr "general") (PBool false)
              (PBool false) PNone PNone PNone]
           4 "%PDF"
           (ok_response
              (PDict [("ok", PBool true);
                      ("upload_url", PStr "https://files.slack.com/upload/v1/abc");
                      ("file_id", PStr "F0123")]))
           {| status_code := 200; reason := "";
              resp_url := "https://files.slack.com/upload/v1/abc";
              json := Raise (PyExc JSONDecodeError
                               "Expecting value: line 1 column 1 (char 0)") |}
           [("ok", PBool true);
            ("upload_url", PStr "https://files.slack.com/upload/v1/abc");
            ("file_id", PStr "F0123")]
           (PStr "https://files.slack.com/upload/v1/abc") (PStr "F0123"));
    try reflexivity.
  - now exists "C0123456789".
  - split; [cbn; lia|]. split; reflexivity.
Defined.

(** ** Direct messages through the tool *)

(** X15.  Once [send_direct_message] has returned and the timestamp of its
    answer renders as [t], [send_slack_direct_message] confirms the message
    whatever [get_user_info] does afterwards: with the real name and handle
    of the user when the lookup returns, with the bare [user_id] when it
    raises anything at all. *)
Theorem direct_message_confirmation
    (rt : Runtime) (slack_client : SlackAPIClient) (user_id text : string)
    (log log1 : Log) (result : dict) (t : pyval) :
  send_direct_message rt slack_client user_id text log = (Return result, log1) ->
  format_timestamp_outcome rt (dict_get_default result "ts" (PStr "")) = Return t ->
  let confirmation user_display :=
    "✅ 다이렉트 메시지가 성공적으로 전송되었습니다!" ++ nl
    ++ "수신자: " ++ user_display ++ nl
    ++ "메시지: " ++ text ++ nl
    ++ "타임스탬프: " ++ py_str rt t in
  match get_user_info rt slack_client user_id log1 with
  | (Return user_info, log2) =>
      send_slack_direct_message rt slack_client user_id text log
      = (Return (confirmation (py_str rt (u_real_name user_info) ++ " (@"
                               ++ py_str rt (u_name user_info) ++ ")")), log2)
  | (Raise _, log2) =>
      send_slack_direct_message rt slack_client user_id text log
      = (Return (confirmation user_id), log2)
  end.
Proof.
  intros Hdm Ht confirmation.
  destruct (get_user_info rt slack_client user_id log1) as [[user_info|e] log2] eqn:E;
    unfold send_slack_direct_message; rewrite tool_skeleton;
    unfold send_slack_direct_message_try; unfold bind at 1; rewrite Hdm;
    unfold bind at 1; unfold try_except at 1; unfold bind at 1; rewrite E;
    cbn [dispatch except_Exception ret]; unfold bind; rewrite format_timestamp_eq, Ht;
    reflexivity.
Qed.

Lemma direct_message_confirmation_witness :
  fst (send_slack_direct_message (stub_runtime server_dm []) stub_client "U0123" "hello" [])
  = Return ("✅ 다이렉트 메시지가 성공적으로 전송되었습니다!" ++ nl
            ++ "수신자: U0123" ++ nl ++ "메시지: hello" ++ nl
            ++ "타임스탬프: 2023-07-22 04:26:40").
Proof.
  pose proof (direct_message_confirmation (stub_runtime server_dm []) stub_client
                "U0123" "hello" []
                [ HttpPostJson "https://slack.com/api/conversations.open"
                    (headers stub_client) (Some [("users", PStr "U0123")]) 30;
                  HttpPostJson "https://slack.com/api/chat.postMessage"
                    (headers stub_client)
                    (Some [("channel", PStr "D0123"); ("text", PStr "hello");
                           ("unfurl_links", PBool true); ("unfurl_media", PBool true)]) 30 ]
                [("ok", PBool true); ("channel", PStr "D0123");
                 ("ts", PStr "1690000000.000100")]
                (PStr "2023-07-22 04:26:40") eq_refl eq_refl) as H.
  cbv zeta in H.
  destruct (get_user_info _ _ _ _) as [[user_info|e] log2] eqn:E in H.
  - vm_compute in E. discriminate E.
  - now rewrite H.
Defined.

(** ** The name of a reaction *)

Lemma rstrip_by_last (p : ascii -> bool) (s : string) : last_is p (rstrip_by p s) = false.
Proof.
  induction s as [|a s IH]; [reflexivity|]. cbn [rstrip_by].
  destruct (rstrip_by p s) as [|b r] eqn:E.
  - destruct (p a) eqn:Ea; [reflexivity|]. cbn. exact Ea.
  - exact IH.
Qed.

Lemma lstrip_by_first (p : ascii -> bool) (s : string) : first_is p (lstrip_by p s) = false.
Proof.
  induction s as [|a s IH]; [reflexivity|]. cbn [lstrip_by].
  destruct (p a) eqn:Ea; [exact IH|]. cbn. exact Ea.
Qed.

Lemma lstrip_by_last (p : ascii -> bool) (s : string) :
  last_is p s = false -> last_is p (lstrip_by p s) = false.
Proof.
  induction s as [|a s IH]; [reflexivity|]. intros H. cbn [lstrip_by].
  destruct (p a); [|exact H]. apply IH. destruct s; [reflexivity | exact H].
Qed.

(** X16.  Whatever tag [add_slack_reaction] is given, the name in its one
    request neither starts nor ends with a colon, and stripping it again
    changes nothing. *)
Theorem reaction_name_has_no_outer_colon
    (rt : Runtime) (slack_client : SlackAPIClient) (channel timestamp emoji : string)
    (log : Log) :
  exists name,
    snd (add_slack_reaction rt slack_client channel timestamp emoji log)
    = (log ++ [HttpPostJson "https://slack.com/api/reactions.add" (headers slack_client)
                 (Some [("channel", PStr channel); ("timestamp", PStr timestamp);
                        ("name", PStr name)]) 30])%list /\
    first_is is_colon name = false /\
    last_is is_colon name = false /\
    strip_by is_colon name = name.
Proof.
  exists (strip_by is_colon emoji).
  assert (first_is is_colon (strip_by is_colon emoji) = false) as Hf
    by apply lstrip_by_first.
  assert (last_is is_colon (strip_by is_colon emoji) = false) as Hl
    by apply lstrip_by_last, rstrip_by_last.
  repeat split; [|exact Hf | exact Hl | now apply strip_by_id].
  unfold add_slack_reaction. cbv zeta. rewrite log_tool.
  unfold add_slack_reaction_try. rewrite log_bind_silent by (intro; silence).
  unfold add_reaction. now rewrite log_make_request.
Qed.

(** ** What a rendered message list shows *)

Lemma prefix_app_l (sub s t : string) :
  String.prefix sub s = true -> String.prefix sub (s ++ t) = true.
Proof.
  revert sub. induction s as [|a s IH]; intros sub H.
  - destruct sub; [apply prefix_empty | discriminate].
  - destruct sub as [|b sub]; [reflexivity|]. cbn in *.
    destruct (ascii_dec b a); [now apply IH | discriminate].
Qed.

Lemma contains_app_l (s t sub : string) :
  contains s sub = true -> contains (s ++ t) sub = true.
Proof.
  induction s as [|a s IH]; intros H.
  - cbn [contains] in H. destruct sub; [|discriminate]. apply contains_prefix, prefix_empty.
  - cbn [contains] in H. destruct (String.prefix sub (String a s)) eqn:E.
    + apply contains_prefix. now apply prefix_app_l.
    + cbn [append contains]. rewrite (IH H).
      now destruct (String.prefix sub (String a (s ++ t))).
Qed.

Lemma contains_join (sep x : string) (l : list string) (sub : string) :
  In x l -> contains x sub = true -> contains (join sep l) sub = true.
Proof.
  intros Hin Hx. induction l as [|y l IH]; [destruct Hin|].
  cbn [join]. destruct l as [|z l].
  - destruct Hin as [->|[]]. exact Hx.
  - destruct Hin as [->|Hin].
    + now apply contains_app_l.
    + apply contains_app_r, contains_app_r. now apply IH.
Qed.

Lemma format_message_shows (rt : Runtime) (m : SlackMessage) (line : string)
    (log log' : Log) :
  format_message rt m log = (Return line, log') ->
  contains line ("→ 타임스탬프: " ++ py_str rt (msg_timestamp m)) = true /\
  contains line (py_str rt (msg_text m)) = true.
Proof.
  unfold format_message, bind. rewrite format_timestamp_eq.
  destruct (format_timestamp_outcome rt (msg_timestamp m)) as [t|e]; [|discriminate].
  unfold ret. intros H.
  assert (E := f_equal (fun r => match fst r with Return x => x | Raise _ => line end) H).
  cbv beta iota delta [fst] in E. rewrite <- E. clear H E. split.
  - find_substring.
  - apply contains_app_l.
    destruct (truthy (msg_thread_ts m)); [apply contains_app_l|]; find_substring.
Qed.

Lemma format_loop_shows (rt : Runtime) (messages : list SlackMessage) :
  forall lines log log',
    for_each (format_message rt) messages log = (Return lines, log') ->
    forall m, In m messages ->
      exists line, In line lines /\
        contains line ("→ 타임스탬프: " ++ py_str rt (msg_timestamp m)) = true /\
        contains line (py_str rt (msg_text m)) = true.
Proof.
  induction messages as [|x messages IH]; intros lines log log' H m Hm; [destruct Hm|].
  cbn [for_each] in H. unfold bind at 1 in H.
  destruct (format_message rt x log) as [[line|e] l] eqn:Ex; [|discriminate].
  unfold bind at 1 in H.
  destruct (for_each (format_message rt) messages l) as [[ls|e] l'] eqn:Eloop;
    [|discriminate].
  inversion H; subst. destruct Hm as [<-|Hm].
  - exists line. split; [now left | eapply format_message_shows, Ex].
  - destruct (IH _ _ _ Eloop m Hm) as (line' & Hin & Hc). exists line'. split; [now right|].
    exact Hc.
Qed.

(** X17.  When [format_message_list] returns, its string shows, for every
    message of the list, the text of the message and the line with the
    timestamp exactly as the message carries it (the value
    [add_slack_reaction] and the thread tools take). *)
Theorem message_list_shows_raw_timestamps
    (rt : Runtime) (messages : list SlackMessage) (out : string) (log log' : Log) :
  format_message_list rt messages log = (Return out, log') ->
  forall m, In m messages ->
    contains out ("→ 타임스탬프: " ++ py_str rt (msg_timestamp m)) = true /\
    contains out (py_str rt (msg_text m)) = true.
Proof.
  intros H m Hm. unfold format_message_list in H.
  destruct messages as [|x messages]; [destruct Hm|].
  unfold bind in H.
  destruct (for_each (format_message rt) (x :: messages) log) as [[lines|e] l] eqn:Eloop;
    [|discriminate].
  inversion H; subst.
  destruct (format_loop_shows rt _ _ _ _ Eloop m Hm) as (line & Hin & Ht & Hx).
  split; eapply contains_join; eassumption.
Qed.

Lemma message_list_shows_raw_timestamps_witness :
  forallb (fun m =>
             contains (match fst (format_message_list (stub_runtime server_ok [])
                                    newest_first []) with
                       | Return out => out
                       | Raise _ => EmptyString
                       end)
               ("→ 타임스탬프: " ++ py_str (stub_runtime server_ok []) (msg_timestamp m)))
    newest_first = true.
Proof.
  apply forallb_forall. intros m Hm.
  destruct (format_message_list (stub_runtime server_ok []) newest_first [])
    as [[out|e] l] eqn:E; [|vm_compute in E; discriminate E].
  apply (message_list_shows_raw_timestamps (stub_runtime server_ok []) newest_first
           out [] l E m Hm).
Defined.

(** ** The two sections of a listing lose no entry *)

Lemma list_case_nonempty {A B} (l : list A) (a b : B) :
  l <> [] -> match l with [] => a | _ :: _ => b end = b.
Proof. destruct l; [congruence | reflexivity]. Qed.

Lemma in_nonempty {A} (x : A) (l : list A) : In x l -> l <> [].
Proof. destruct l; [intros [] | discriminate]. Qed.

Lemma format_user_list_shows (rt : Runtime) (users : list SlackUser) (u : SlackUser) :
  In u users -> contains (format_user_list rt users) (format_user rt u) = true.
Proof.
  intros Hin. unfold format_user_list.
  rewrite (list_case_nonempty users _ _ (in_nonempty _ _ Hin)).
  eapply contains_join; [apply in_map, Hin | apply contains_refl].
Qed.

Lemma format_channel_list_shows (rt : Runtime) (channels : list SlackChannel)
    (ch : SlackChannel) :
  In ch channels -> contains (format_channel_list rt channels) (format_channel rt ch) = true.
Proof.
  intros Hin. unfold format_channel_list.
  rewrite (list_case_nonempty channels _ _ (in_nonempty _ _ Hin)).
  eapply contains_join; [apply in_map, Hin | apply contains_refl].
Qed.

(** Finds the part of a concatenation that [tac] shows to contain the text
    looked for *)
Ltac reach tac :=
  first [ solve [tac]
        | apply contains_app_l; solve [tac]
        | apply contains_app_r; reach tac ].

(** X18.  Every user [get_users] returns is shown by [get_slack_users]: the
    tool returns a string that contains the rendering of each user, whether
    the user falls in the section of people or in the section of bots. *)
Theorem user_listing_shows_every_user
    (rt : Runtime) (slack_client : SlackAPIClient) (limit : Z) (log log' : Log)
    (users : list SlackUser) (u : SlackUser) :
  get_users rt slack_client (Z.max 1 (Z.min limit 1000)) log = (Return users, log') ->
  In u users ->
  exists out,
    get_slack_users rt slack_client limit log = (Return out, log') /\
    contains out (format_user rt u) = true.
Proof.
  intros Hu Hin.
  unfold get_slack_users, try_except, get_slack_users_try. unfold bind at 1. rewrite Hu.
  rewrite (list_case_nonempty users _ _ (in_nonempty _ _ Hin)). unfold ret.
  eexists. split; [reflexivity|].
  destruct (truthy (u_is_bot u)) eqn:Eb.
  - assert (Hb : In u (filter (fun user => truthy (u_is_bot user)) users))
      by (apply filter_In; split; [exact Hin | exact Eb]).
    rewrite (list_case_nonempty (filter (fun user => truthy (u_is_bot user)) users) _ _
               (in_nonempty _ _ Hb)).
    reach ltac:(apply format_user_list_shows; exact Hb).
  - assert (Hr : In u (filter (fun user => negb (truthy (u_is_bot user))) users))
      by (apply filter_In; split; [exact Hin | now rewrite Eb]).
    rewrite (list_case_nonempty (filter (fun user => negb (truthy (u_is_bot user))) users)
               _ _ (in_nonempty _ _ Hr)).
    destruct (filter (fun user => truthy (u_is_bot user)) users);
      [|apply contains_app_l];
      reach ltac:(apply format_user_list_shows; exact Hr).
Qed.

Lemma user_listing_shows_every_user_witness :
  exists out,
    get_slack_users (stub_runtime server_members []) stub_client 50 []
    = (Return out,
       [HttpGet "https://slack.com/api/users.list" (headers stub_client)
          (Some [("limit", PInt 50)]) 30]) /\
    contains out
      (format_user (stub_runtime server_members [])
         (mkSlackUser (PStr "B1") (PStr "deploybot") (PStr "") PNone
            (PBool true) (PBool false) PNone)) = true.
Proof.
  apply (user_listing_shows_every_user (stub_runtime server_members []) stub_client 50 []
           [HttpGet "https://slack.com/api/users.list" (headers stub_client)
              (Some [("limit", PInt 50)]) 30]
           [ mkSlackUser (PStr "U1") (PStr "kim") (PStr "Kim") (PStr "kim@example.com")
               (PBool false) (PBool false) PNone;
             mkSlackUser (PStr "B1") (PStr "deploybot") (PStr "") PNone
               (PBool true) (PBool false) PNone ]).
  - reflexivity.
  - right. left. reflexivity.
Defined.

(** X19.  Every channel [get_channels] returns is shown by
    [get_slack_channels], in the public or in the private section. *)
Theorem channel_listing_shows_every_channel
    (rt : Runtime) (slack_client : SlackAPIClient) (log log' : Log)
    (channels : list SlackChannel) (ch : SlackChannel) :
  get_channels rt slack_client true log = (Return channels, log') ->
  In ch channels ->
  exists out,
    get_slack_channels rt slack_client log = (Return out, log') /\
    contains out (format_channel rt ch) = true.
Proof.
  intros Hc Hin.
  unfold get_slack_channels, try_except, get_slack_channels_try. unfold bind at 1.
  rewrite Hc.
  rewrite (list_case_nonempty channels _ _ (in_nonempty _ _ Hin)). unfold ret.
  eexists. split; [reflexivity|].
  destruct (truthy (ch_is_private ch)) eqn:Eb.
  - assert (Hb : In ch (filter (fun c => truthy (ch_is_private c)) channels))
      by (apply filter_In; split; [exact Hin | exact Eb]).
    rewrite (list_case_nonempty (filter (fun c => truthy (ch_is_private c)) channels) _ _
               (in_nonempty _ _ Hb)).
    reach ltac:(apply format_channel_list_shows; exact Hb).
  - assert (Hr : In ch (filter (fun c => negb (truthy (ch_is_private c))) channels))
      by (apply filter_In; split; [exact Hin | now rewrite Eb]).
    rewrite (list_case_nonempty (filter (fun c => negb (truthy (ch_is_private c))) channels)
               _ _ (in_nonempty _ _ Hr)).
    destruct (filter (fun c => truthy (ch_is_private c)) channels);
      [|apply contains_app_l];
      reach ltac:(apply format_channel_list_shows; exact Hr).
Qed.

Lemma channel_listing_shows_every_channel_witness :
  exists out,
    get_slack_channels (stub_runtime (server_channels two_channels) []) stub_client []
    = (Return out,
       [HttpGet "https://slack.com/api/conversations.list" (headers stub_client)
          (Some [("types", PStr "public_channel"); ("exclude_archived", PBool true);
                 ("limit", PInt 1000)]) 30]) /\
    contains out
      (format_channel (stub_runtime (server_channels two_channels) [])
         (mkSlackChannel (PStr "C2") (PStr "random") (PBool false) (PBool false)
            PNone PNone PNone)) = true.
Proof.
  apply (channel_listing_shows_every_channel
           (stub_runtime (server_channels two_channels) []) stub_client []
           [HttpGet "https://slack.com/api/conversations.list" (headers stub_client)
              (Some [("types", PStr "public_channel"); ("exclude_archived", PBool true);
                     ("limit", PInt 1000)]) 30]
           [ mkSlackChannel (PStr "C1") (PStr "general") (PBool false) (PBool true)
               (PStr "news") PNone (PInt 12);
             mkSlackChannel (PStr "C2") (PStr "random") (PBool false) (PBool false)
               PNone PNone PNone ]).
  - reflexivity.
  - right. left. reflexivity.
Defined.

(** ** The connectivity probe *)

Lemma exchange_returns_iff (o : outcome Response) (payload : dict) :
  outcome_of_exchange o = Return payload <->
  exists r, o = Return r /\ accepted_response r payload.
Proof.
  unfold outcome_of_exchange, accepted_response. split.
  - destruct o as [r|e]; [|discriminate].
    destruct ((400 <=? status_code r) && (status_code r <? 600))%Z eqn:Es; [discriminate|].
    destruct (json r) as [v|e] eqn:Ej; [|discriminate].
    destruct v; try discriminate.
    destruct (truthy (dict_get_default d "ok" (PBool false))) eqn:Eok; [|discriminate].
    intros [= <-]. exists r. split; [reflexivity|]. split; [lia|].
    split; [exact Ej | exact Eok].
  - intros (r & -> & Hs & Hj & Hok).
    assert (((400 <=? status_code r) && (status_code r <? 600))%Z = false) as -> by lia.
    now rewrite Hj, Hok.
Qed.

(** X20.  [test_slack_connection] sends one request, [GET auth.test] without
    parameters, and always returns a string.  The string is the success
    report exactly when the remote end answers with a response the client
    accepts; the report then shows [Unknown] for each of [team], [user],
    [team_id] and [user_id] that the answer lacks. *)
Theorem connection_probe_succeeds_iff
    (rt : Runtime) (slack_client : SlackAPIClient) (log : Log) :
  let probe := HttpGet "https://slack.com/api/auth.test" (headers slack_client) None 30 in
  exists out,
    test_slack_connection rt slack_client log = (Return out, (log ++ [probe])%list) /\
    (startswith out "✅ Slack API 연결 성공!" = true <->
     exists r payload,
       remote rt log probe = Return r /\ accepted_response r payload /\
       out = "✅ Slack API 연결 성공!" ++ nl
             ++ "팀: " ++ py_str rt (dict_get_default payload "team" (PStr "Unknown"))
             ++ " (ID: " ++ py_str rt (dict_get_default payload "team_id" (PStr "Unknown"))
             ++ ")" ++ nl
             ++ "봇 사용자: " ++ py_str rt (dict_get_default payload "user" (PStr "Unknown"))
             ++ " (ID: " ++ py_str rt (dict_get_default payload "user_id" (PStr "Unknown"))
             ++ ")" ++ nl
             ++ "연결 시간: " ++ now_strftime rt).
Proof.
  cbv zeta.
  unfold test_slack_connection, try_except, test_slack_connection_try, test_connection.
  unfold bind at 1. rewrite make_request_eq.
  change (request_of slack_client "GET" "auth.test" None None)
    with (HttpGet "https://slack.com/api/auth.test" (headers slack_client) None 30).
  destruct (outcome_of_exchange _) as [payload|e] eqn:Ex.
  - eexists. split; [reflexivity|]. split; [|reflexivity].
    intros _. apply exchange_returns_iff in Ex. destruct Ex as (r & Hr & Hacc).
    exists r, payload. split; [exact Hr|]. split; [exact Hacc | reflexivity].
  - assert (Hno : forall r payload,
               remote rt log (HttpGet "https://slack.com/api/auth.test"
                                (headers slack_client) None 30) = Return r ->
               accepted_response r payload -> False).
    { intros r payload Hr Hacc.
      assert (H : outcome_of_exchange
                    (remote rt log (HttpGet "https://slack.com/api/auth.test"
                                      (headers slack_client) None 30)) = Return payload)
        by (apply exchange_returns_iff; now exists r).
      rewrite Ex in H. discriminate H. }
    destruct e as [error response|c msg].
    + eexists. split; [reflexivity|]. split; [discriminate|].
      intros (r & payload & Hr & Hacc & _). destruct (Hno r payload Hr Hacc).
    + eexists. split; [reflexivity|]. split; [discriminate|].
      intros (r & payload & Hr & Hacc & _). destruct (Hno r payload Hr Hacc).
Qed.
